(** * Detection and decision core of debian_gaming_setup.py

    A shallow embedding of the methods of [GamingSetup] that probe the
    host (virtualization, GPU, package versions), run commands and ask
    for confirmation, followed by the properties the specification
    states about them.

    Conventions of the model.
    - A Python [str] is a [string]; a character is a code point below
      256, on which [str.lower] and [str.isspace] are those of Python.
    - [subprocess.run] and [input] are the only ways the methods reach
      the outside world.  The state carries what the host would answer
      ([host], [stdin]) and a record of what was asked of it
      ([spawned], [reads]), so that "this probe is not invoked" is a
      statement about [spawned].
    - [print] and [logging] calls are not modelled: no method below
      reads back what it printed or logged. *)

From Stdlib Require Import String Ascii List ZArith NArith Bool Lia.
From Stdlib Require Import DecimalString.
Import ListNotations.
Local Open Scope list_scope.
Local Open Scope string_scope.

(* ------------------------------------------------------------------ *)
(** ** Python string operations *)

Module PyStr.

Definition nl : string := String "010"%char "".

(** [c.lower()] for one character. *)
Definition lower_char (c : ascii) : ascii :=
  let n := N_of_ascii c in
  if (((65 <=? n) && (n <=? 90)) ||
      ((192 <=? n) && (n <=? 222) && negb (n =? 215)))%N
  then ascii_of_N (n + 32) else c.

(** [s.lower()] *)
Fixpoint lower (s : string) : string :=
  match s with
  | EmptyString => EmptyString
  | String c r => String (lower_char c) (lower r)
  end.

(** [c.isspace()] *)
Definition isspace (c : ascii) : bool :=
  let n := N_of_ascii c in
  (((9 <=? n) && (n <=? 13)) || ((28 <=? n) && (n <=? 32)) ||
   (n =? 133) || (n =? 160))%N.

Fixpoint lstrip (s : string) : string :=
  match s with
  | EmptyString => EmptyString
  | String c r => if isspace c then lstrip r else s
  end.

Fixpoint rstrip (s : string) : string :=
  match s with
  | EmptyString => EmptyString
  | String c r =>
      match rstrip r with
      | EmptyString => if isspace c then EmptyString else String c EmptyString
      | r' => String c r'
      end
  end.

(** [s.strip()] *)
Definition strip (s : string) : string := rstrip (lstrip s).

(** [sub in s] *)
Fixpoint str_in (sub s : string) : bool :=
  prefix sub s ||
  match s with
  | EmptyString => false
  | String _ r => str_in sub r
  end.

(** [c in s] for a single character [c]. *)
Fixpoint has_char (c : ascii) (s : string) : bool :=
  match s with
  | EmptyString => false
  | String x r => Ascii.eqb x c || has_char c r
  end.

(** [s.split(sep)] for a one-character separator, which is what every
    call in the modelled methods passes. *)
Fixpoint split (sep : ascii) (s : string) : list string :=
  match s with
  | EmptyString => [EmptyString]
  | String c r =>
      if Ascii.eqb c sep then EmptyString :: split sep r
      else match split sep r with
           | [] => [String c EmptyString]
           | w :: ws => String c w :: ws
           end
  end.

(** [sep.join(l)] *)
Definition join (sep : string) (l : list string) : string := String.concat sep l.

(** [s.replace(old, new)] for a non-empty [old]: occurrences are
    replaced from the left and do not overlap.  [skip] counts the
    characters of a matched occurrence still to be dropped. *)
Fixpoint replace_from (skip : nat) (old new s : string) : string :=
  match s with
  | EmptyString => EmptyString
  | String c r =>
      match skip with
      | S k => replace_from k old new r
      | O => if prefix old s
             then new ++ replace_from (String.length old - 1) old new r
             else String c (replace_from 0 old new r)
      end
  end.

Definition replace (old new s : string) : string := replace_from 0 old new s.

(** [s[:n]] *)
Definition take (n : nat) (s : string) : string := substring 0 n s.

(** [x in l] for a list of strings. *)
Definition in_list (x : string) (l : list string) : bool :=
  existsb (String.eqb x) l.

(** [any(k in s for k in keys)] *)
Definition any_in (keys : list string) (s : string) : bool :=
  existsb (fun k => str_in k s) keys.

(** [d.get(key, default)] on a dict written as its list of items. *)
Fixpoint dict_get (d : list (string * string)) (key default : string) : string :=
  match d with
  | [] => default
  | (k, v) :: d' => if String.eqb k key then v else dict_get d' key default
  end.

(** Truth value of an [Optional[str]]: [None] and [''] are false. *)
Definition truthy (o : option string) : bool :=
  match o with
  | Some s => negb (String.eqb s "")
  | None => false
  end.

(** [if o:] binds the value only when it is true. *)
Definition nonempty (o : option string) : option string :=
  if truthy o then o else None.

(** [a != b] on [Optional[str]] values. *)
Definition opt_neq (a b : option string) : bool :=
  match a, b with
  | Some x, Some y => negb (String.eqb x y)
  | None, None => false
  | _, _ => true
  end.

(** [for x in l: if p(x): ... break]: the first element the loop
    acts on. *)
Definition first_where (p : string -> bool) (l : list string) : option string :=
  find p l.

(** [str(n)] for a non-negative integer. *)
Definition str_of_nat (n : nat) : string :=
  NilEmpty.string_of_uint (Nat.to_uint n).

End PyStr.
Import PyStr.

(* ------------------------------------------------------------------ *)
(** ** Enumerations and data classes *)

Module GPUVendor.
Inductive t : Set := NVIDIA | AMD | INTEL | VIRTUAL | UNKNOWN.
End GPUVendor.

Module VMType.
Inductive t : Set :=
  VMWARE | VIRTUALBOX | KVM | QEMU | HYPERV | XEN | PARALLELS | NONE.
End VMType.

(** The fields of [HardwareInfo] that the modelled methods assign. *)
Record HardwareInfo : Set := mkHardwareInfo {
  gpu_vendor : GPUVendor.t;
  gpu_model : string;
  vm_type : VMType.t
}.

(** [HardwareInfo()] *)
Definition HardwareInfo_default : HardwareInfo :=
  mkHardwareInfo GPUVendor.UNKNOWN "Unknown" VMType.NONE.

(** The "script behavior" flags of [InstallationConfig] that the
    modelled methods read. *)
Record InstallationConfig : Set := mkConfig {
  dry_run : bool;
  auto_yes : bool
}.

(* ------------------------------------------------------------------ *)
(** ** The outside world: processes and the terminal *)

(** First argument of [subprocess.run]: an argument list or, with
    [shell=True], a command line. *)
Inductive Cmd : Set :=
| Argv (args : list string)
| CmdLine (line : string).

(** One call of [subprocess.run]. *)
Record Spawn : Set := mkSpawn {
  sp_cmd : Cmd;
  sp_shell : bool;
  sp_timeout : nat
}.

(** What the host does with a spawned command. *)
Inductive HostOutcome : Set :=
| Exited (returncode : Z) (stdout stderr : string)
| TimedOut
| CannotStart (msg : string).

(** What [subprocess.run(..., capture_output=True, text=True)] gives its
    caller: a completed process or one of its exceptions.  [Raised msg]
    stands for any exception other than the two named ones
    ([FileNotFoundError], [PermissionError], ...) with [str(e) = msg]. *)
Inductive RunResult : Set :=
| CompletedProcess (returncode : Z) (stdout stderr : string)
| TimeoutExpired
| CalledProcessError (returncode : Z) (stdout stderr : string)
| Raised (msg : string).

(** What [input()] meets on the terminal. *)
Inductive InputEvent : Set :=
| Answer (line : string)
| KeyboardInterrupt.

(** The [GamingSetup] object together with the world it runs in.
    [host] answers a spawn given the spawns made before it; [spawned]
    lists the spawns made so far, oldest first; [stdin] is what is still
    to be read (at its end [input()] raises [EOFError]) and [reads]
    counts the calls of [input()]. *)
Record State : Type := mkState {
  config : InstallationConfig;
  hardware_info : HardwareInfo;
  failed_operations : list string;
  host : list Spawn -> Spawn -> HostOutcome;
  spawned : list Spawn;
  stdin : list InputEvent;
  reads : nat
}.

Definition set_hardware_info (h : HardwareInfo) (st : State) : State :=
  mkState (config st) h (failed_operations st)
          (host st) (spawned st) (stdin st) (reads st).

Definition set_failed_operations (l : list string) (st : State) : State :=
  mkState (config st) (hardware_info st) l
          (host st) (spawned st) (stdin st) (reads st).

Definition set_spawned (l : list Spawn) (st : State) : State :=
  mkState (config st) (hardware_info st) (failed_operations st)
          (host st) l (stdin st) (reads st).

Definition set_terminal (pending : list InputEvent) (n : nat) (st : State) : State :=
  mkState (config st) (hardware_info st) (failed_operations st)
          (host st) (spawned st) pending n.

(** Methods are state transformers. *)
Definition M (A : Type) : Type := State -> A * State.

Definition ret {A : Type} (a : A) : M A := fun st => (a, st).

Definition bind {A B : Type} (m : M A) (k : A -> M B) : M B :=
  fun st => let (a, st') := m st in k a st'.

Declare Scope method_scope.
Delimit Scope method_scope with method.
Notation "x <- m ;; k" := (bind m (fun x => k))
  (at level 61, m at next level, right associativity) : method_scope.
Notation "m ;;; k" := (bind m (fun _ => k))
  (at level 61, right associativity) : method_scope.
Local Open Scope method_scope.

Definition get_config : M InstallationConfig := fun st => (config st, st).

(** [self.hardware_info.gpu_vendor = v] and its two siblings. *)
Definition assign_gpu_vendor (v : GPUVendor.t) : M unit :=
  fun st =>
    let h := hardware_info st in
    (tt, set_hardware_info (mkHardwareInfo v (gpu_model h) (vm_type h)) st).

Definition assign_gpu_model (m : string) : M unit :=
  fun st =>
    let h := hardware_info st in
    (tt, set_hardware_info (mkHardwareInfo (gpu_vendor h) m (vm_type h)) st).

Definition assign_vm_type (v : VMType.t) : M unit :=
  fun st =>
    let h := hardware_info st in
    (tt, set_hardware_info (mkHardwareInfo (gpu_vendor h) (gpu_model h) v) st).

(** [self.failed_operations.append(msg)] *)
Definition failed_operations_append (msg : string) : M unit :=
  fun st => (tt, set_failed_operations (failed_operations st ++ [msg])%list st).

(** What [subprocess.run] makes of the host's outcome: [check] turns a
    non-zero exit into [CalledProcessError]. *)
Definition result_of (check : bool) (o : HostOutcome) : RunResult :=
  match o with
  | Exited rc out err =>
      if check && negb (rc =? 0)%Z
      then CalledProcessError rc out err
      else CompletedProcess rc out err
  | TimedOut => TimeoutExpired
  | CannotStart msg => Raised msg
  end.

(** [subprocess.run(cmd, shell=shell, check=check, capture_output=True,
    text=True, timeout=timeout)]: the spawn is recorded and the host
    answers. *)
Definition subprocess_run (cmd : Cmd) (shell check : bool) (timeout : nat)
  : M RunResult :=
  fun st =>
    let sp := mkSpawn cmd shell timeout in
    (result_of check (host st (spawned st) sp),
     set_spawned (spawned st ++ [sp])%list st).

(** The probes call [subprocess.run(argv, capture_output=True,
    text=True, timeout=5)]. *)
Definition probe (argv : list string) : M RunResult :=
  subprocess_run (Argv argv) false false 5.

(** The spawn such a probe records. *)
Definition probe_spawn (argv : list string) : Spawn := mkSpawn (Argv argv) false 5.

(* ------------------------------------------------------------------ *)
(** ** Command execution and user interaction *)

(** [GamingSetup.run_command].  [env] only adds
    [DEBIAN_FRONTEND=noninteractive] to the child's environment and is
    left to [host]. *)
Definition run_command (cmd : Cmd) (description : string)
           (check shell : bool) (timeout : nat) : M (bool * string * string) :=
  cfg <- get_config ;;
  if dry_run cfg then ret (true, "", "")
  else
    result <- subprocess_run cmd shell check timeout ;;
    match result with
    | CompletedProcess rc out err =>
        if (rc =? 0)%Z then ret (true, out, err)
        else ret (false, out, err)
    | TimeoutExpired =>
        let msg := "TIMEOUT: " ++ description ++ " (exceeded "
                   ++ str_of_nat timeout ++ " seconds)" in
        failed_operations_append msg ;;;
        ret (false, "", msg)
    | CalledProcessError _ out err =>
        let msg := "FAILED: " ++ description in
        failed_operations_append msg ;;;
        ret (false, out, err)
    | Raised e =>
        let msg := "EXCEPTION: " ++ description ++ " - " ++ e in
        failed_operations_append msg ;;;
        ret (false, "", e)
    end.

(** The [while True] loop of [confirm], run on what is pending on the
    terminal; [n] counts the reads. *)
Fixpoint confirm_loop (pending : list InputEvent) (n : nat)
  : bool * list InputEvent * nat :=
  match pending with
  | [] => (false, [], S n)
  | KeyboardInterrupt :: rest => (false, rest, S n)
  | Answer line :: rest =>
      let response := lower line in
      if in_list response ["y"; "yes"] then (true, rest, S n)
      else if in_list response ["n"; "no"] then (false, rest, S n)
      else confirm_loop rest (S n)
  end.

(** [GamingSetup.confirm] *)
Definition confirm (question : string) : M bool :=
  cfg <- get_config ;;
  if auto_yes cfg then ret true
  else if dry_run cfg then ret true
  else fun st =>
    let '(answer, rest, n) := confirm_loop (stdin st) (reads st) in
    (answer, set_terminal rest n st).

(* ------------------------------------------------------------------ *)
(** ** Package management *)

(** [GamingSetup.is_package_installed] *)
Definition is_package_installed (package_name : string) : M bool :=
  result <- probe ["dpkg"; "-l"; package_name] ;;
  match result with
  | CompletedProcess rc out _ => ret ((rc =? 0)%Z && str_in "ii" out)
  | _ => ret false
  end.

(** [GamingSetup.get_package_version] *)
Definition get_package_version (package_name : string) : M (option string) :=
  result <- probe ["dpkg-query"; "-W"; "-f=${Version}"; package_name] ;;
  match result with
  | CompletedProcess rc out _ =>
      if (rc =? 0)%Z then ret (Some (strip out)) else ret None
  | _ => ret None
  end.

(** [line.split(':')[1].strip()]; an [IndexError] is caught by the
    enclosing bare [except] and ends the method with [None]. *)
Definition field_after_colon (line : string) : option string :=
  match split ":" line with
  | _ :: f :: _ => Some (strip f)
  | _ => None
  end.

(** The loop shared by [get_available_version] and
    [get_flatpak_version]: the first line holding [key] decides. *)
Definition version_line (key out : string) : option string :=
  match first_where (str_in key) (split "010" out) with
  | Some line => field_after_colon line
  | None => None
  end.

(** [GamingSetup.get_available_version] *)
Definition get_available_version (package_name : string) : M (option string) :=
  result <- probe ["apt-cache"; "policy"; package_name] ;;
  match result with
  | CompletedProcess rc out _ =>
      if (rc =? 0)%Z then ret (version_line "Candidate:" out) else ret None
  | _ => ret None
  end.

(** [GamingSetup.is_flatpak_installed] *)
Definition is_flatpak_installed (app_id : string) : M bool :=
  result <- probe ["flatpak"; "list"; "--app"] ;;
  match result with
  | CompletedProcess _ out _ => ret (str_in app_id out)
  | _ => ret false
  end.

(** [GamingSetup.get_flatpak_version] *)
Definition get_flatpak_version (app_id : string) : M (option string) :=
  result <- probe ["flatpak"; "info"; app_id] ;;
  match result with
  | CompletedProcess rc out _ =>
      if (rc =? 0)%Z then ret (version_line "Version:" out) else ret None
  | _ => ret None
  end.

(** [GamingSetup.check_updates_available] *)
Definition check_updates_available (package_name : string)
  : M (bool * option string * option string) :=
  installed <- get_package_version package_name ;;
  available <- get_available_version package_name ;;
  if truthy installed && truthy available && opt_neq installed available
  then ret (true, installed, available)
  else ret (false, installed, available).

(** What [prompt_install_or_update] knows before it asks:
    [(is_installed, current_version, available_version,
    update_available)]. *)
Definition PackageStatus : Set := (bool * option string * option string * bool)%type.

Definition status_unknown : PackageStatus := (false, None, None, false).

(** [GamingSetup.prompt_install_or_update] *)
Definition prompt_install_or_update (software_name : string)
           (package_name flatpak_id : option string) : M bool :=
  cfg <- get_config ;;
  if auto_yes cfg then ret true
  else
    s1 <- match nonempty package_name with
          | Some pkg =>
              is_installed <- is_package_installed pkg ;;
              if is_installed then
                current_version <- get_package_version pkg ;;
                available_version <- get_available_version pkg ;;
                ret (true, current_version, available_version,
                     opt_neq current_version available_version)
              else ret status_unknown
          | None => ret status_unknown
          end ;;
    let '(is_installed, current_version, available_version, update_available) := s1 in
    s2 <- match nonempty flatpak_id with
          | Some app =>
              if negb is_installed then
                is_installed <- is_flatpak_installed app ;;
                if is_installed then
                  current_version <- get_flatpak_version app ;;
                  ret (true, current_version, available_version, update_available)
                else ret (false, current_version, available_version, update_available)
              else ret s1
          | None => ret s1
          end ;;
    let '(is_installed, current_version, available_version, update_available) := s2 in
    if is_installed then
      if update_available && truthy available_version
      then confirm ("Update " ++ software_name ++ "?")
      else confirm ("Reinstall " ++ software_name ++ "?")
    else confirm ("Install " ++ software_name ++ "?").

(* ------------------------------------------------------------------ *)
(** ** Virtualization detection *)

(** [virt_map] of [detect_virtualization] *)
Definition virt_map : list (string * string) :=
  [ ("vmware", "VMware");
    ("kvm", "KVM");
    ("qemu", "QEMU");
    ("virtualbox", "VirtualBox");
    ("oracle", "VirtualBox");
    ("microsoft", "Hyper-V");
    ("xen", "Xen");
    ("bochs", "Bochs");
    ("parallels", "Parallels") ].

(** Method 1: what the [systemd-detect-virt] block returns, [None]
    when it falls through to the next method. *)
Definition method1 (result : RunResult) : option string :=
  match result with
  | CompletedProcess _ out _ =>
      let virt_type := strip out in
      if negb (virt_type =? "") && negb (virt_type =? "none")
      then Some (dict_get virt_map (lower virt_type) virt_type)
      else None
  | _ => None
  end.

(** Method 2: the [dmesg] block. *)
Definition method2 (result : RunResult) : option string :=
  match result with
  | CompletedProcess _ out _ =>
      let dmesg := lower out in
      if str_in "vmware" dmesg then Some "VMware"
      else if str_in "virtualbox" dmesg then Some "VirtualBox"
      else if str_in "hypervisor detected" dmesg then Some "VM"
      else None
  | _ => None
  end.

(** Method 3: the [lspci] block. *)
Definition method3 (result : RunResult) : option string :=
  match result with
  | CompletedProcess _ out _ =>
      let lspci := lower out in
      if str_in "vmware" lspci then Some "VMware"
      else if str_in "virtualbox" lspci then Some "VirtualBox"
      else if str_in "qxl" lspci || str_in "virtio" lspci then Some "KVM/QEMU"
      else None
  | _ => None
  end.

(** The three spawns of the chain. *)
Definition sp_virt : Spawn := probe_spawn ["systemd-detect-virt"].
Definition sp_dmesg : Spawn := probe_spawn ["dmesg"].
Definition sp_lspci : Spawn := probe_spawn ["lspci"].
Definition sp_glxinfo : Spawn := probe_spawn ["glxinfo"].

(** [GamingSetup.detect_virtualization] *)
Definition detect_virtualization : M (option string) :=
  r1 <- probe ["systemd-detect-virt"] ;;
  match method1 r1 with
  | Some v => ret (Some v)
  | None =>
      r2 <- probe ["dmesg"] ;;
      match method2 r2 with
      | Some v => ret (Some v)
      | None =>
          r3 <- probe ["lspci"] ;;
          ret (method3 r3)
      end
  end.

(** [GamingSetup._vm_type_str_to_enum] *)
Definition _vm_type_str_to_enum (vm_str : string) : VMType.t :=
  let vm_lower := lower vm_str in
  if str_in "vmware" vm_lower then VMType.VMWARE
  else if str_in "virtualbox" vm_lower || str_in "oracle" vm_lower then VMType.VIRTUALBOX
  else if str_in "kvm" vm_lower then VMType.KVM
  else if str_in "qemu" vm_lower then VMType.QEMU
  else if str_in "hyper-v" vm_lower || str_in "microsoft" vm_lower then VMType.HYPERV
  else if str_in "xen" vm_lower then VMType.XEN
  else if str_in "parallels" vm_lower then VMType.PARALLELS
  else VMType.NONE.

(* ------------------------------------------------------------------ *)
(** ** GPU detection *)

(** [GamingSetup._extract_gpu_model] *)
Definition _extract_gpu_model (lspci_line : string) : string :=
  let parts := split ":" lspci_line in
  if (3 <=? List.length parts)%nat then
    let model := strip (join ":" (skipn 2 parts)) in
    let model := strip (replace "vga compatible controller:" "" model) in
    let model := strip (replace "3d controller:" "" model) in
    let model := strip (replace "display controller:" "" model) in
    take 80 model
  else "Unknown Model".

(** The filter of [detect_gpu] that keeps the VGA/3D/Display lines of
    the lowered [lspci] output. *)
Definition gpu_lines_of (lspci_output : string) : list string :=
  filter (any_in ["vga"; "3d"; "display"]) (split "010" lspci_output).

(** [gpu_info = ' '.join(gpu_lines).lower()] *)
Definition gpu_info_of (gpu_lines : list string) : string :=
  lower (join " " gpu_lines).

(** The inner [try] of [detect_gpu]: the lowered renderer line of
    [glxinfo], [""] when there is none. *)
Definition gl_info_of (gl_result : RunResult) : string :=
  match gl_result with
  | CompletedProcess rc out _ =>
      if (rc =? 0)%Z then
        match first_where (str_in "OpenGL renderer") (split "010" out) with
        | Some line => lower line
        | None => ""
        end
      else ""
  | _ => ""
  end.

Definition vm_indicators : list string :=
  ["vmware"; "virtualbox"; "qxl"; "virtio"; "svga3d"].

Definition amd_indicators : list string := ["amd"; "radeon"; "ati"].

Definition intel_gpu_terms : list string :=
  ["graphics"; "hd"; "iris"; "uhd"; "arc"].

(** [any(k in gpu_info or k in gl_info for k in keys)] *)
Definition any_in_either (keys : list string) (gpu_info gl_info : string) : bool :=
  existsb (fun k => str_in k gpu_info || str_in k gl_info) keys.

(** The vendor tests of [detect_gpu], from "Check for virtual/emulated
    GPUs first" to "No GPU detected at all", as a function of the
    variables they read.  The result is the vendor assigned to
    [hardware_info.gpu_vendor], the model assigned to
    [hardware_info.gpu_model] when an assignment is made, and the string
    returned. *)
Definition classify_gpu (gpu_lines : list string) (gl_info : string)
  : GPUVendor.t * option string * string :=
  let gpu_info := gpu_info_of gpu_lines in
  if any_in_either vm_indicators gpu_info gl_info then
    (GPUVendor.VIRTUAL, None, "generic")
  else if str_in "nvidia" gpu_info || str_in "nvidia" gl_info then
    (GPUVendor.NVIDIA,
     option_map _extract_gpu_model (first_where (str_in "nvidia") gpu_lines),
     "nvidia")
  else if any_in_either amd_indicators gpu_info gl_info then
    (GPUVendor.AMD,
     option_map _extract_gpu_model (first_where (any_in amd_indicators) gpu_lines),
     "amd")
  else if str_in "intel" gpu_info && any_in intel_gpu_terms gpu_info then
    (GPUVendor.INTEL,
     option_map _extract_gpu_model (first_where (str_in "intel") gpu_lines),
     "intel")
  else match gpu_lines with
       | _ :: _ => (GPUVendor.UNKNOWN, None, "generic")
       | [] => (GPUVendor.UNKNOWN, None, "unknown")
       end.

(** The hardware scan of [detect_gpu]: everything after the
    virtualization test. *)
Definition hardware_scan : M string :=
  result <- probe ["lspci"] ;;
  match result with
  | CompletedProcess _ out _ =>
      let lspci_output := lower out in
      let gpu_lines := gpu_lines_of lspci_output in
      gl_result <- probe ["glxinfo"] ;;
      let gl_info := gl_info_of gl_result in
      let '(vendor, model, answer) := classify_gpu gpu_lines gl_info in
      assign_gpu_vendor vendor ;;;
      match model with
      | Some m => assign_gpu_model m
      | None => ret tt
      end ;;;
      ret answer
  | _ =>
      assign_gpu_vendor GPUVendor.UNKNOWN ;;;
      ret "unknown"
  end.

(** [GamingSetup.detect_gpu] *)
Definition detect_gpu : M string :=
  vm <- detect_virtualization ;;
  match nonempty vm with
  | Some vm_type =>
      assign_vm_type (_vm_type_str_to_enum vm_type) ;;;
      assign_gpu_vendor GPUVendor.VIRTUAL ;;;
      ret (lower vm_type)
  | None => hardware_scan
  end.

(* ------------------------------------------------------------------ *)
(** ** Vocabulary of the statements *)

(** What the host answers to each probe of the chain when the chain
    starts in [st]. *)
Definition answer1 (st : State) : HostOutcome :=
  host st (spawned st) sp_virt.
Definition answer2 (st : State) : HostOutcome :=
  host st (spawned st ++ [sp_virt])%list sp_dmesg.
Definition answer3 (st : State) : HostOutcome :=
  host st (spawned st ++ [sp_virt; sp_dmesg])%list sp_lspci.

(** A probe that fails to launch, times out, or prints nothing or
    [none]. *)
Definition quiet (o : HostOutcome) : Prop :=
  match o with
  | Exited _ out _ => strip out = "" \/ strip out = "none"
  | TimedOut | CannotStart _ => True
  end.

(** The oracle prints a token that is neither empty nor [none]. *)
Definition definitive (o : HostOutcome) : Prop :=
  match o with
  | Exited _ out _ => strip out <> "" /\ strip out <> "none"
  | TimedOut | CannotStart _ => False
  end.

(** The names the kernel-log block and the device-listing block look
    for in the lower-cased output. *)
Definition dmesg_markers : list string :=
  ["vmware"; "virtualbox"; "hypervisor detected"].
Definition lspci_markers : list string :=
  ["vmware"; "virtualbox"; "qxl"; "virtio"].

(** A scan that ran and whose output holds one of [markers], in any
    letter case; [false] for a scan that timed out or failed to start. *)
Definition marked (markers : list string) (o : HostOutcome) : bool :=
  match o with
  | Exited _ out _ => any_in markers (lower out)
  | TimedOut | CannotStart _ => false
  end.

(* ------------------------------------------------------------------ *)
(** ** Example hosts *)

Fixpoint argv_eqb (a b : list string) : bool :=
  match a, b with
  | [], [] => true
  | x :: a', y :: b' => String.eqb x y && argv_eqb a' b'
  | _, _ => false
  end.

Definition no_such_file : HostOutcome :=
  CannotStart "[Errno 2] No such file or directory".

(** A host that answers each argument list as [table] says, whatever
    was spawned before, and has no other program. *)
Fixpoint scripted (table : list (list string * HostOutcome))
         (history : list Spawn) (sp : Spawn) : HostOutcome :=
  match table with
  | [] => no_such_file
  | (argv, o) :: table' =>
      match sp_cmd sp with
      | Argv a => if argv_eqb a argv then o else scripted table' history sp
      | CmdLine _ => scripted table' history sp
      end
  end.

(** A new [GamingSetup] on such a host. *)
Definition fresh (cfg : InstallationConfig)
           (table : list (list string * HostOutcome))
           (input : list InputEvent) : State :=
  mkState cfg HardwareInfo_default [] (scripted table) [] input 0.

Definition interactive : InstallationConfig := mkConfig false false.

(** A KVM guest whose [lspci] would list an NVIDIA card. *)
Definition st_kvm_guest : State :=
  fresh interactive
        [ (["systemd-detect-virt"], Exited 0 ("kvm" ++ nl) "");
          (["lspci"], Exited 0
             ("01:00.0 VGA compatible controller: NVIDIA Corporation GA104" ++ nl) "") ]
        [].

(** No oracle; the kernel log names VirtualBox. *)
Definition st_vbox_dmesg : State :=
  fresh interactive
        [ (["dmesg"], Exited 0
             ("[    0.000000] DMI: innotek GmbH VirtualBox/VirtualBox" ++ nl) "") ]
        [].

(** A physical machine: the oracle says [none] and exits 1, [dmesg] is
    not permitted, [lspci] times out. *)
Definition st_physical_quiet : State :=
  fresh interactive
        [ (["systemd-detect-virt"], Exited 1 ("none" ++ nl) "");
          (["dmesg"], CannotStart "[Errno 13] Permission denied: 'dmesg'");
          (["lspci"], TimedOut) ]
        [].

(** [--dry-run] on a host where every program is missing. *)
Definition st_dry_run : State := fresh (mkConfig true false) [] [].

(** [--yes] on a host where [steam] is installed and is its own
    candidate; nothing is typed on the terminal. *)
Definition st_auto_yes_installed : State :=
  fresh (mkConfig false true)
        [ (["dpkg"; "-l"; "steam"], Exited 0 ("ii  steam  1.0  amd64  launcher" ++ nl) "");
          (["dpkg-query"; "-W"; "-f=${Version}"; "steam"], Exited 0 "1.0" "");
          (["apt-cache"; "policy"; "steam"],
           Exited 0 ("steam:" ++ nl ++ "  Installed: 1.0" ++ nl
                     ++ "  Candidate: 1.0" ++ nl) "") ]
        [].

(** [apt-get update] fails with exit status 100 on broken
    repositories. *)
Definition apt_update_error : string :=
  "E: The repository 'http://ppa.launchpad.net/lutris-team/lutris/ubuntu noble Release' does not have a Release file.".

Definition st_broken_repo : State :=
  fresh interactive
        [ (["apt-get"; "update"], Exited 100 "" apt_update_error);
          (["wget"; "-q"; "https://example.org/key.gpg"], TimedOut) ]
        [].

(** A host where [dpkg-query] prints [installed] for [steam] and
    [apt-cache policy] names [candidate]. *)
Definition st_versions (installed candidate : string) : State :=
  fresh interactive
        [ (["dpkg-query"; "-W"; "-f=${Version}"; "steam"], Exited 0 installed "");
          (["apt-cache"; "policy"; "steam"],
           Exited 0 ("steam:" ++ nl ++ "  Installed: " ++ installed ++ nl
                     ++ "  Candidate: " ++ candidate ++ nl
                     ++ "  Version table:" ++ nl) "") ]
        [].

(** A guest whose oracle prints the token [token]. *)
Definition st_oracle (token : string) : State :=
  fresh interactive [ (["systemd-detect-virt"], Exited 0 (token ++ nl) "") ] [].

(** A physical machine with the given [lspci] and [glxinfo] output:
    the oracle says [none], the kernel log is empty. *)
Definition st_physical (lspci_out glxinfo_out : string) : State :=
  fresh interactive
        [ (["systemd-detect-virt"], Exited 1 ("none" ++ nl) "");
          (["dmesg"], Exited 0 "" "");
          (["lspci"], Exited 0 lspci_out "");
          (["glxinfo"], Exited 0 glxinfo_out "") ]
        [].

(** A laptop with an Intel and an NVIDIA GPU. *)
Definition lspci_optimus : string :=
  "00:02.0 VGA compatible controller: Intel Corporation UHD Graphics 630" ++ nl
  ++ "00:1f.3 Audio device: Intel Corporation Cannon Lake PCH cAVS" ++ nl
  ++ "01:00.0 3D controller: NVIDIA Corporation GP107M [GeForce GTX 1050 Mobile]" ++ nl.

Definition glxinfo_optimus : string :=
  "OpenGL vendor string: Intel" ++ nl
  ++ "OpenGL renderer string: Mesa Intel(R) UHD Graphics 630 (CFL GT2)" ++ nl.

(** A machine with an Intel and an AMD GPU. *)
Definition lspci_amd_intel : string :=
  "00:02.0 Display controller: Intel Corp. UHD Graphics 630" ++ nl
  ++ "01:00.0 Display controller: Advanced Micro Devices [AMD] Radeon RX 560" ++ nl.

Definition glxinfo_amd : string :=
  "OpenGL renderer string: AMD Radeon RX 560 Series" ++ nl.

(** A display controller that [lspci] cannot name, rendered by an
    Intel driver. *)
Definition lspci_unnamed : string :=
  "00:02.0 Display controller: Device 9a49 (rev 01)" ++ nl.

Definition glxinfo_intel : string :=
  "OpenGL renderer string: Mesa Intel(R) UHD Graphics (TGL GT1)" ++ nl.

(** An Intel display controller listed with and without a graphics
    term. *)
Definition lspci_intel_plain : string :=
  "00:02.0 Display controller: Intel Corp. Device 9a49" ++ nl.

Definition lspci_intel_iris : string :=
  "00:02.0 Display controller: Intel Corp. Iris Xe" ++ nl.

(* ------------------------------------------------------------------ *)
(** ** System detection *)

(** [d.get(key)] without a default: [None] when the key is missing. *)
Fixpoint dict_find (d : list (string * string)) (key : string) : option string :=
  match d with
  | [] => None
  | (k, v) :: d' => if String.eqb k key then Some v else dict_find d' key
  end.

(** [d[key] = value]: the newest item is the one a lookup finds. *)
Definition dict_set (d : list (string * string)) (key value : string)
  : list (string * string) :=
  (key, value) :: d.

Fixpoint lstrip_chars (p : ascii -> bool) (s : string) : string :=
  match s with
  | EmptyString => EmptyString
  | String c r => if p c then lstrip_chars p r else s
  end.

Fixpoint rstrip_chars (p : ascii -> bool) (s : string) : string :=
  match s with
  | EmptyString => EmptyString
  | String c r =>
      match rstrip_chars p r with
      | EmptyString => if p c then EmptyString else String c EmptyString
      | r' => String c r'
      end
  end.

(** [s.strip(chars)], [p] telling the characters of [chars]. *)
Definition strip_chars (p : ascii -> bool) (s : string) : string :=
  rstrip_chars p (lstrip_chars p s).

(** The double quote, the one character [value.strip] is given. *)
Definition is_quote (c : ascii) : bool := Ascii.eqb c "034".

(** [s.split(sep, 1)]: the text before the first [sep] and, when there
    is a [sep], the text after it. *)
Fixpoint split1 (sep : ascii) (s : string) : string * option string :=
  match s with
  | EmptyString => (EmptyString, None)
  | String c r =>
      if Ascii.eqb c sep then (EmptyString, Some r)
      else let (a, b) := split1 sep r in (String c a, b)
  end.

(** Text mode with universal newlines, the default of [open]: a
    carriage return, alone or before a line feed, reaches the program as
    one line feed. *)
Fixpoint universal_newlines (s : string) : string :=
  match s with
  | EmptyString => EmptyString
  | String c r =>
      if Ascii.eqb c "013" then
        match r with
        | EmptyString => String "010" EmptyString
        | String c' r' =>
            if Ascii.eqb c' "010" then String "010" (universal_newlines r')
            else String "010" (universal_newlines r)
        end
      else String c (universal_newlines r)
  end.

(** The lines of a text, each with the line feed that ends it. *)
Fixpoint lines_of (s : string) : list string :=
  match s with
  | EmptyString => []
  | String c r =>
      if Ascii.eqb c "010" then String c EmptyString :: lines_of r
      else match lines_of r with
           | [] => [String c EmptyString]
           | l :: ls => String c l :: ls
           end
  end.

(** [for line in f], [f] opened in text mode on a file that holds the
    characters [s]: a line ends at a line feed, at a carriage return,
    or at the two together, and is handed over ending in a line feed. *)
Definition readlines (s : string) : list string :=
  lines_of (universal_newlines s).

Module DistroFamily.
Inductive t : Set :=
  DEBIAN | UBUNTU | MINT | KALI | POPOS | ELEMENTARY | ZORIN | UNKNOWN.
End DistroFamily.

Record SystemInfo : Set := mkSystemInfo {
  distro_name : string;
  distro_version : string;
  distro_id : string;
  distro_family : DistroFamily.t;
  kernel_version : string;
  architecture : string;
  desktop_environment : string;
  is_wsl : bool
}.

(** What [detect_system] reads of the machine: [os.environ], the text
    of [/etc/os-release] ([None] when [open] raises),
    [platform.release()], [platform.machine()] and whether
    [/proc/sys/fs/binfmt_misc/WSLInterop] exists. *)
Record Environment : Set := mkEnvironment {
  environ : list (string * string);
  os_release_file : option string;
  platform_release : string;
  platform_machine : string;
  wsl_interop_exists : bool
}.

(** [get_real_user] *)
Definition get_real_user (env : Environment) : string :=
  match nonempty (dict_find (environ env) "SUDO_USER") with
  | Some sudo_user => sudo_user
  | None => dict_get (environ env) "USER" "root"
  end.

(** One turn of the loop of [detect_system] over [/etc/os-release];
    [None] is the [ValueError] of unpacking fewer than two values. *)
Definition os_release_line (os_release : list (string * string)) (line : string)
  : option (list (string * string)) :=
  if str_in "=" line then
    match split1 "=" (strip line) with
    | (key, Some value) => Some (dict_set os_release key (strip_chars is_quote value))
    | (_, None) => None
    end
  else Some os_release.

Fixpoint os_release_lines (os_release : list (string * string))
         (lines : list string) : option (list (string * string)) :=
  match lines with
  | [] => Some os_release
  | line :: rest =>
      match os_release_line os_release line with
      | Some d => os_release_lines d rest
      | None => None
      end
  end.

(** The dictionary [detect_system] builds from the text of the file. *)
Definition read_os_release (content : string) : option (list (string * string)) :=
  os_release_lines [] (readlines content).

(** [GamingSetup._detect_distro_family] *)
Definition _detect_distro_family (os_release : list (string * string))
  : DistroFamily.t :=
  let name_lower := lower (dict_get os_release "NAME" "") in
  let id_like := lower (dict_get os_release "ID_LIKE" "") in
  let distro_id := lower (dict_get os_release "ID" "") in
  if str_in "mint" name_lower || str_in "mint" distro_id then DistroFamily.MINT
  else if str_in "kali" name_lower || str_in "kali" distro_id then DistroFamily.KALI
  else if str_in "pop" name_lower || str_in "pop" distro_id then DistroFamily.POPOS
  else if str_in "elementary" name_lower || str_in "elementary" distro_id
       then DistroFamily.ELEMENTARY
  else if str_in "zorin" name_lower || str_in "zorin" distro_id then DistroFamily.ZORIN
  else if str_in "ubuntu" name_lower || str_in "ubuntu" id_like
          || str_in "ubuntu" distro_id then DistroFamily.UBUNTU
  else if str_in "debian" name_lower || str_in "debian" id_like
          || str_in "debian" distro_id then DistroFamily.DEBIAN
  else DistroFamily.UNKNOWN.

(** The chain of tests of [_detect_desktop_environment] on the lowered
    session name. *)
Definition desktop_name (de : string) : string :=
  if str_in "gnome" de then "GNOME"
  else if str_in "kde" de || str_in "plasma" de then "KDE Plasma"
  else if str_in "xfce" de then "XFCE"
  else if str_in "cinnamon" de then "Cinnamon"
  else if str_in "mate" de then "MATE"
  else if str_in "pantheon" de then "Pantheon"
  else if str_in "lxde" de || str_in "lxqt" de then "LXDE/LXQt"
  else if str_in "i3" de || str_in "sway" de then "Tiling WM"
  else "Unknown".

(** [GamingSetup._detect_desktop_environment] *)
Definition _detect_desktop_environment (env : Environment) : string :=
  let de := lower (dict_get (environ env) "DESKTOP_SESSION" "") in
  let de := if de =? "" then lower (dict_get (environ env) "XDG_CURRENT_DESKTOP" "")
            else de in
  desktop_name de.

(** [GamingSetup.detect_system]: the [SystemInfo] it fills in, [None]
    when it re-raises what the reading of [/etc/os-release] raised. *)
Definition detect_system (env : Environment) : option SystemInfo :=
  match os_release_file env with
  | None => None
  | Some content =>
      match read_os_release content with
      | None => None
      | Some os_release =>
          Some (mkSystemInfo
                  (dict_get os_release "NAME" "Unknown")
                  (dict_get os_release "VERSION_ID" "Unknown")
                  (dict_get os_release "ID" "unknown")
                  (_detect_distro_family os_release)
                  (platform_release env)
                  (platform_machine env)
                  (_detect_desktop_environment env)
                  (wsl_interop_exists env))
      end
  end.

(** [GamingSetup.check_ubuntu_version] on the text of
    [/etc/os-release] ([None] when [open] raises): [Some code] when it
    ends the process with [sys.exit(code)], [None] when it returns.  The
    [PRETTY_NAME] it looks up is only logged. *)
Definition check_ubuntu_version (os_info : option string) : M (option Z) :=
  match os_info with
  | None => ret None
  | Some os_info =>
      let is_debian_based :=
        any_in ["ubuntu"; "debian"; "mint"; "kali"; "pop"; "elementary";
                "zorin"; "mx linux"; "deepin"] (lower os_info) in
      if negb is_debian_based then
        go_on <- confirm "Continue anyway?" ;;
        if negb go_on then ret (Some 0%Z) else ret None
      else ret None
  end.

(* ------------------------------------------------------------------ *)
(** ** Installation steps *)

(** The component flags of [InstallationConfig] that the steps below
    read.  They are set once from the command line and never assigned
    afterwards, so the steps take them as an argument. *)
Record Selection : Set := mkSelection {
  sel_skip_update : bool;
  sel_install_nvidia_drivers : bool;
  sel_install_amd_drivers : bool;
  sel_install_intel_drivers : bool;
  sel_install_vm_tools : bool;
  sel_install_steam : bool;
  sel_install_lutris : bool;
  sel_install_gamemode : bool;
  sel_install_heroic : bool
}.

(** [InstallationConfig()]'s component flags. *)
Definition Selection_default : Selection :=
  mkSelection false false false false false false false false false.

(** [self.run_command(cmd, description)] with the defaults
    [check=True, shell=False, timeout=300]. *)
Definition run_checked (argv : list string) (description : string)
  : M (bool * string * string) :=
  run_command (Argv argv) description true false 300.

(** [self.run_command(cmd, description, check=False)] *)
Definition run_unchecked (argv : list string) (description : string)
  : M (bool * string * string) :=
  run_command (Argv argv) description false false 300.

(** [for cmd, desc in commands: self.run_command(cmd, desc)] *)
Fixpoint run_each (commands : list (list string * string)) : M unit :=
  match commands with
  | [] => ret tt
  | (cmd, desc) :: rest => run_checked cmd desc ;;; run_each rest
  end.

Definition update_commands : list (list string * string) :=
  [ (["apt-get"; "update"], "Updating package lists");
    (["apt-get"; "upgrade"; "-y"], "Upgrading installed packages");
    (["apt-get"; "autoremove"; "-y"], "Removing unnecessary packages");
    (["apt-get"; "autoclean"], "Cleaning package cache") ].

(** [GamingSetup.update_system] *)
Definition update_system (sel : Selection) : M unit :=
  if sel_skip_update sel then ret tt
  else run_each update_commands.

(** [GamingSetup.enable_32bit_support] *)
Definition enable_32bit_support : M unit :=
  run_checked ["dpkg"; "--add-architecture"; "i386"] "Enabling i386 architecture" ;;;
  run_checked ["apt-get"; "update"] "Updating package lists" ;;;
  ret tt.

(** [["apt-get", "install", "-y"] + packages] *)
Definition apt_install (packages : list string) : list string :=
  (["apt-get"; "install"; "-y"] ++ packages)%list.

(** [GamingSetup.install_vmware_tools] *)
Definition install_vmware_tools : M unit :=
  run_checked (apt_install ["open-vm-tools"; "open-vm-tools-desktop"; "mesa-utils";
                            "mesa-utils-extra"; "libgl1-mesa-dri";
                            "libgl1-mesa-dri:i386"])
              "Installing VMware guest tools and graphics" ;;;
  ret tt.

(** [GamingSetup.install_virtualbox_tools] *)
Definition install_virtualbox_tools : M unit :=
  run_checked (apt_install ["virtualbox-guest-utils"; "virtualbox-guest-x11";
                            "virtualbox-guest-dkms"; "mesa-utils"])
              "Installing VirtualBox guest additions" ;;;
  ret tt.

(** [GamingSetup.install_kvm_tools] *)
Definition install_kvm_tools : M unit :=
  run_checked (apt_install ["qemu-guest-agent"; "spice-vdagent";
                            "xserver-xorg-video-qxl"; "mesa-utils"])
              "Installing KVM/QEMU guest tools" ;;;
  ret tt.

(** [GamingSetup.install_hyperv_tools] *)
Definition install_hyperv_tools : M unit :=
  run_unchecked (apt_install ["hyperv-daemons"; "linux-tools-virtual";
                              "linux-cloud-tools-virtual"])
                "Installing Hyper-V guest tools" ;;;
  ret tt.

(** [GamingSetup.install_xen_tools] *)
Definition install_xen_tools : M unit :=
  run_unchecked (apt_install ["xe-guest-utilities"])
                "Installing Xen guest tools" ;;;
  ret tt.

(** [GamingSetup.install_generic_vm_graphics] *)
Definition install_generic_vm_graphics : M unit :=
  run_checked (apt_install ["mesa-utils"; "mesa-utils-extra"; "libgl1-mesa-dri";
                            "libgl1-mesa-dri:i386"; "mesa-vulkan-drivers";
                            "mesa-vulkan-drivers:i386"])
              "Installing generic VM graphics drivers" ;;;
  ret tt.

(** [GamingSetup.install_vm_tools] *)
Definition install_vm_tools (vm_type : string) : M unit :=
  let t := lower vm_type in
  if str_in "vmware" t then install_vmware_tools
  else if str_in "virtualbox" t then install_virtualbox_tools
  else if str_in "kvm" t || str_in "qemu" t then install_kvm_tools
  else if str_in "hyper-v" t || str_in "microsoft" t then install_hyperv_tools
  else if str_in "xen" t then install_xen_tools
  else install_generic_vm_graphics.

Definition nvidia_commands : list (list string * string) :=
  [ (["apt-get"; "install"; "-y"; "ubuntu-drivers-common"], "Installing driver manager");
    (["ubuntu-drivers"; "autoinstall"], "Installing recommended NVIDIA drivers");
    (["apt-get"; "install"; "-y"; "nvidia-settings"; "nvidia-prime"],
     "Installing NVIDIA utilities") ].

(** [a or b] on two queries: [b] is made only when [a] is false. *)
Definition or_else (a b : M bool) : M bool :=
  x <- a ;; if x then ret true else b.

(** [GamingSetup.install_nvidia_drivers].  After a [nvidia-smi] that
    exits with status 0 the driver version is looked up for display
    only; whether the lookup succeeds, finds no line, or raises
    [IndexError] into the bare [except], the next thing done is the same
    [confirm]. *)
Definition install_nvidia_drivers : M unit :=
  nvidia_installed <-
    or_else (is_package_installed "nvidia-driver-550")
            (or_else (is_package_installed "nvidia-driver-545")
                     (is_package_installed "nvidia-driver-535")) ;;
  go_on <-
    (if nvidia_installed then
       result <- probe ["nvidia-smi"] ;;
       match result with
       | CompletedProcess rc _ _ =>
           if (rc =? 0)%Z then confirm "Reinstall NVIDIA drivers?" else ret true
       | _ => confirm "Reinstall NVIDIA drivers?"
       end
     else ret true) ;;
  if go_on then run_each nvidia_commands else ret tt.

(** [GamingSetup.install_amd_drivers] *)
Definition install_amd_drivers : M unit :=
  run_checked (apt_install ["mesa-vulkan-drivers"; "mesa-vulkan-drivers:i386";
                            "libvulkan1"; "libvulkan1:i386"; "vulkan-tools";
                            "mesa-utils"])
              "Installing AMD Mesa and Vulkan drivers" ;;;
  ret tt.

(** [GamingSetup.install_intel_drivers] *)
Definition install_intel_drivers : M unit :=
  run_checked (apt_install ["mesa-vulkan-drivers"; "mesa-vulkan-drivers:i386";
                            "libvulkan1"; "libvulkan1:i386"; "intel-media-va-driver";
                            "i965-va-driver"])
              "Installing Intel graphics drivers" ;;;
  ret tt.

(** [flag or self.confirm(question)] *)
Definition flag_or_confirm (flag : bool) (question : string) : M bool :=
  if flag then ret true else confirm question.

(** [if go_on: step] *)
Definition when (go_on : bool) (step : M unit) : M unit :=
  if go_on then step else ret tt.

(** The GPU/VM branch of [GamingSetup.run]: what is done with the
    string [detect_gpu] returned. *)
Definition run_driver_stage (sel : Selection) (gpu_type : string) : M unit :=
  if in_list gpu_type ["vmware"; "virtualbox"; "kvm/qemu"; "vm"] then
    go_on <- flag_or_confirm (sel_install_vm_tools sel)
               ("Install " ++ gpu_type ++ " guest tools for better graphics performance?") ;;
    when go_on (install_vm_tools gpu_type)
  else if gpu_type =? "nvidia" then
    go_on <- flag_or_confirm (sel_install_nvidia_drivers sel) "Install NVIDIA drivers?" ;;
    when go_on install_nvidia_drivers
  else if gpu_type =? "amd" then
    go_on <- flag_or_confirm (sel_install_amd_drivers sel) "Install AMD drivers?" ;;
    when go_on install_amd_drivers
  else if gpu_type =? "intel" then
    go_on <- flag_or_confirm (sel_install_intel_drivers sel) "Install Intel drivers?" ;;
    when go_on install_intel_drivers
  else if gpu_type =? "generic" then install_generic_vm_graphics
  else ret tt.

(** [gpu_type = self.detect_gpu()] followed by that branch. *)
Definition detect_and_install_drivers (sel : Selection) : M unit :=
  gpu_type <- detect_gpu ;;
  run_driver_stage sel gpu_type.

(** [GamingSetup.install_heroic] *)
Definition install_heroic : M unit :=
  run_checked ["apt-get"; "install"; "-y"; "flatpak"] "Installing Flatpak" ;;;
  run_checked ["flatpak"; "remote-add"; "--if-not-exists"; "flathub";
               "https://flathub.org/repo/flathub.flatpakrepo"]
              "Adding Flathub repository" ;;;
  run_checked ["flatpak"; "install"; "-y"; "flathub"; "com.heroicgameslauncher.hgl"]
              "Installing Heroic Games Launcher" ;;;
  ret tt.

(** [flag or self.prompt_install_or_update(...)] *)
Definition flag_or_prompt (flag : bool) (software_name : string)
           (package_name flatpak_id : option string) : M bool :=
  if flag then ret true
  else prompt_install_or_update software_name package_name flatpak_id.

(** The Lutris step of [install_gaming_platforms]. *)
Definition install_lutris : M unit :=
  has_flatpak <- is_package_installed "flatpak" ;;
  when (negb has_flatpak)
       (run_checked ["apt-get"; "install"; "-y"; "flatpak"] "Installing Flatpak" ;;;
        ret tt) ;;;
  run_unchecked ["flatpak"; "remote-add"; "--if-not-exists"; "flathub";
                 "https://flathub.org/repo/flathub.flatpakrepo"]
                "Adding Flathub repository" ;;;
  run_checked ["flatpak"; "install"; "-y"; "flathub"; "net.lutris.Lutris"]
              "Installing Lutris" ;;;
  ret tt.

(** [GamingSetup.install_gaming_platforms] *)
Definition install_gaming_platforms (sel : Selection) : M unit :=
  should_install <- flag_or_prompt (sel_install_steam sel) "Steam"
                                   (Some "steam-installer") None ;;
  when should_install
       (run_checked ["apt-get"; "install"; "-y"; "steam-installer"] "Installing Steam" ;;;
        ret tt) ;;;
  should_install <- flag_or_prompt (sel_install_lutris sel) "Lutris"
                                   None (Some "net.lutris.Lutris") ;;
  when should_install install_lutris ;;;
  should_install <- flag_or_prompt (sel_install_gamemode sel) "GameMode"
                                   (Some "gamemode") None ;;
  when should_install
       (run_checked (apt_install ["gamemode"; "libgamemode0"; "libgamemode0:i386"])
                    "Installing GameMode with 32-bit and 64-bit libraries" ;;;
        ret tt) ;;;
  should_install <- flag_or_prompt (sel_install_heroic sel) "Heroic Games Launcher"
                                   None (Some "com.heroicgameslauncher.hgl") ;;
  when should_install install_heroic.

(* ------------------------------------------------------------------ *)
(** ** Vocabulary of the frame statements *)

(** A method keeps [R] when [R] relates every state to the state the
    method leaves. *)
Definition keeps (R : State -> State -> Prop) {A : Type} (m : M A) : Prop :=
  forall st, R st (snd (m st)).

(** A spawn made by [probe]: an argument list, no shell, five seconds. *)
Definition is_probe (sp : Spawn) : Prop := exists argv, sp = probe_spawn argv.

(** [st'] differs from [st] by probes made and by [hardware_info] at
    most: same configuration and host, same failure ledger, nothing
    read from the terminal. *)
Definition only_probed (st st' : State) : Prop :=
  config st' = config st /\ host st' = host st
  /\ failed_operations st' = failed_operations st
  /\ stdin st' = stdin st /\ reads st' = reads st
  /\ exists s, spawned st' = (spawned st ++ s)%list /\ Forall is_probe s.

Definition only_probed_if_dry (st st' : State) : Prop :=
  dry_run (config st) = true -> only_probed st st'.

(** [st'] has the ledger and the spawns of [st] and possibly more, under
    the same configuration and host. *)
Definition ledger_grows (st st' : State) : Prop :=
  config st' = config st /\ host st' = host st
  /\ (exists new, failed_operations st' = (failed_operations st ++ new)%list)
  /\ (exists s, spawned st' = (spawned st ++ s)%list).

(** [--dry-run] on the host of [st_auto_yes_installed], with an
    NVIDIA card and its driver installed. *)
Definition st_dry_nvidia : State :=
  fresh (mkConfig true false)
        [ (["systemd-detect-virt"], Exited 1 ("none" ++ nl) "");
          (["lspci"], Exited 0
             ("01:00.0 VGA compatible controller: NVIDIA Corporation GA104" ++ nl) "");
          (["dpkg"; "-l"; "nvidia-driver-550"],
           Exited 0 ("ii  nvidia-driver-550  550.120  amd64  NVIDIA driver" ++ nl) "");
          (["nvidia-smi"], Exited 0 ("| NVIDIA-SMI 550.120   Driver Version: 550.120 |" ++ nl) "") ]
        [Answer "n"].

(* ------------------------------------------------------------------ *)
(** ** Vocabulary of the prompt statements *)

(** The answers [confirm] takes for yes, for no, and asks again about. *)
Definition says_yes (line : string) : bool := in_list (lower line) ["y"; "yes"].
Definition says_no (line : string) : bool := in_list (lower line) ["n"; "no"].
Definition unrecognised (line : string) : bool :=
  negb (says_yes line) && negb (says_no line).

(** Neither [--yes] nor [--dry-run]. *)
Definition interactive_mode (st : State) : Prop :=
  auto_yes (config st) = false /\ dry_run (config st) = false.

(** The block "Check package installation" of
    [prompt_install_or_update], named for the proofs. *)
Definition package_status (package_name : option string) : M PackageStatus :=
  match nonempty package_name with
  | Some pkg =>
      is_installed <- is_package_installed pkg ;;
      if is_installed then
        current_version <- get_package_version pkg ;;
        available_version <- get_available_version pkg ;;
        ret (true, current_version, available_version,
             opt_neq current_version available_version)
      else ret status_unknown
  | None => ret status_unknown
  end.

(** The block "Check Flatpak installation". *)
Definition flatpak_status (flatpak_id : option string) (s1 : PackageStatus)
  : M PackageStatus :=
  let '(is_installed, current_version, available_version, update_available) := s1 in
  match nonempty flatpak_id with
  | Some app =>
      if negb is_installed then
        is_installed <- is_flatpak_installed app ;;
        if is_installed then
          current_version <- get_flatpak_version app ;;
          ret (true, current_version, available_version, update_available)
        else ret (false, current_version, available_version, update_available)
      else ret s1
  | None => ret s1
  end.

(** The question the block "Build prompt based on status" asks. *)
Definition prompt_question (software_name : string) (s2 : PackageStatus) : string :=
  let '(is_installed, current_version, available_version, update_available) := s2 in
  if is_installed then
    if update_available && truthy available_version
    then "Update " ++ software_name ++ "?"
    else "Reinstall " ++ software_name ++ "?"
  else "Install " ++ software_name ++ "?".

(** An interactive session on a host where [steam] is installed and
    Flatpak would list it too; the user types nonsense, then [No]. *)
Definition st_typing : State :=
  fresh interactive
        [ (["dpkg"; "-l"; "steam"], Exited 0 ("ii  steam  1.0  amd64  launcher" ++ nl) "");
          (["dpkg-query"; "-W"; "-f=${Version}"; "steam"], Exited 0 "1.0" "");
          (["apt-cache"; "policy"; "steam"],
           Exited 0 ("steam:" ++ nl ++ "  Candidate: 1.1" ++ nl) "");
          (["flatpak"; "list"; "--app"], Exited 0 ("com.valvesoftware.Steam" ++ nl) "") ]
        [Answer "maybe"; Answer ""; Answer "No"; Answer "y"].

(** A physical machine without [glxinfo]. *)
Definition st_no_glxinfo : State :=
  fresh interactive
        [ (["systemd-detect-virt"], Exited 1 ("none" ++ nl) "");
          (["dmesg"], Exited 0 "" "");
          (["lspci"], Exited 0 lspci_amd_intel "") ]
        [].

(** No character of [s] is a blank. *)
Fixpoint no_blank (s : string) : bool :=
  match s with
  | EmptyString => true
  | String c r => negb (isspace c) && no_blank r
  end.

(** The double quote as a string. *)
Definition quote : string := String "034" "".

(** The head of an [/etc/os-release]. *)
Definition os_release_head : string :=
  "PRETTY_NAME=" ++ quote ++ "Linux Mint 21.3" ++ quote ++ nl
  ++ "NAME=" ++ quote ++ "Linux Mint" ++ quote ++ nl
  ++ "VERSION_ID=" ++ quote ++ "21.3" ++ quote ++ nl
  ++ "ID=linuxmint" ++ nl.

(** A GNOME session of Ubuntu. *)
Definition env_ubuntu_gnome : Environment :=
  mkEnvironment
    [ ("SUDO_USER", "alice"); ("USER", "root");
      ("DESKTOP_SESSION", "ubuntu"); ("XDG_CURRENT_DESKTOP", "ubuntu:GNOME") ]
    (Some (os_release_head ++ "ID_LIKE=" ++ quote ++ "ubuntu debian" ++ quote ++ nl))
    "6.8.0-45-generic" "x86_64" false.

(** The spawn [run_checked] and [run_unchecked] record. *)
Definition command_spawn (argv : list string) : Spawn := mkSpawn (Argv argv) false 300.

(** A host on which every command exits with the given status. *)
Definition st_exits (rc : Z) : State :=
  mkState interactive HardwareInfo_default ["FAILED: earlier step"]
          (fun _ _ => Exited rc "" "E: Unable to locate package")
          [] [] 0.

(* ------------------------------------------------------------------ *)
(** ** Vocabulary of the declined installations *)

(** An event [confirm] takes for a no at once: [n] or [no] in any
    letter case, or an interrupt. *)
Definition declines (e : InputEvent) : bool :=
  match e with
  | Answer line => says_no line
  | KeyboardInterrupt => true
  end.

(** [st'] differs from [st] by probes made and by [k] reads from the
    terminal, each of which took one pending event if there was one. *)
Definition asked (k : nat) (st st' : State) : Prop :=
  config st' = config st /\ host st' = host st
  /\ failed_operations st' = failed_operations st
  /\ stdin st' = skipn k (stdin st) /\ reads st' = reads st + k
  /\ exists s, spawned st' = (spawned st ++ s)%list /\ Forall is_probe s.



(** The same package on a machine without [nvidia-smi]; the user
    declines. *)
Definition st_nvidia_no_smi : State :=
  fresh interactive
        [ (["dpkg"; "-l"; "nvidia-driver-550"],
           Exited 0 ("ii  nvidia-driver-550  550.120  amd64  NVIDIA driver" ++ nl) "") ]
        [Answer "N"; Answer "y"].

(** An interactive session on a machine with no package database
    answering; the user declines twice, interrupts, and the input
    ends. *)
Definition st_declining : State :=
  fresh interactive [] [Answer "n"; Answer "No"; KeyboardInterrupt].

(** An ordinary physical machine: the oracle says [none], the kernel
    log and the device listing print their usual lines. *)
Definition st_ordinary : State :=
  fresh interactive
        [ (["systemd-detect-virt"], Exited 1 ("none" ++ nl) "");
          (["dmesg"], Exited 0
             ("[    0.000000] Linux version 6.8.0-45-generic" ++ nl
              ++ "[    0.004321] DMI: LENOVO 20QV/20QV, BIOS N2OET55W" ++ nl) "");
          (["lspci"], Exited 0 lspci_optimus "") ]
        [].

(** A guest that only its device listing gives away. *)
Definition st_virtio_guest : State :=
  fresh interactive
        [ (["systemd-detect-virt"], CannotStart "[Errno 2] No such file or directory");
          (["dmesg"], Exited 1 "" ("dmesg: read kernel buffer failed" ++ nl));
          (["lspci"], Exited 0
             ("00:03.0 Ethernet controller: Red Hat, Inc. Virtio network device" ++ nl) "") ]
        [].

(* ------------------------------------------------------------------ *)
(** ** Vocabulary of the device listing *)

(** The spawn runs [lspci]. *)
Definition runs_lspci (sp : Spawn) : bool :=
  match sp_cmd sp with
  | Argv argv => argv_eqb argv ["lspci"]
  | CmdLine _ => false
  end.

(** The machine of [st] with another device listing: every [lspci]
    gets the outcome [o], every other program is answered as before. *)
Definition with_lspci (o : HostOutcome) (st : State) : State :=
  mkState (config st) (hardware_info st) (failed_operations st)
          (fun history sp => if runs_lspci sp then o else host st history sp)
          (spawned st) (stdin st) (reads st).

(** Two objects on machines that differ in the outcome of [lspci]
    only, [o] on the one and [o'] on the other. *)
Definition differ_in_lspci (o o' : HostOutcome) (s s' : State) : Prop :=
  spawned s' = spawned s /\ hardware_info s' = hardware_info s
  /\ (forall history sp, runs_lspci sp = false ->
                         host s' history sp = host s history sp)
  /\ (forall history, host s history sp_lspci = o)
  /\ (forall history, host s' history sp_lspci = o').

(** A desktop with an NVIDIA card, and its listing with the network
    card of a KVM guest in it. *)
Definition lspci_nvidia : string :=
  "01:00.0 VGA compatible controller: NVIDIA Corporation GA104" ++ nl.

Definition audio_line : string :=
  "00:1f.3 Audio device: Intel Corporation Cannon Lake PCH cAVS".

Definition virtio_line : string :=
  "00:03.0 Ethernet controller: Red Hat, Inc. Virtio network device".

(* ------------------------------------------------------------------ *)
(** ** Facts about the string operations *)

Example string_operations :
  split ":" "" = [""]
  /\ split ":" "a::b" = ["a"; ""; "b"]
  /\ strip ("  kvm " ++ nl) = "kvm"
  /\ strip "   " = ""
  /\ lower "VGA Compatible 3D" = "vga compatible 3d"
  /\ str_in "ati" "vga compatible controller" = true
  /\ str_in "" "" = true
  /\ replace "3d controller:" "" "3d controller: nvidia 3d controller:x" = " nvidia x"
  /\ join " " ["a"; "b"; "c"] = "a b c"
  /\ take 3 "abcdef" = "abc"
  /\ str_of_nat 300 = "300".
Proof. repeat split. Qed.

Lemma prefix_empty (s : string) : prefix "" s = true.
Proof. destruct s; reflexivity. Qed.

Lemma prefix_app (k a b : string) :
  prefix k a = true -> prefix k (a ++ b) = true.
Proof.
  revert k; induction a as [|c a IH]; intros k H.
  - destruct k; [apply prefix_empty | discriminate].
  - destruct k as [|d k]; [reflexivity|].
    simpl in *. destruct (ascii_dec d c); [auto | discriminate].
Qed.

Lemma prefix_self_app (k b : string) : prefix k (k ++ b) = true.
Proof.
  induction k as [|c k IH]; [apply prefix_empty|].
  simpl. destruct (ascii_dec c c); [exact IH | congruence].
Qed.

Lemma str_in_app_l (k a b : string) :
  str_in k a = true -> str_in k (a ++ b) = true.
Proof.
  induction a as [|c a IH]; intros H.
  - simpl in H. rewrite orb_false_r in H.
    destruct k; [|discriminate].
    destruct b; reflexivity.
  - cbn [str_in] in H. apply orb_true_iff in H.
    change (String c a ++ b) with (String c (a ++ b)).
    cbn [str_in]. apply orb_true_iff.
    destruct H as [H|H]; [left | right; auto].
    apply (prefix_app _ (String c a) b H).
Qed.

Lemma str_in_app_r (k a b : string) :
  str_in k b = true -> str_in k (a ++ b) = true.
Proof.
  intros H. induction a as [|c a IH]; [exact H|].
  change (String c a ++ b) with (String c (a ++ b)).
  cbn [str_in]. rewrite IH. apply orb_true_r.
Qed.

Lemma str_in_mid (k a l b : string) :
  str_in k l = true -> str_in k (a ++ l ++ b) = true.
Proof. intros H. apply str_in_app_r, str_in_app_l, H. Qed.

Lemma str_in_here (k a b : string) : str_in k (a ++ k ++ b) = true.
Proof.
  apply str_in_app_r.
  destruct (k ++ b) eqn:E; cbn [str_in]; rewrite <- E;
    rewrite prefix_self_app; reflexivity.
Qed.

Lemma app_assoc_str (a b c : string) : (a ++ b) ++ c = a ++ b ++ c.
Proof. induction a as [|x a IH]; simpl; [reflexivity | now rewrite IH]. Qed.

Lemma app_empty_r (a : string) : a ++ "" = a.
Proof. induction a as [|x a IH]; simpl; [reflexivity | now rewrite IH]. Qed.

Lemma lower_app (a b : string) : lower (a ++ b) = lower a ++ lower b.
Proof. induction a as [|x a IH]; simpl; [reflexivity | now rewrite IH]. Qed.

(** A line of a joined text is a piece of it. *)
Lemma join_piece (sep l : string) (lines : list string) :
  In l lines -> exists a b, join sep lines = a ++ l ++ b.
Proof.
  induction lines as [|x xs IH]; intros H; [destruct H|].
  destruct H as [->|H].
  - exists "". destruct xs as [|y ys].
    + exists "". simpl. now rewrite app_empty_r.
    + exists (sep ++ join sep (y :: ys)). reflexivity.
  - destruct (IH H) as (a & b & E).
    destruct xs as [|y ys]; [destruct H|].
    exists (x ++ sep ++ a), b.
    change (join sep (x :: y :: ys)) with (x ++ sep ++ join sep (y :: ys)).
    rewrite E. now rewrite !app_assoc_str.
Qed.

(** A marker found in one line is found in the lowered joined text. *)
Lemma str_in_gpu_info (k l : string) (lines : list string) :
  In l lines -> str_in k (lower l) = true ->
  str_in k (gpu_info_of lines) = true.
Proof.
  intros Hin Hk. unfold gpu_info_of.
  destruct (join_piece " " l lines Hin) as (a & b & ->).
  rewrite !lower_app. now apply str_in_mid.
Qed.

Lemma str_in_char (c : ascii) (s : string) :
  str_in (String c "") s = has_char c s.
Proof.
  induction s as [|x s IH]; [reflexivity|].
  cbn [str_in has_char]. rewrite IH. f_equal.
  simpl. destruct (ascii_dec c x) as [->|N].
  - rewrite prefix_empty. symmetry. apply Ascii.eqb_refl.
  - symmetry. apply Ascii.eqb_neq. congruence.
Qed.

Lemma has_char_app (c : ascii) (a b : string) :
  has_char c (a ++ b) = has_char c a || has_char c b.
Proof.
  induction a as [|x a IH]; simpl; [reflexivity|].
  now rewrite IH, orb_assoc.
Qed.

Lemma split_at_sep (sep : ascii) (a b : string) :
  has_char sep a = false ->
  split sep (a ++ String sep b) = a :: split sep b.
Proof.
  induction a as [|x a IH]; intros H.
  - simpl. now rewrite Ascii.eqb_refl.
  - simpl in H. apply orb_false_iff in H. destruct H as [Hx Ha].
    change (String x a ++ String sep b) with (String x (a ++ String sep b)).
    cbn [split]. rewrite Hx, (IH Ha). reflexivity.
Qed.

Lemma first_where_app (p : string -> bool) (before : list string)
      (x : string) (after : list string) :
  Forall (fun l => p l = false) before -> p x = true ->
  first_where p (before ++ x :: after) = Some x.
Proof.
  unfold first_where. intros Hb Hx.
  induction Hb as [|y before Hy _ IH]; simpl.
  - now rewrite Hx.
  - now rewrite Hy.
Qed.

Lemma prefix_has_char (c : ascii) (k s : string) :
  prefix k s = true -> has_char c k = true -> has_char c s = true.
Proof.
  revert s; induction k as [|d k IH]; intros s Hp Hc; [discriminate|].
  destruct s as [|x s]; [discriminate|].
  simpl in Hp. destruct (ascii_dec d x) as [->|]; [|discriminate].
  simpl in *. apply orb_true_iff in Hc. apply orb_true_iff.
  destruct Hc as [Hc|Hc]; [left; exact Hc | right; eauto].
Qed.

Lemma str_in_has_char (c : ascii) (k s : string) :
  str_in k s = true -> has_char c k = true -> has_char c s = true.
Proof.
  induction s as [|x s IH]; intros Hs Hc.
  - simpl in Hs. rewrite orb_false_r in Hs.
    exact (prefix_has_char c k "" Hs Hc).
  - cbn [str_in] in Hs. apply orb_true_iff in Hs. destruct Hs as [Hs|Hs].
    + exact (prefix_has_char c k (String x s) Hs Hc).
    + simpl. rewrite (IH Hs Hc). apply orb_true_r.
Qed.

Lemma has_char_lower (c : ascii) (s : string) :
  has_char c (lower s) = true ->
  exists c0, has_char c0 s = true /\ lower_char c0 = c.
Proof.
  induction s as [|x s IH]; intros H; [discriminate|].
  simpl in H. apply orb_true_iff in H. destruct H as [H|H].
  - exists x. split; [simpl; now rewrite Ascii.eqb_refl|].
    now apply Ascii.eqb_eq.
  - destruct (IH H) as (c0 & H0 & E). exists c0. split; [|exact E].
    simpl. rewrite H0. apply orb_true_r.
Qed.

Lemma has_char_lstrip (c : ascii) (s : string) :
  has_char c s = true -> isspace c = true \/ has_char c (lstrip s) = true.
Proof.
  induction s as [|x s IH]; intros H; [discriminate|].
  cbn [lstrip]. destruct (isspace x) eqn:Ex; [|now right].
  simpl in H. apply orb_true_iff in H. destruct H as [H|H]; [|auto].
  apply Ascii.eqb_eq in H. subst. now left.
Qed.

Lemma has_char_rstrip (c : ascii) (s : string) :
  has_char c s = true -> isspace c = true \/ has_char c (rstrip s) = true.
Proof.
  induction s as [|x s IH]; intros H; [discriminate|].
  simpl in H. apply orb_true_iff in H. cbn [rstrip].
  destruct (rstrip s) as [|y r] eqn:Er.
  - destruct H as [H|H].
    + apply Ascii.eqb_eq in H. subst x.
      destruct (isspace c); [now left|].
      right. simpl. now rewrite Ascii.eqb_refl.
    + destruct (IH H) as [?|F]; [now left | discriminate].
  - destruct H as [H|H].
    + right. simpl. now rewrite H.
    + destruct (IH H) as [Hs|Hr]; [now left|].
      right.
      change (has_char c (String x (String y r)))
        with (Ascii.eqb x c || has_char c (String y r)).
      rewrite Hr. apply orb_true_r.
Qed.

Lemma has_char_strip (c : ascii) (s : string) :
  has_char c s = true -> isspace c = true \/ has_char c (strip s) = true.
Proof.
  intros H. unfold strip.
  destruct (has_char_lstrip c s H) as [?|H']; [now left|].
  now apply has_char_rstrip.
Qed.

(** The letters by which the hypervisor markers are told apart from
    blank or [none] output. *)
Lemma marker_letter (c c0 : ascii) :
  c = "v"%char \/ c = "h"%char \/ c = "q"%char ->
  lower_char c0 = c ->
  isspace c0 = false /\ has_char c0 "none" = false.
Proof.
  intros [-> | [-> | ->]] H;
    destruct c0 as [[] [] [] [] [] [] [] []];
    vm_compute in H; try discriminate H; split; reflexivity.
Qed.

Lemma quiet_no_marker (k out : string) (c : ascii) :
  c = "v"%char \/ c = "h"%char \/ c = "q"%char ->
  has_char c k = true ->
  strip out = "" \/ strip out = "none" ->
  str_in k (lower out) = false.
Proof.
  intros Hc Hk Hq.
  destruct (str_in k (lower out)) eqn:E; [exfalso | reflexivity].
  destruct (has_char_lower c out (str_in_has_char c k _ E Hk)) as (c0 & H0 & Hl).
  destruct (marker_letter c c0 Hc Hl) as [Hs Hn].
  destruct (has_char_strip c0 out H0) as [F|F]; [congruence|].
  destruct Hq as [Q|Q]; rewrite Q in F; [discriminate | congruence].
Qed.


(* ------------------------------------------------------------------ *)
(** ** The virtualization probe chain *)

Lemma method1_quiet (o : HostOutcome) :
  quiet o -> method1 (result_of false o) = None.
Proof.
  destruct o as [rc out err| |msg]; simpl; intros H; try reflexivity.
  destruct H as [-> | ->]; reflexivity.
Qed.

Lemma method2_quiet (o : HostOutcome) :
  quiet o -> method2 (result_of false o) = None.
Proof.
  destruct o as [rc out err| |msg]; simpl; intros H; try reflexivity.
  rewrite (quiet_no_marker "vmware" out "v"), (quiet_no_marker "virtualbox" out "v"),
    (quiet_no_marker "hypervisor detected" out "h"); auto.
Qed.

Lemma method3_quiet (o : HostOutcome) :
  quiet o -> method3 (result_of false o) = None.
Proof.
  destruct o as [rc out err| |msg]; simpl; intros H; try reflexivity.
  rewrite (quiet_no_marker "vmware" out "v"), (quiet_no_marker "virtualbox" out "v"),
    (quiet_no_marker "qxl" out "q"), (quiet_no_marker "virtio" out "v"); auto.
Qed.

Lemma method1_definitive (o : HostOutcome) :
  definitive o -> method1 (result_of false o) <> None.
Proof.
  destruct o as [rc out err| |msg]; simpl; intros H; try contradiction.
  destruct H as [H1 H2].
  apply String.eqb_neq in H1, H2. rewrite H1, H2. discriminate.
Qed.

(** The chain, unfolded on the three answers of the host. *)
Lemma detect_virtualization_unfold (st : State) :
  detect_virtualization st =
  match method1 (result_of false (answer1 st)) with
  | Some v => (Some v, set_spawned (spawned st ++ [sp_virt]) st)
  | None =>
      match method2 (result_of false (answer2 st)) with
      | Some v => (Some v, set_spawned (spawned st ++ [sp_virt; sp_dmesg]) st)
      | None =>
          (method3 (result_of false (answer3 st)),
           set_spawned (spawned st ++ [sp_virt; sp_dmesg; sp_lspci]) st)
      end
  end.
Proof.
  unfold detect_virtualization, bind, probe, subprocess_run, answer1, answer2, answer3.
  fold sp_virt. change (mkSpawn (Argv ["systemd-detect-virt"]) false 5) with sp_virt.
  change (mkSpawn (Argv ["dmesg"]) false 5) with sp_dmesg.
  change (mkSpawn (Argv ["lspci"]) false 5) with sp_lspci.
  destruct (method1 _); [reflexivity|].
  cbn [set_spawned spawned host].
  destruct (method2 _); [unfold ret; cbn [set_spawned]; rewrite <- app_assoc; reflexivity|].
  cbn [set_spawned spawned host]. unfold ret.
  rewrite <- !app_assoc. reflexivity.
Qed.


Lemma method2_marked (o : HostOutcome) :
  method2 (result_of false o) <> None <-> marked dmesg_markers o = true.
Proof.
  destruct o as [rc out err| |msg]; cbn [result_of andb method2 marked];
    [|split; [congruence | discriminate]..].
  unfold dmesg_markers, any_in. cbn [existsb]. cbv zeta.
  destruct (str_in "vmware" _); [split; [reflexivity | discriminate]|].
  destruct (str_in "virtualbox" _); [split; [reflexivity | discriminate]|].
  destruct (str_in "hypervisor detected" _); [split; [reflexivity | discriminate]|].
  split; [congruence | discriminate].
Qed.

Lemma method3_marked (o : HostOutcome) :
  method3 (result_of false o) <> None <-> marked lspci_markers o = true.
Proof.
  destruct o as [rc out err| |msg]; cbn [result_of andb method3 marked];
    [|split; [congruence | discriminate]..].
  unfold lspci_markers, any_in. cbn [existsb]. cbv zeta.
  destruct (str_in "vmware" _); [split; [reflexivity | discriminate]|].
  destruct (str_in "virtualbox" _); [split; [reflexivity | discriminate]|].
  destruct (str_in "qxl" _); [split; [reflexivity | discriminate]|].
  destruct (str_in "virtio" _); [split; [reflexivity | discriminate]|].
  cbn [orb]. split; [congruence | discriminate].
Qed.

Lemma definitive_or_quiet (o : HostOutcome) : definitive o \/ quiet o.
Proof.
  destruct o as [rc out err| |msg]; cbn [definitive quiet]; [|now right..].
  destruct (strip out =? "") eqn:E1; [apply String.eqb_eq in E1; now right; left|].
  destruct (strip out =? "none") eqn:E2; [apply String.eqb_eq in E2; now right; right|].
  apply String.eqb_neq in E1, E2. now left.
Qed.

(** The claim C1 as the specification words it fails at the second
    probe.  On an ordinary physical machine [dmesg] prints kernel
    lines: a value that is neither empty nor [none].  The chain goes on
    to [lspci] all the same, because the kernel-log block answers only
    when that text names a hypervisor. *)
Lemma kernel_log_text_is_no_answer :
  definitive (answer2 st_ordinary)
  /\ In sp_lspci (spawned (snd (detect_virtualization st_ordinary)))
  /\ spawned (snd (detect_virtualization st_ordinary)) = [sp_virt; sp_dmesg; sp_lspci]
  /\ fst (detect_virtualization st_ordinary) = None.
Proof.
  split; [vm_compute; split; discriminate|].
  split; [vm_compute; tauto|]. split; reflexivity.
Qed.

(** C1, amended.  The chain asks the oracle, then the kernel log, then
    the device listing, in that order and never out of it.  A probe
    answers when it classifies: the oracle when it prints a token that
    is neither empty nor [none], the kernel log when its text holds one
    of [vmware], [virtualbox], [hypervisor detected], the device
    listing when its text holds one of [vmware], [virtualbox], [qxl],
    [virtio].  The first probe that answers ends the chain and the
    later ones are not spawned.  When no probe answers, all three have
    been tried and the result is [None]; in particular when every
    probe fails to start, times out, or prints nothing or [none].
    Every host falls under one of the cases. *)
Theorem detect_virtualization_chain (st : State) :
  let r := fst (detect_virtualization st) in
  let tr := spawned (snd (detect_virtualization st)) in
  let all := (spawned st ++ [sp_virt; sp_dmesg; sp_lspci])%list in
  (tr = (spawned st ++ [sp_virt])%list
   \/ tr = (spawned st ++ [sp_virt; sp_dmesg])%list
   \/ tr = all)
  /\ (definitive (answer1 st) \/ quiet (answer1 st))
  /\ (definitive (answer1 st) ->
      r <> None /\ tr = (spawned st ++ [sp_virt])%list)
  /\ (quiet (answer1 st) -> marked dmesg_markers (answer2 st) = true ->
      r <> None /\ tr = (spawned st ++ [sp_virt; sp_dmesg])%list)
  /\ (quiet (answer1 st) -> marked dmesg_markers (answer2 st) = false ->
      tr = all /\ (r <> None <-> marked lspci_markers (answer3 st) = true))
  /\ (quiet (answer1 st) -> quiet (answer2 st) -> quiet (answer3 st) ->
      r = None /\ tr = all).
Proof.
  cbv zeta. rewrite detect_virtualization_unfold.
  pose proof (method2_marked (answer2 st)) as M2.
  pose proof (method3_marked (answer3 st)) as M3.
  split; [|split; [apply definitive_or_quiet|split; [|split; [|split]]]].
  - destruct (method1 _); [now left|].
    destruct (method2 _); [right; now left | right; now right].
  - intros D. pose proof (method1_definitive _ D) as N.
    destruct (method1 _); [split; [discriminate | reflexivity] | congruence].
  - intros Q1 K. rewrite (method1_quiet _ Q1).
    apply M2 in K. destruct (method2 _); [split; [discriminate | reflexivity] | congruence].
  - intros Q1 K. rewrite (method1_quiet _ Q1).
    destruct (method2 _) as [v|].
    + assert (T : marked dmesg_markers (answer2 st) = true)
        by (apply M2; discriminate).
      congruence.
    + split; [reflexivity | exact M3].
  - intros Q1 Q2 Q3.
    rewrite (method1_quiet _ Q1), (method2_quiet _ Q2), (method3_quiet _ Q3).
    split; reflexivity.
Qed.

Lemma detect_virtualization_chain_witness :
  (fst (detect_virtualization st_kvm_guest) <> None
   /\ spawned (snd (detect_virtualization st_kvm_guest)) = [sp_virt])
  /\ (fst (detect_virtualization st_vbox_dmesg) <> None
      /\ spawned (snd (detect_virtualization st_vbox_dmesg)) = [sp_virt; sp_dmesg])
  /\ (spawned (snd (detect_virtualization st_ordinary)) = [sp_virt; sp_dmesg; sp_lspci]
      /\ (fst (detect_virtualization st_ordinary) <> None
          <-> marked lspci_markers (answer3 st_ordinary) = true))
  /\ (spawned (snd (detect_virtualization st_virtio_guest)) = [sp_virt; sp_dmesg; sp_lspci]
      /\ (fst (detect_virtualization st_virtio_guest) <> None
          <-> marked lspci_markers (answer3 st_virtio_guest) = true))
  /\ (fst (detect_virtualization st_physical_quiet) = None
      /\ spawned (snd (detect_virtualization st_physical_quiet))
         = [sp_virt; sp_dmesg; sp_lspci]).
Proof.
  split; [|split; [|split; [|split]]].
  - apply (proj1 (proj2 (proj2 (detect_virtualization_chain st_kvm_guest)))).
    vm_compute. split; discriminate.
  - apply (proj1 (proj2 (proj2 (proj2 (detect_virtualization_chain st_vbox_dmesg))))).
    + exact I.
    + reflexivity.
  - apply (proj1 (proj2 (proj2 (proj2 (proj2 (detect_virtualization_chain st_ordinary)))))).
    + vm_compute. now right.
    + reflexivity.
  - apply (proj1 (proj2 (proj2 (proj2 (proj2
             (detect_virtualization_chain st_virtio_guest)))))).
    + exact I.
    + reflexivity.
  - apply (proj2 (proj2 (proj2 (proj2 (proj2
             (detect_virtualization_chain st_physical_quiet)))))).
    + vm_compute. now right.
    + exact I.
    + exact I.
Defined.

(** What the chain returns on those machines. *)
Example detect_virtualization_examples :
  fst (detect_virtualization st_kvm_guest) = Some "KVM"
  /\ fst (detect_virtualization st_vbox_dmesg) = Some "VirtualBox"
  /\ fst (detect_virtualization st_ordinary) = None
  /\ fst (detect_virtualization st_virtio_guest) = Some "KVM/QEMU"
  /\ fst (detect_virtualization st_physical_quiet) = None.
Proof. repeat split. Qed.

(* ------------------------------------------------------------------ *)
(** ** The virtual-machine short circuit of [detect_gpu] *)

Lemma virt_map_nonempty (key default : string) :
  default <> "" -> dict_get virt_map key default <> "".
Proof.
  intros H. unfold virt_map, dict_get.
  repeat match goal with
         | |- context [String.eqb ?a key] => destruct (String.eqb a key)
         end; try discriminate; exact H.
Qed.

Lemma method1_nonempty (r : RunResult) (v : string) :
  method1 r = Some v -> v <> "".
Proof.
  destruct r as [rc out err| | |]; simpl; try discriminate.
  destruct (strip out =? "") eqn:E; simpl; [discriminate|].
  destruct (strip out =? "none"); simpl; [discriminate|].
  intros [= <-]. apply virt_map_nonempty. now apply String.eqb_neq.
Qed.

Lemma method2_nonempty (r : RunResult) (v : string) :
  method2 r = Some v -> v <> "".
Proof.
  destruct r as [rc out err| | |]; simpl; try discriminate.
  repeat match goal with
         | |- context [if ?b then _ else _] => destruct b
         end; intros [= <-]; discriminate.
Qed.

Lemma method3_nonempty (r : RunResult) (v : string) :
  method3 r = Some v -> v <> "".
Proof.
  destruct r as [rc out err| | |]; simpl; try discriminate.
  repeat match goal with
         | |- context [if ?b then _ else _] => destruct b
         end; intros [= <-]; discriminate.
Qed.

(** An answer of the chain is never the empty string, so [if vm_type:]
    is true for every answer. *)
Lemma detect_virtualization_nonempty (st st1 : State) (vm : string) :
  detect_virtualization st = (Some vm, st1) -> nonempty (Some vm) = Some vm.
Proof.
  rewrite detect_virtualization_unfold. intros H.
  assert (N : vm <> "").
  { destruct (method1 _) as [v|] eqn:E1.
    - injection H as <- _. exact (method1_nonempty _ _ E1).
    - destruct (method2 _) as [v|] eqn:E2.
      + injection H as <- _. exact (method2_nonempty _ _ E2).
      + injection H as E3 _. exact (method3_nonempty _ _ E3). }
  unfold nonempty, truthy. apply String.eqb_neq in N. now rewrite N.
Qed.

(** What [detect_gpu] does with an answer of the chain. *)
Lemma detect_gpu_after_answer (st st1 : State) (vm : string) :
  detect_virtualization st = (Some vm, st1) ->
  detect_gpu st =
    (lower vm,
     set_hardware_info
       (mkHardwareInfo GPUVendor.VIRTUAL (gpu_model (hardware_info st1))
                       (_vm_type_str_to_enum vm)) st1).
Proof.
  intros H. unfold detect_gpu, bind. rewrite H.
  rewrite (detect_virtualization_nonempty st st1 vm H). reflexivity.
Qed.

(** The chain stops after the oracle when the oracle is definitive. *)
Lemma detect_virtualization_oracle_only (st : State) :
  definitive (answer1 st) ->
  spawned (snd (detect_virtualization st)) = (spawned st ++ [sp_virt])%list.
Proof.
  intros H. rewrite detect_virtualization_unfold.
  pose proof (method1_definitive _ H) as N.
  destruct (method1 _); [reflexivity | congruence].
Qed.

(** C3.  Whenever the chain returns a classification, [detect_gpu]
    records the vendor [VIRTUAL] and returns at once: it spawns nothing
    of its own (neither [lspci] nor [glxinfo]), so the spawns of the
    whole call are those of the chain, whatever the host would have
    listed.  When the classification is the oracle's, the whole call
    spawns the oracle and nothing else. *)
Theorem detect_gpu_vm_short_circuit (st st1 : State) (vm : string) :
  detect_virtualization st = (Some vm, st1) ->
  detect_gpu st =
    (lower vm,
     set_hardware_info
       (mkHardwareInfo GPUVendor.VIRTUAL (gpu_model (hardware_info st1))
                       (_vm_type_str_to_enum vm)) st1)
  /\ gpu_vendor (hardware_info (snd (detect_gpu st))) = GPUVendor.VIRTUAL
  /\ spawned (snd (detect_gpu st)) = spawned st1
  /\ (definitive (answer1 st) ->
      spawned (snd (detect_gpu st)) = (spawned st ++ [sp_virt])%list).
Proof.
  intros H. rewrite (detect_gpu_after_answer st st1 vm H).
  split; [reflexivity|]. split; [reflexivity|]. split; [reflexivity|].
  intros D. cbn [snd set_hardware_info spawned].
  rewrite <- (detect_virtualization_oracle_only st D). now rewrite H.
Qed.

Lemma detect_gpu_vm_short_circuit_witness :
  detect_gpu st_kvm_guest =
    (lower "KVM",
     set_hardware_info
       (mkHardwareInfo GPUVendor.VIRTUAL "Unknown" VMType.KVM)
       (snd (detect_virtualization st_kvm_guest)))
  /\ gpu_vendor (hardware_info (snd (detect_gpu st_kvm_guest))) = GPUVendor.VIRTUAL
  /\ spawned (snd (detect_gpu st_kvm_guest)) = [sp_virt]
  /\ (definitive (answer1 st_kvm_guest) ->
      spawned (snd (detect_gpu st_kvm_guest)) = [sp_virt]).
Proof.
  apply (detect_gpu_vm_short_circuit
           st_kvm_guest (snd (detect_virtualization st_kvm_guest)) "KVM").
  reflexivity.
Defined.

(* ------------------------------------------------------------------ *)
(** ** Dry run and auto-yes *)

(** C5.  Under [dry_run] the executor answers success with empty
    output for every command, check mode, shell mode and timeout, and
    the state it returns is the state it was given: nothing is spawned,
    the failure ledger and every other field are as before. *)
Theorem run_command_dry_run (st : State) (cmd : Cmd) (description : string)
        (check shell : bool) (timeout : nat) :
  dry_run (config st) = true ->
  run_command cmd description check shell timeout st = ((true, "", ""), st).
Proof.
  intros H. unfold run_command, bind, get_config. now rewrite H.
Qed.

Lemma run_command_dry_run_witness :
  run_command (Argv ["apt-get"; "install"; "-y"; "steam"]) "Installing Steam"
              true false 300 st_dry_run
  = ((true, "", ""), st_dry_run).
Proof.
  apply (run_command_dry_run st_dry_run). reflexivity.
Defined.

(** C9.  Under [auto_yes] the smart prompt answers yes (install) for
    every component, whatever the package and Flatpak queries would
    report, and so does [confirm]; the state is returned as it was, so
    nothing was queried and [input()] was not called. *)
Theorem auto_yes_installs (st : State) (software_name : string)
        (package_name flatpak_id : option string) :
  auto_yes (config st) = true ->
  prompt_install_or_update software_name package_name flatpak_id st = (true, st)
  /\ forall question, confirm question st = (true, st).
Proof.
  intros H. split; [|intros question];
    unfold prompt_install_or_update, confirm, bind, get_config; now rewrite H.
Qed.

Lemma auto_yes_installs_witness :
  prompt_install_or_update "Steam" (Some "steam") None st_auto_yes_installed
  = (true, st_auto_yes_installed)
  /\ forall question, confirm question st_auto_yes_installed
                      = (true, st_auto_yes_installed).
Proof.
  apply (auto_yes_installs st_auto_yes_installed). reflexivity.
Defined.

(* ------------------------------------------------------------------ *)
(** ** The failure ledger *)

(** The claim C4 as the specification words it fails on a call with
    [check=False]: [apt-get update] exits with status 100, the executor
    reports failure, and [failed_operations] has no new entry. *)
Lemma run_command_unchecked_exit_unrecorded :
  let call := run_command (Argv ["apt-get"; "update"])
                          "Testing repository configuration"
                          false false 300 st_broken_repo in
  fst call = (false, "", apt_update_error)
  /\ failed_operations (snd call) = failed_operations st_broken_repo
  /\ ~ (exists msg,
          failed_operations (snd call)
          = (failed_operations st_broken_repo ++ [msg])%list).
Proof.
  cbv zeta. split; [reflexivity|]. split; [reflexivity|].
  intros [msg H]. vm_compute in H. discriminate H.
Qed.

(** C4, amended.  Outside dry run: a successful call leaves
    [failed_operations] as it was; a timeout, a failure to start, and a
    non-zero exit of a call made with [check=True] each append exactly
    one entry; a non-zero exit of a call made with [check=False] is
    reported as failure and appends nothing. *)
Theorem run_command_ledger (st : State) (cmd : Cmd) (description : string)
        (check shell : bool) (timeout : nat) :
  dry_run (config st) = false ->
  let o := host st (spawned st) (mkSpawn cmd shell timeout) in
  let call := run_command cmd description check shell timeout st in
  (fst (fst (fst call)) = true ->
   failed_operations (snd call) = failed_operations st)
  /\ (o = TimedOut \/ (exists msg, o = CannotStart msg)
      \/ (exists rc out err, o = Exited rc out err /\ rc <> 0%Z /\ check = true) ->
      fst (fst (fst call)) = false
      /\ exists entry,
          failed_operations (snd call) = (failed_operations st ++ [entry])%list)
  /\ (forall rc out err,
        o = Exited rc out err -> rc <> 0%Z -> check = false ->
        fst call = (false, out, err)
        /\ failed_operations (snd call) = failed_operations st).
Proof.
  intros Hdry. cbv zeta.
  unfold run_command, bind, get_config, subprocess_run. rewrite Hdry.
  destruct (host st (spawned st) (mkSpawn cmd shell timeout)) as [rc out err| |msg];
    cbn [result_of].
  - destruct (Z.eqb_spec rc 0) as [->|Hrc].
    + rewrite andb_false_r. cbn. split; [reflexivity|]. split.
      * intros [F|[[m F]|(rc & o1 & e1 & F & N & _)]]; try discriminate.
        injection F as <- _ _. now elim N.
      * intros rc o1 e1 [= <- _ _] N. now elim N.
    + destruct check; cbn; rewrite ?(proj2 (Z.eqb_neq rc 0) Hrc); cbn.
      * split; [discriminate|]. split.
        -- intros _. split; [reflexivity | eexists; reflexivity].
        -- intros; discriminate.
      * split; [discriminate|]. split.
        -- intros [F|[[m F]|(rc' & o1 & e1 & _ & _ & F)]]; discriminate.
        -- intros rc' o1 e1 [= _ <- <-] _ _. split; reflexivity.
  - cbn. split; [discriminate|]. split.
    + intros _. split; [reflexivity | eexists; reflexivity].
    + intros; discriminate.
  - cbn. split; [discriminate|]. split.
    + intros _. split; [reflexivity | eexists; reflexivity].
    + intros; discriminate.
Qed.

Lemma run_command_ledger_witness :
  (let call := run_command (Argv ["apt-get"; "update"]) "Updating package lists"
                           true false 300 st_broken_repo in
   fst (fst (fst call)) = false
   /\ exists entry, failed_operations (snd call) = ([] ++ [entry])%list)
  /\ (let call := run_command (Argv ["wget"; "-q"; "https://example.org/key.gpg"])
                              "Downloading key" false false 600 st_broken_repo in
      fst (fst (fst call)) = false
      /\ exists entry, failed_operations (snd call) = ([] ++ [entry])%list)
  /\ (let call := run_command (Argv ["apt-get"; "update"])
                              "Testing repository configuration"
                              false false 300 st_broken_repo in
      fst call = (false, "", apt_update_error)
      /\ failed_operations (snd call) = []).
Proof.
  split; [|split].
  - apply (proj1 (proj2 (run_command_ledger
                           st_broken_repo (Argv ["apt-get"; "update"])
                           "Updating package lists" true false 300 eq_refl))).
    right; right. exists 100%Z, "", apt_update_error.
    split; [reflexivity|]. split; [discriminate | reflexivity].
  - apply (proj1 (proj2 (run_command_ledger
                           st_broken_repo
                           (Argv ["wget"; "-q"; "https://example.org/key.gpg"])
                           "Downloading key" false false 600 eq_refl))).
    left. reflexivity.
  - apply (proj2 (proj2 (run_command_ledger
                           st_broken_repo (Argv ["apt-get"; "update"])
                           "Testing repository configuration"
                           false false 300 eq_refl)) 100%Z "" apt_update_error).
    + reflexivity.
    + discriminate.
    + reflexivity.
Defined.

(** The entries the three failure branches append. *)
Example run_command_entries :
  failed_operations
    (snd (run_command (Argv ["apt-get"; "update"]) "Updating package lists"
                      true false 300 st_broken_repo))
  = ["FAILED: Updating package lists"]
  /\ failed_operations
       (snd (run_command (Argv ["wget"; "-q"; "https://example.org/key.gpg"])
                         "Downloading key" false false 600 st_broken_repo))
     = ["TIMEOUT: Downloading key (exceeded 600 seconds)"]
  /\ failed_operations
       (snd (run_command (Argv ["reboot"]) "Rebooting system"
                         true false 300 st_broken_repo))
     = ["EXCEPTION: Rebooting system - [Errno 2] No such file or directory"].
Proof. repeat split. Qed.

(* ------------------------------------------------------------------ *)
(** ** Update detection *)

(** The claim C6 as the specification words it fails when a version is
    present but empty: [dpkg-query] exits with status 0 and prints
    nothing, the candidate is [1.0], both versions are returned (neither
    is [None]), the strings differ, and no update is reported. *)
Lemma check_updates_empty_version_no_update :
  let call := check_updates_available "steam" (st_versions "" "1.0") in
  snd (fst (fst call)) = Some "" /\ snd (fst call) = Some "1.0"
  /\ "" <> "1.0"
  /\ fst (fst (fst call)) = false
  /\ ~ (fst (fst (fst call)) = true <-> "" <> "1.0").
Proof.
  cbv zeta. repeat split; try reflexivity; try discriminate.
  intros [_ H]. assert (F : "" <> "1.0") by discriminate.
  specialize (H F). vm_compute in H. discriminate H.
Qed.

(** C6, amended.  [check_updates_available] returns the two versions as
    queried; when both are present and non-empty, an update is reported
    exactly when the two strings differ; when either is absent or
    empty, no update is reported. *)
Theorem check_updates_string_inequality (st : State) (package_name : string) :
  let q1 := get_package_version package_name st in
  let q2 := get_available_version package_name (snd q1) in
  let call := check_updates_available package_name st in
  snd (fst (fst call)) = fst q1 /\ snd (fst call) = fst q2 /\ snd call = snd q2
  /\ (forall i a, fst q1 = Some i -> fst q2 = Some a -> i <> "" -> a <> "" ->
                  (fst (fst (fst call)) = true <-> i <> a))
  /\ (fst q1 = None \/ fst q1 = Some "" \/ fst q2 = None \/ fst q2 = Some "" ->
      fst (fst (fst call)) = false).
Proof.
  cbv zeta. unfold check_updates_available, bind.
  destruct (get_package_version package_name st) as [inst st1].
  cbn [fst snd].
  destruct (get_available_version package_name st1) as [avail st2].
  cbn [fst snd].
  assert (E : forall b : bool,
             (if b then ret (true, inst, avail)
              else ret (false, inst, avail)) st2 = ((b, inst, avail), st2))
    by (intros []; reflexivity).
  rewrite E. cbn [fst snd].
  split; [reflexivity|]. split; [reflexivity|]. split; [reflexivity|]. split.
  - intros i a -> -> Hi Ha. cbn.
    apply String.eqb_neq in Hi, Ha. rewrite Hi, Ha. cbn.
    rewrite negb_true_iff. apply String.eqb_neq.
  - intros [-> | [-> | [-> | ->]]]; cbn;
      rewrite ?andb_false_r; try reflexivity;
      destruct (truthy inst); reflexivity.
Qed.

Lemma check_updates_string_inequality_witness :
  (fst (fst (fst (check_updates_available "steam" (st_versions "2.0" "1.9")))) = true
   <-> "2.0" <> "1.9")
  /\ fst (fst (fst (check_updates_available "steam" (st_versions "" "1.0")))) = false.
Proof.
  split.
  - apply (proj1 (proj2 (proj2 (proj2
             (check_updates_string_inequality (st_versions "2.0" "1.9") "steam"))))
             "2.0" "1.9");
      [reflexivity | reflexivity | discriminate | discriminate].
  - apply (proj2 (proj2 (proj2 (proj2
             (check_updates_string_inequality (st_versions "" "1.0") "steam"))))).
    right; left. reflexivity.
Defined.

(** The three pairs of the specification. *)
Example check_updates_examples :
  fst (check_updates_available "steam" (st_versions "1.0" "1.0"))
  = (false, Some "1.0", Some "1.0")
  /\ fst (check_updates_available "steam" (st_versions "1.0" "1.0.1"))
     = (true, Some "1.0", Some "1.0.1")
  /\ fst (check_updates_available "steam" (st_versions "2.0" "1.9"))
     = (true, Some "2.0", Some "1.9").
Proof. repeat split. Qed.

(** On the host of [st_auto_yes_installed] the package is installed and
    is its own candidate. *)
Example auto_yes_host_is_up_to_date :
  fst (is_package_installed "steam" st_auto_yes_installed) = true
  /\ fst (check_updates_available "steam" st_auto_yes_installed)
     = (false, Some "1.0", Some "1.0").
Proof. split; reflexivity. Qed.

(* ------------------------------------------------------------------ *)
(** ** Unrecognised oracle tokens *)

(** The claim C7 as the specification words it fails twice.  The token
    [bochs] is in none of the tables of the specification, yet the
    chain returns the name [Bochs] of the code's own table, not the raw
    token.  The token [lxc] is returned as it is, but the typed
    [hardware_info.vm_type], which has no member for other hypervisors,
    becomes [NONE]. *)
Lemma unlisted_token_not_kept :
  (strip ("bochs" ++ nl) = "bochs"
   /\ in_list "bochs" ["vmware"; "kvm"; "qemu"; "virtualbox"; "oracle";
                       "microsoft"; "xen"; "parallels"; ""; "none"] = false
   /\ fst (detect_virtualization (st_oracle "bochs")) = Some "Bochs"
   /\ fst (detect_virtualization (st_oracle "bochs")) <> Some "bochs")
  /\ (fst (detect_virtualization (st_oracle "lxc")) = Some "lxc"
      /\ vm_type (hardware_info (snd (detect_gpu (st_oracle "lxc")))) = VMType.NONE).
Proof. repeat split; discriminate. Qed.

Lemma dict_get_miss (d : list (string * string)) (key default : string) :
  in_list key (map fst d) = false -> dict_get d key default = default.
Proof.
  induction d as [|[k v] d IH]; simpl; intros H; [reflexivity|].
  apply orb_false_iff in H. destruct H as [Hk Hd].
  rewrite String.eqb_sym, Hk. auto.
Qed.

(** C7, amended.  When the oracle prints a token that is neither empty
    nor [none] and whose lower-case form is not a key of [virt_map]
    (vmware, kvm, qemu, virtualbox, oracle, microsoft, xen, bochs,
    parallels), the chain returns that raw token itself after the one
    spawn, and [detect_gpu] returns it lowered with vendor [VIRTUAL].
    The typed [hardware_info.vm_type] does not carry the token: it is
    [_vm_type_str_to_enum] of it, which is [NONE] when the token holds
    none of the names that function looks for. *)
Theorem unknown_token_kept (st : State) (rc : Z) (out err : string) :
  answer1 st = Exited rc out err ->
  strip out <> "" -> strip out <> "none" ->
  in_list (lower (strip out)) (map fst virt_map) = false ->
  detect_virtualization st
  = (Some (strip out), set_spawned (spawned st ++ [sp_virt]) st)
  /\ fst (detect_gpu st) = lower (strip out)
  /\ gpu_vendor (hardware_info (snd (detect_gpu st))) = GPUVendor.VIRTUAL
  /\ vm_type (hardware_info (snd (detect_gpu st))) = _vm_type_str_to_enum (strip out)
  /\ (any_in ["vmware"; "virtualbox"; "oracle"; "kvm"; "qemu"; "hyper-v";
              "microsoft"; "xen"; "parallels"] (lower (strip out)) = false ->
      vm_type (hardware_info (snd (detect_gpu st))) = VMType.NONE).
Proof.
  intros Ha Hne Hnone Hmiss.
  assert (E : detect_virtualization st
              = (Some (strip out), set_spawned (spawned st ++ [sp_virt]) st)).
  { rewrite detect_virtualization_unfold, Ha. cbn [result_of andb method1].
    apply String.eqb_neq in Hne, Hnone. rewrite Hne, Hnone. cbn [negb andb].
    now rewrite (dict_get_miss _ _ _ Hmiss). }
  pose proof (detect_gpu_after_answer st _ _ E) as G.
  split; [exact E|]. rewrite G. cbn [fst snd].
  split; [reflexivity|]. split; [reflexivity|]. split; [reflexivity|].
  cbn [set_hardware_info hardware_info vm_type].
  unfold _vm_type_str_to_enum, any_in. cbn [existsb].
  intros H. repeat (apply orb_false_iff in H; destruct H as [?H H]).
  repeat match goal with
         | Hk : str_in ?k _ = false |- _ => rewrite Hk; clear Hk
         end.
  reflexivity.
Qed.

Lemma unknown_token_kept_witness :
  detect_virtualization (st_oracle "lxc")
  = (Some "lxc", set_spawned [sp_virt] (st_oracle "lxc"))
  /\ fst (detect_gpu (st_oracle "lxc")) = "lxc"
  /\ gpu_vendor (hardware_info (snd (detect_gpu (st_oracle "lxc")))) = GPUVendor.VIRTUAL
  /\ vm_type (hardware_info (snd (detect_gpu (st_oracle "lxc"))))
     = _vm_type_str_to_enum "lxc"
  /\ (any_in ["vmware"; "virtualbox"; "oracle"; "kvm"; "qemu"; "hyper-v";
              "microsoft"; "xen"; "parallels"] "lxc" = false ->
      vm_type (hardware_info (snd (detect_gpu (st_oracle "lxc")))) = VMType.NONE).
Proof.
  apply (unknown_token_kept (st_oracle "lxc") 0%Z ("lxc" ++ nl) "").
  - reflexivity.
  - discriminate.
  - discriminate.
  - reflexivity.
Defined.

(* ------------------------------------------------------------------ *)
(** ** GPU classification *)

Example gpu_examples :
  gpu_lines_of (lower lspci_optimus)
  = ["00:02.0 vga compatible controller: intel corporation uhd graphics 630";
     "01:00.0 3d controller: nvidia corporation gp107m [geforce gtx 1050 mobile]"]
  /\ gl_info_of (CompletedProcess 0 glxinfo_optimus "")
     = "opengl renderer string: mesa intel(r) uhd graphics 630 (cfl gt2)"
  /\ classify_gpu (gpu_lines_of (lower lspci_intel_iris)) ""
     = (GPUVendor.INTEL, Some "intel corp. iris xe", "intel")
  /\ classify_gpu (gpu_lines_of (lower lspci_intel_plain)) ""
     = (GPUVendor.UNKNOWN, None, "generic")
  /\ classify_gpu [] "" = (GPUVendor.UNKNOWN, None, "unknown")
  /\ classify_gpu (gpu_lines_of (lower lspci_amd_intel))
                  (gl_info_of (CompletedProcess 0 glxinfo_amd ""))
     = (GPUVendor.AMD, Some "advanced micro devices [amd] radeon rx 560", "amd").
Proof. repeat split. Qed.

(** The vendor tests are tried in the order virtual, NVIDIA, AMD,
    Intel, and the first that holds decides; with none, a listed GPU is
    generic and no listed GPU is unknown. *)
Lemma classify_gpu_precedence (gpu_lines : list string) (gl_info : string) :
  let gpu_info := gpu_info_of gpu_lines in
  let vendor := fst (fst (classify_gpu gpu_lines gl_info)) in
  let answer := snd (classify_gpu gpu_lines gl_info) in
  let V := any_in_either vm_indicators gpu_info gl_info in
  let N := str_in "nvidia" gpu_info || str_in "nvidia" gl_info in
  let A := any_in_either amd_indicators gpu_info gl_info in
  let I := str_in "intel" gpu_info && any_in intel_gpu_terms gpu_info in
  (V = true -> (vendor, answer) = (GPUVendor.VIRTUAL, "generic"))
  /\ (V = false -> N = true -> (vendor, answer) = (GPUVendor.NVIDIA, "nvidia"))
  /\ (V = false -> N = false -> A = true ->
      (vendor, answer) = (GPUVendor.AMD, "amd"))
  /\ (V = false -> N = false -> A = false -> I = true ->
      (vendor, answer) = (GPUVendor.INTEL, "intel"))
  /\ (V = false -> N = false -> A = false -> I = false -> gpu_lines <> [] ->
      (vendor, answer) = (GPUVendor.UNKNOWN, "generic"))
  /\ (V = false -> N = false -> A = false -> I = false -> gpu_lines = [] ->
      (vendor, answer) = (GPUVendor.UNKNOWN, "unknown")).
Proof.
  cbv zeta. unfold classify_gpu.
  destruct (any_in_either vm_indicators _ _);
    [repeat split; intros; try discriminate; reflexivity|].
  destruct (str_in "nvidia" _ || str_in "nvidia" _);
    [repeat split; intros; try discriminate; reflexivity|].
  destruct (any_in_either amd_indicators _ _);
    [repeat split; intros; try discriminate; reflexivity|].
  destruct (str_in "intel" _ && any_in intel_gpu_terms _);
    [repeat split; intros; try discriminate; reflexivity|].
  destruct gpu_lines; repeat split; intros; try discriminate; try reflexivity;
    congruence.
Qed.

(** After a chain without answer and an [lspci] that ran, what
    [detect_gpu] returns and records is [classify_gpu] of the filtered
    lines and the renderer line. *)
Lemma detect_gpu_is_classify_gpu (st st1 : State) (rc : Z) (out err : string) :
  detect_virtualization st = (None, st1) ->
  host st1 (spawned st1) sp_lspci = Exited rc out err ->
  let gpu_lines := gpu_lines_of (lower out) in
  let gl_info :=
    gl_info_of (result_of false (host st1 (spawned st1 ++ [sp_lspci])%list sp_glxinfo)) in
  fst (detect_gpu st) = snd (classify_gpu gpu_lines gl_info)
  /\ gpu_vendor (hardware_info (snd (detect_gpu st)))
     = fst (fst (classify_gpu gpu_lines gl_info)).
Proof.
  intros Hvm Hl. cbv zeta.
  unfold detect_gpu, bind. rewrite Hvm. cbn [nonempty truthy].
  unfold hardware_scan, bind, probe, subprocess_run.
  change (mkSpawn (Argv ["lspci"]) false 5) with sp_lspci.
  change (mkSpawn (Argv ["glxinfo"]) false 5) with sp_glxinfo.
  rewrite Hl. cbn [result_of andb set_spawned spawned host].
  destruct (classify_gpu _ _) as [[v m] a].
  destruct m; split; reflexivity.
Qed.

Lemma any_in_line_either (keys : list string) (l : string)
      (gpu_lines : list string) (gl_info : string) :
  In l gpu_lines -> any_in keys (lower l) = true ->
  any_in_either keys (gpu_info_of gpu_lines) gl_info = true.
Proof.
  unfold any_in, any_in_either. intros Hl H.
  apply existsb_exists in H. destruct H as (k & Hk & Hin).
  apply existsb_exists. exists k. split; [exact Hk|].
  now rewrite (str_in_gpu_info k l gpu_lines Hl Hin).
Qed.

(** The claim C2 as the specification words it fails on a laptop with
    an Intel and an NVIDIA GPU: the filtered lines hold an AMD marker
    ([ati], in "compatible" and "corporation") and the Intel marker, and
    the vendor is NVIDIA, which precedes both. *)
Lemma amd_and_intel_markers_yield_nvidia :
  let gpu_lines := gpu_lines_of (lower lspci_optimus) in
  let gl_info := gl_info_of (CompletedProcess 0 glxinfo_optimus "") in
  existsb (any_in amd_indicators) gpu_lines = true
  /\ existsb (str_in "intel") gpu_lines = true
  /\ classify_gpu gpu_lines gl_info
     = (GPUVendor.NVIDIA, Some "nvidia corporation gp107m [geforce gtx 1050 mobile]",
        "nvidia")
  /\ fst (fst (classify_gpu gpu_lines gl_info)) <> GPUVendor.AMD
  /\ fst (detect_gpu (st_physical lspci_optimus glxinfo_optimus)) = "nvidia"
  /\ gpu_vendor (hardware_info (snd (detect_gpu (st_physical lspci_optimus glxinfo_optimus))))
     = GPUVendor.NVIDIA.
Proof. cbv zeta. repeat split. discriminate. Qed.

(** C2, amended.  Every run that reaches the hardware scan with the
    same filtered lines and the same renderer line gets the same
    classification, [classify_gpu] of the two.  The vendor tests have
    the precedence virtual, NVIDIA, AMD, Intel, generic, unknown.  In
    particular, when a filtered line holds an AMD marker and a filtered
    line holds the Intel marker, and neither the filtered text nor the
    renderer line holds a virtual-GPU or NVIDIA marker, the vendor is
    AMD. *)
Theorem gpu_vendor_precedence (gpu_lines : list string) (gl_info : string) :
  let gpu_info := gpu_info_of gpu_lines in
  let c := classify_gpu gpu_lines gl_info in
  let V := any_in_either vm_indicators gpu_info gl_info in
  let N := str_in "nvidia" gpu_info || str_in "nvidia" gl_info in
  let A := any_in_either amd_indicators gpu_info gl_info in
  let I := str_in "intel" gpu_info && any_in intel_gpu_terms gpu_info in
  (forall st st1 rc out err,
      detect_virtualization st = (None, st1) ->
      host st1 (spawned st1) sp_lspci = Exited rc out err ->
      gpu_lines_of (lower out) = gpu_lines ->
      gl_info_of (result_of false
                    (host st1 (spawned st1 ++ [sp_lspci])%list sp_glxinfo)) = gl_info ->
      fst (detect_gpu st) = snd c
      /\ gpu_vendor (hardware_info (snd (detect_gpu st))) = fst (fst c))
  /\ ((V = true -> (fst (fst c), snd c) = (GPUVendor.VIRTUAL, "generic"))
      /\ (V = false -> N = true -> (fst (fst c), snd c) = (GPUVendor.NVIDIA, "nvidia"))
      /\ (V = false -> N = false -> A = true ->
          (fst (fst c), snd c) = (GPUVendor.AMD, "amd"))
      /\ (V = false -> N = false -> A = false -> I = true ->
          (fst (fst c), snd c) = (GPUVendor.INTEL, "intel"))
      /\ (V = false -> N = false -> A = false -> I = false -> gpu_lines <> [] ->
          (fst (fst c), snd c) = (GPUVendor.UNKNOWN, "generic"))
      /\ (V = false -> N = false -> A = false -> I = false -> gpu_lines = [] ->
          (fst (fst c), snd c) = (GPUVendor.UNKNOWN, "unknown")))
  /\ (forall l l',
         In l gpu_lines -> any_in amd_indicators (lower l) = true ->
         In l' gpu_lines -> str_in "intel" (lower l') = true ->
         V = false -> N = false ->
         (fst (fst c), snd c) = (GPUVendor.AMD, "amd")).
Proof.
  cbv zeta. split; [|split].
  - intros st st1 rc out err Hvm Hl <- <-.
    exact (detect_gpu_is_classify_gpu st st1 rc out err Hvm Hl).
  - exact (classify_gpu_precedence gpu_lines gl_info).
  - intros l l' Hl Hamd _ _ HV HN.
    apply (proj1 (proj2 (proj2 (classify_gpu_precedence gpu_lines gl_info))) HV HN).
    exact (any_in_line_either amd_indicators l gpu_lines gl_info Hl Hamd).
Qed.

Lemma gpu_vendor_precedence_witness :
  let gpu_lines := gpu_lines_of (lower lspci_amd_intel) in
  let gl_info := gl_info_of (CompletedProcess 0 glxinfo_amd "") in
  (fst (detect_gpu (st_physical lspci_amd_intel glxinfo_amd))
   = snd (classify_gpu gpu_lines gl_info)
   /\ gpu_vendor (hardware_info (snd (detect_gpu (st_physical lspci_amd_intel glxinfo_amd))))
      = fst (fst (classify_gpu gpu_lines gl_info)))
  /\ (fst (fst (classify_gpu gpu_lines gl_info)), snd (classify_gpu gpu_lines gl_info))
     = (GPUVendor.AMD, "amd").
Proof.
  cbv zeta. split.
  - apply (proj1 (gpu_vendor_precedence
                    (gpu_lines_of (lower lspci_amd_intel))
                    (gl_info_of (CompletedProcess 0 glxinfo_amd "")))
                 (st_physical lspci_amd_intel glxinfo_amd)
                 (snd (detect_virtualization (st_physical lspci_amd_intel glxinfo_amd)))
                 0%Z lspci_amd_intel "");
      reflexivity.
  - apply (proj2 (proj2 (gpu_vendor_precedence
                           (gpu_lines_of (lower lspci_amd_intel))
                           (gl_info_of (CompletedProcess 0 glxinfo_amd ""))))
                 "01:00.0 display controller: advanced micro devices [amd] radeon rx 560"
                 "00:02.0 display controller: intel corp. uhd graphics 630").
    + vm_compute. right; left. reflexivity.
    + reflexivity.
    + vm_compute. left. reflexivity.
    + reflexivity.
    + reflexivity.
    + reflexivity.
Defined.

(** The claim C8 as the specification words it fails when the Intel
    marker and its qualifier stand in the renderer line only: no
    virtual, NVIDIA or AMD marker anywhere, [intel] and [uhd] in the
    combined text, and the display controller is classified generic,
    not Intel. *)
Lemma intel_in_renderer_only_is_generic :
  let gpu_lines := gpu_lines_of (lower lspci_unnamed) in
  let gl_info := gl_info_of (CompletedProcess 0 glxinfo_intel "") in
  let gpu_info := gpu_info_of gpu_lines in
  (any_in_either vm_indicators gpu_info gl_info = false
   /\ str_in "nvidia" gpu_info || str_in "nvidia" gl_info = false
   /\ any_in_either amd_indicators gpu_info gl_info = false)
  /\ (str_in "intel" gpu_info || str_in "intel" gl_info = true
      /\ any_in_either intel_gpu_terms gpu_info gl_info = true
      /\ str_in "intel" (gpu_info ++ " " ++ gl_info) = true
      /\ any_in intel_gpu_terms (gpu_info ++ " " ++ gl_info) = true)
  /\ classify_gpu gpu_lines gl_info = (GPUVendor.UNKNOWN, None, "generic")
  /\ fst (fst (classify_gpu gpu_lines gl_info)) <> GPUVendor.INTEL
  /\ fst (detect_gpu (st_physical lspci_unnamed glxinfo_intel)) = "generic"
  /\ gpu_vendor (hardware_info (snd (detect_gpu (st_physical lspci_unnamed glxinfo_intel))))
     = GPUVendor.UNKNOWN.
Proof. cbv zeta. repeat split. discriminate. Qed.

(** C8, amended.  With no virtual, NVIDIA or AMD marker in the filtered
    text or the renderer line, the vendor is Intel exactly when the
    filtered device text itself holds the [intel] marker together with
    one of [graphics], [hd], [iris], [uhd], [arc]; the renderer line is
    not consulted for this test, and [intel] without such a term in the
    device text does not classify as Intel. *)
Theorem intel_needs_term_in_device_text (gpu_lines : list string) (gl_info : string) :
  let gpu_info := gpu_info_of gpu_lines in
  let vendor := fst (fst (classify_gpu gpu_lines gl_info)) in
  any_in_either vm_indicators gpu_info gl_info = false ->
  str_in "nvidia" gpu_info || str_in "nvidia" gl_info = false ->
  any_in_either amd_indicators gpu_info gl_info = false ->
  (vendor = GPUVendor.INTEL <->
   str_in "intel" gpu_info = true /\ any_in intel_gpu_terms gpu_info = true)
  /\ (any_in intel_gpu_terms gpu_info = false -> vendor <> GPUVendor.INTEL).
Proof.
  cbv zeta. intros HV HN HA.
  destruct (classify_gpu_precedence gpu_lines gl_info) as (_ & _ & _ & PI & PG & PU).
  specialize (PI HV HN HA). specialize (PG HV HN HA). specialize (PU HV HN HA).
  destruct (str_in "intel" (gpu_info_of gpu_lines)
            && any_in intel_gpu_terms (gpu_info_of gpu_lines)) eqn:EI.
  - injection (PI eq_refl) as Ev _. rewrite Ev.
    apply andb_true_iff in EI. split.
    + split; [intros _; exact EI | reflexivity].
    + intros F. destruct EI as [_ EI]. congruence.
  - assert (Ev : fst (fst (classify_gpu gpu_lines gl_info)) = GPUVendor.UNKNOWN).
    { destruct gpu_lines as [|l ls].
      - now injection (PU eq_refl eq_refl) as Ev _.
      - assert (Hne : l :: ls <> []) by discriminate.
        now injection (PG eq_refl Hne) as Ev _. }
    rewrite Ev. split.
    + split; [discriminate|].
      intros [H1 H2]. rewrite H1, H2 in EI. discriminate.
    + intros _. discriminate.
Qed.

Lemma intel_needs_term_in_device_text_witness :
  fst (fst (classify_gpu (gpu_lines_of (lower lspci_intel_iris)) "")) = GPUVendor.INTEL
  /\ fst (fst (classify_gpu (gpu_lines_of (lower lspci_intel_plain))
                            (gl_info_of (CompletedProcess 0 glxinfo_intel ""))))
     <> GPUVendor.INTEL.
Proof.
  split.
  - apply (proj1 (intel_needs_term_in_device_text
                    (gpu_lines_of (lower lspci_intel_iris)) ""
                    eq_refl eq_refl eq_refl)).
    split; reflexivity.
  - apply (proj2 (intel_needs_term_in_device_text
                    (gpu_lines_of (lower lspci_intel_plain))
                    (gl_info_of (CompletedProcess 0 glxinfo_intel ""))
                    eq_refl eq_refl eq_refl)).
    reflexivity.
Defined.

(* ------------------------------------------------------------------ *)
(** ** Versions with an epoch *)

Lemma app_not_self (e t : string) : e ++ String ":" t <> e.
Proof.
  induction e as [|c e IH]; simpl; [discriminate|].
  intros [= H]. exact (IH H).
Qed.

Lemma app_nonempty (e t : string) : e <> "" -> e ++ t <> "".
Proof. destruct e; [congruence | discriminate]. Qed.

(** On a line [<indent>Candidate: <epoch>:<rest>] the field between the
    first and the second colon is the epoch. *)
Lemma field_after_colon_candidate (indent e rest : string) :
  str_in ":" indent = false -> str_in ":" e = false -> strip e = e ->
  field_after_colon (indent ++ "Candidate: " ++ e ++ ":" ++ rest) = Some e.
Proof.
  intros Hi He Hs. rewrite str_in_char in Hi, He.
  unfold field_after_colon.
  change (indent ++ "Candidate: " ++ e ++ ":" ++ rest)
    with (indent ++ "Candidate" ++ String ":" (String " " (e ++ String ":" rest))).
  rewrite <- app_assoc_str.
  rewrite split_at_sep by (rewrite has_char_app, Hi; reflexivity).
  change (String " " (e ++ String ":" rest)) with (String " " e ++ String ":" rest).
  rewrite split_at_sep by (simpl; exact He).
  f_equal. exact Hs.
Qed.

(** C10.  A candidate version [<epoch>:<rest>] is read back from the
    [Candidate:] line of [apt-cache policy] as its epoch alone, while
    [dpkg-query] gives the installed version in full; so when the
    installed version is that very candidate, [check_updates_available]
    still reports an update. *)
Theorem epoch_version_reported_as_update
        (st : State) (package_name e rest out1 err1 out2 err2 indent : string)
        (before after : list string) :
  let v := e ++ ":" ++ rest in
  let q1 := probe_spawn ["dpkg-query"; "-W"; "-f=${Version}"; package_name] in
  let q2 := probe_spawn ["apt-cache"; "policy"; package_name] in
  e <> "" -> strip e = e -> str_in ":" e = false ->
  host st (spawned st) q1 = Exited 0 out1 err1 ->
  strip out1 = v ->
  host st (spawned st ++ [q1])%list q2 = Exited 0 out2 err2 ->
  split "010" out2
  = (before ++ (indent ++ "Candidate: " ++ v)%string :: after)%list ->
  Forall (fun l => str_in "Candidate:" l = false) before ->
  str_in ":" indent = false ->
  fst (get_package_version package_name st) = Some v
  /\ fst (get_available_version package_name
            (snd (get_package_version package_name st))) = Some e
  /\ fst (check_updates_available package_name st) = (true, Some v, Some e).
Proof.
  cbv zeta. intros Hne Hstrip Hcolon H1 Hv H2 Hlines Hbefore Hindent.
  assert (Q1 : get_package_version package_name st
               = (Some (e ++ ":" ++ rest),
                  set_spawned
                    (spawned st ++ [probe_spawn ["dpkg-query"; "-W"; "-f=${Version}";
                                                 package_name]]) st)).
  { unfold get_package_version, bind, probe, subprocess_run.
    change (mkSpawn (Argv ?a) false 5) with (probe_spawn a).
    rewrite H1. cbn. now rewrite Hv. }
  assert (Q2 : fst (get_available_version package_name
                      (snd (get_package_version package_name st))) = Some e).
  { rewrite Q1. cbn [snd].
    unfold get_available_version, bind, probe, subprocess_run.
    change (mkSpawn (Argv ?a) false 5) with (probe_spawn a).
    cbn [set_spawned host spawned]. rewrite H2. cbn.
    unfold version_line. rewrite Hlines.
    rewrite (first_where_app _ before _ after Hbefore).
    - now apply field_after_colon_candidate.
    - change (indent ++ "Candidate: " ++ e ++ ":" ++ rest)
        with (indent ++ "Candidate:" ++ String " " (e ++ ":" ++ rest)).
      apply str_in_here. }
  split; [now rewrite Q1|]. split; [exact Q2|].
  unfold check_updates_available, bind.
  rewrite Q1 in Q2 |- *. cbn [snd] in Q2.
  destruct (get_available_version _ _) as [avail st2]. cbn [fst] in Q2. subst avail.
  cbn [truthy opt_neq].
  pose proof (app_nonempty e (":" ++ rest) Hne) as N1.
  pose proof (app_not_self e rest) as N2.
  apply String.eqb_neq in N1, N2, Hne.
  change (String ":" rest) with (":" ++ rest) in N2.
  rewrite N1, N2, Hne. reflexivity.
Qed.

Lemma epoch_version_reported_as_update_witness :
  let st := st_versions "1:1.0.0.74-1ubuntu2" "1:1.0.0.74-1ubuntu2" in
  fst (get_package_version "steam" st) = Some "1:1.0.0.74-1ubuntu2"
  /\ fst (get_available_version "steam" (snd (get_package_version "steam" st)))
     = Some "1"
  /\ fst (check_updates_available "steam" st)
     = (true, Some "1:1.0.0.74-1ubuntu2", Some "1").
Proof.
  apply (epoch_version_reported_as_update
           (st_versions "1:1.0.0.74-1ubuntu2" "1:1.0.0.74-1ubuntu2")
           "steam" "1" "1.0.0.74-1ubuntu2"
           "1:1.0.0.74-1ubuntu2" ""
           ("steam:" ++ nl ++ "  Installed: 1:1.0.0.74-1ubuntu2" ++ nl
            ++ "  Candidate: 1:1.0.0.74-1ubuntu2" ++ nl
            ++ "  Version table:" ++ nl) ""
           "  "
           ["steam:"; "  Installed: 1:1.0.0.74-1ubuntu2"]
           ["  Version table:"; ""]).
  - discriminate.
  - reflexivity.
  - reflexivity.
  - reflexivity.
  - reflexivity.
  - reflexivity.
  - reflexivity.
  - repeat constructor.
  - reflexivity.
Defined.

(** The same package asked about interactively is offered as an update
    of itself. *)
Example epoch_version_parsing :
  split ":" "  Candidate: 1:2.3-1" = ["  Candidate"; " 1"; "2.3-1"]
  /\ field_after_colon "  Candidate: 1:2.3-1" = Some "1"
  /\ field_after_colon "  Candidate: 2.3-1" = Some "2.3-1"
  /\ fst (check_updates_available "steam" (st_versions "1:2.3-1" "1:2.3-1"))
     = (true, Some "1:2.3-1", Some "1").
Proof. repeat split. Qed.

(* ------------------------------------------------------------------ *)
(** ** Frame rules *)

Section Keeps.

Variable R : State -> State -> Prop.
Hypothesis R_refl : forall st, R st st.
Hypothesis R_trans : forall a b c, R a b -> R b c -> R a c.

Lemma keeps_ret (A : Type) (a : A) : keeps R (ret a).
Proof. intros st. apply R_refl. Qed.

Lemma keeps_bind (A B : Type) (m : M A) (k : A -> M B) :
  keeps R m -> (forall a, keeps R (k a)) -> keeps R (bind m k).
Proof.
  intros Hm Hk st. unfold bind.
  specialize (Hm st). destruct (m st) as [a st1]. cbn [snd] in Hm.
  exact (R_trans _ _ _ Hm (Hk a st1)).
Qed.

Lemma keeps_when (b : bool) (m : M unit) : keeps R m -> keeps R (when b m).
Proof. destruct b; [auto | intros _; apply keeps_ret]. Qed.

Lemma keeps_or_else (a b : M bool) : keeps R a -> keeps R b -> keeps R (or_else a b).
Proof.
  intros Ha Hb. apply keeps_bind; [exact Ha|].
  intros []; [apply keeps_ret | exact Hb].
Qed.

Hypothesis R_probe : forall argv, keeps R (probe argv).
Hypothesis R_hardware : forall h st, R st (set_hardware_info h st).

Ltac keeps_steps :=
  repeat first
    [ apply keeps_ret
    | apply R_probe
    | apply keeps_bind; [|intros]
    | match goal with
      | |- keeps R (match ?x with _ => _ end) => destruct x
      | |- keeps R (let '(_, _) := ?x in _) => destruct x
      end ].

Lemma keeps_is_package_installed (p : string) : keeps R (is_package_installed p).
Proof. unfold is_package_installed. keeps_steps. Qed.

Lemma keeps_get_package_version (p : string) : keeps R (get_package_version p).
Proof. unfold get_package_version. keeps_steps. Qed.

Lemma keeps_get_available_version (p : string) : keeps R (get_available_version p).
Proof. unfold get_available_version. keeps_steps. Qed.

Lemma keeps_is_flatpak_installed (p : string) : keeps R (is_flatpak_installed p).
Proof. unfold is_flatpak_installed. keeps_steps. Qed.

Lemma keeps_get_flatpak_version (p : string) : keeps R (get_flatpak_version p).
Proof. unfold get_flatpak_version. keeps_steps. Qed.

Lemma keeps_check_updates_available (p : string) :
  keeps R (check_updates_available p).
Proof.
  unfold check_updates_available.
  apply keeps_bind; [apply keeps_get_package_version | intros].
  apply keeps_bind; [apply keeps_get_available_version | intros].
  keeps_steps.
Qed.

Lemma keeps_detect_virtualization : keeps R detect_virtualization.
Proof. unfold detect_virtualization. keeps_steps. Qed.

Lemma keeps_assign_gpu_vendor (v : GPUVendor.t) : keeps R (assign_gpu_vendor v).
Proof. intros st. apply R_hardware. Qed.

Lemma keeps_assign_gpu_model (m : string) : keeps R (assign_gpu_model m).
Proof. intros st. apply R_hardware. Qed.

Lemma keeps_assign_vm_type (v : VMType.t) : keeps R (assign_vm_type v).
Proof. intros st. apply R_hardware. Qed.

Lemma keeps_hardware_scan : keeps R hardware_scan.
Proof.
  unfold hardware_scan.
  apply keeps_bind; [apply R_probe | intros result].
  destruct result; try (apply keeps_bind; [apply keeps_assign_gpu_vendor | intros; apply keeps_ret]).
  apply keeps_bind; [apply R_probe | intros gl].
  destruct (classify_gpu _ _) as [[v m] a].
  apply keeps_bind; [apply keeps_assign_gpu_vendor | intros].
  apply keeps_bind; [|intros; apply keeps_ret].
  destruct m; [apply keeps_assign_gpu_model | apply keeps_ret].
Qed.

Lemma keeps_detect_gpu : keeps R detect_gpu.
Proof.
  unfold detect_gpu.
  apply keeps_bind; [apply keeps_detect_virtualization | intros vm].
  destruct (nonempty vm); [|apply keeps_hardware_scan].
  apply keeps_bind; [apply keeps_assign_vm_type | intros].
  apply keeps_bind; [apply keeps_assign_gpu_vendor | intros].
  apply keeps_ret.
Qed.

Hypothesis R_run_command :
  forall cmd description check shell timeout,
    keeps R (run_command cmd description check shell timeout).
Hypothesis R_confirm : forall question, keeps R (confirm question).

Lemma keeps_run_checked (argv : list string) (d : string) : keeps R (run_checked argv d).
Proof. apply R_run_command. Qed.

Lemma keeps_run_unchecked (argv : list string) (d : string) :
  keeps R (run_unchecked argv d).
Proof. apply R_run_command. Qed.

Lemma keeps_run_each (commands : list (list string * string)) :
  keeps R (run_each commands).
Proof.
  induction commands as [|[cmd desc] rest IH]; cbn [run_each].
  - apply keeps_ret.
  - apply keeps_bind; [apply keeps_run_checked | intros; exact IH].
Qed.

Ltac keeps_run :=
  repeat first
    [ apply keeps_ret
    | apply keeps_run_checked
    | apply keeps_run_unchecked
    | apply keeps_bind; [|intros] ].

Lemma keeps_update_system (sel : Selection) : keeps R (update_system sel).
Proof.
  unfold update_system. destruct (sel_skip_update sel);
    [apply keeps_ret | apply keeps_run_each].
Qed.

Lemma keeps_enable_32bit_support : keeps R enable_32bit_support.
Proof. unfold enable_32bit_support. keeps_run. Qed.

Lemma keeps_install_generic_vm_graphics : keeps R install_generic_vm_graphics.
Proof. unfold install_generic_vm_graphics. keeps_run. Qed.

Lemma keeps_install_vm_tools (vm_type : string) : keeps R (install_vm_tools vm_type).
Proof.
  unfold install_vm_tools, install_vmware_tools, install_virtualbox_tools,
    install_kvm_tools, install_hyperv_tools, install_xen_tools,
    install_generic_vm_graphics.
  cbv zeta.
  repeat match goal with
         | |- keeps R (if ?b then _ else _) => destruct b
         end; keeps_run.
Qed.

Lemma keeps_install_nvidia_drivers : keeps R install_nvidia_drivers.
Proof.
  unfold install_nvidia_drivers.
  apply keeps_bind.
  { repeat apply keeps_or_else; apply keeps_is_package_installed. }
  intros installed. apply keeps_bind.
  - destruct installed; [|apply keeps_ret].
    apply keeps_bind; [apply R_probe | intros result].
    destruct result as [rc out err| | |]; try apply R_confirm.
    destruct (rc =? 0)%Z; [apply R_confirm | apply keeps_ret].
  - intros []; [apply keeps_run_each | apply keeps_ret].
Qed.

Lemma keeps_flag_or_confirm (flag : bool) (q : string) : keeps R (flag_or_confirm flag q).
Proof. destruct flag; [apply keeps_ret | apply R_confirm]. Qed.

Lemma keeps_run_driver_stage (sel : Selection) (gpu_type : string) :
  keeps R (run_driver_stage sel gpu_type).
Proof.
  unfold run_driver_stage, install_amd_drivers, install_intel_drivers.
  repeat match goal with
         | |- keeps R (if ?b then _ else _) => destruct b
         end;
    try (apply keeps_bind; [apply keeps_flag_or_confirm | intros go_on; apply keeps_when]);
    try apply keeps_install_vm_tools;
    try apply keeps_install_nvidia_drivers;
    try apply keeps_install_generic_vm_graphics;
    keeps_run.
Qed.

Lemma keeps_detect_and_install_drivers (sel : Selection) :
  keeps R (detect_and_install_drivers sel).
Proof.
  apply keeps_bind; [apply keeps_detect_gpu | intros; apply keeps_run_driver_stage].
Qed.

Lemma keeps_prompt_install_or_update (n : string) (p f : option string) :
  keeps R (prompt_install_or_update n p f).
Proof.
  unfold prompt_install_or_update.
  apply keeps_bind; [intros st; apply R_refl | intros cfg].
  destruct (auto_yes cfg); [apply keeps_ret|].
  apply keeps_bind.
  { destruct (nonempty p); [|apply keeps_ret].
    apply keeps_bind; [apply keeps_is_package_installed | intros []]; [|apply keeps_ret].
    apply keeps_bind; [apply keeps_get_package_version | intros].
    apply keeps_bind; [apply keeps_get_available_version | intros].
    apply keeps_ret. }
  intros [[[i c] a] u]. apply keeps_bind.
  { destruct (nonempty f); [|apply keeps_ret].
    destruct i; cbn [negb]; [apply keeps_ret|].
    apply keeps_bind; [apply keeps_is_flatpak_installed | intros []]; [|apply keeps_ret].
    apply keeps_bind; [apply keeps_get_flatpak_version | intros].
    apply keeps_ret. }
  intros [[[i' c'] a'] u'].
  destruct i'; [destruct (u' && truthy a')|]; apply R_confirm.
Qed.

Lemma keeps_flag_or_prompt (flag : bool) (n : string) (p f : option string) :
  keeps R (flag_or_prompt flag n p f).
Proof.
  destruct flag; [apply keeps_ret | apply keeps_prompt_install_or_update].
Qed.

Lemma keeps_install_heroic : keeps R install_heroic.
Proof. unfold install_heroic. keeps_run. Qed.

Lemma keeps_install_lutris : keeps R install_lutris.
Proof.
  unfold install_lutris.
  apply keeps_bind; [apply keeps_is_package_installed | intros].
  apply keeps_bind; [apply keeps_when; keeps_run | intros].
  keeps_run.
Qed.

Lemma keeps_install_gaming_platforms (sel : Selection) :
  keeps R (install_gaming_platforms sel).
Proof.
  unfold install_gaming_platforms.
  repeat (apply keeps_bind;
          [first [ apply keeps_flag_or_prompt
                 | apply keeps_when;
                   first [apply keeps_install_lutris | apply keeps_install_heroic | keeps_run] ]
          | intros ]).
  apply keeps_when, keeps_install_heroic.
Qed.

Lemma keeps_check_ubuntu_version (os_info : option string) :
  keeps R (check_ubuntu_version os_info).
Proof.
  unfold check_ubuntu_version. destruct os_info; [|apply keeps_ret].
  destruct (negb _); [|apply keeps_ret].
  apply keeps_bind; [apply R_confirm | intros []; apply keeps_ret].
Qed.

End Keeps.

(* ------------------------------------------------------------------ *)
(** ** The three frames *)

Lemma only_probed_refl (st : State) : only_probed st st.
Proof.
  repeat split. exists []. split; [now rewrite app_nil_r | constructor].
Qed.

Lemma only_probed_trans (a b c : State) :
  only_probed a b -> only_probed b c -> only_probed a c.
Proof.
  intros (C1 & H1 & F1 & I1 & N1 & s1 & S1 & P1) (C2 & H2 & F2 & I2 & N2 & s2 & S2 & P2).
  repeat split; try congruence.
  exists (s1 ++ s2)%list. split.
  - rewrite S2, S1. now rewrite app_assoc.
  - apply Forall_app. now split.
Qed.

Lemma only_probed_probe (argv : list string) : keeps only_probed (probe argv).
Proof.
  intros st. unfold probe, subprocess_run. cbn.
  repeat split. exists [probe_spawn argv]. split; [reflexivity|].
  constructor; [now exists argv | constructor].
Qed.

Lemma only_probed_hardware (h : HardwareInfo) (st : State) :
  only_probed st (set_hardware_info h st).
Proof.
  repeat split. exists []. split; [cbn; now rewrite app_nil_r | constructor].
Qed.

Lemma if_dry_refl (st : State) : only_probed_if_dry st st.
Proof. intros _. apply only_probed_refl. Qed.

Lemma if_dry_trans (a b c : State) :
  only_probed_if_dry a b -> only_probed_if_dry b c -> only_probed_if_dry a c.
Proof.
  intros Hab Hbc D. specialize (Hab D).
  apply (only_probed_trans a b c Hab). apply Hbc.
  destruct Hab as (C & _). now rewrite C.
Qed.

Lemma if_dry_probe (argv : list string) : keeps only_probed_if_dry (probe argv).
Proof. intros st _. apply only_probed_probe. Qed.

Lemma if_dry_hardware (h : HardwareInfo) (st : State) :
  only_probed_if_dry st (set_hardware_info h st).
Proof. intros _. apply only_probed_hardware. Qed.

Lemma if_dry_run_command (cmd : Cmd) (description : string)
      (check shell : bool) (timeout : nat) :
  keeps only_probed_if_dry (run_command cmd description check shell timeout).
Proof.
  intros st D. unfold run_command, bind, get_config. rewrite D.
  apply only_probed_refl.
Qed.

Lemma if_dry_confirm (question : string) : keeps only_probed_if_dry (confirm question).
Proof.
  intros st D. unfold confirm, bind, get_config. rewrite D.
  destruct (auto_yes (config st)); apply only_probed_refl.
Qed.

Lemma ledger_grows_refl (st : State) : ledger_grows st st.
Proof. repeat split; exists []; now rewrite app_nil_r. Qed.

Lemma ledger_grows_trans (a b c : State) :
  ledger_grows a b -> ledger_grows b c -> ledger_grows a c.
Proof.
  intros (C1 & H1 & (l1 & L1) & (s1 & S1)) (C2 & H2 & (l2 & L2) & (s2 & S2)).
  repeat split; try congruence.
  - exists (l1 ++ l2)%list. rewrite L2, L1. now rewrite app_assoc.
  - exists (s1 ++ s2)%list. rewrite S2, S1. now rewrite app_assoc.
Qed.

Lemma ledger_grows_probe (argv : list string) : keeps ledger_grows (probe argv).
Proof.
  intros st. unfold probe, subprocess_run. cbn. repeat split.
  - exists []. now rewrite app_nil_r.
  - now exists [probe_spawn argv].
Qed.

Lemma ledger_grows_hardware (h : HardwareInfo) (st : State) :
  ledger_grows st (set_hardware_info h st).
Proof. repeat split; exists []; cbn; now rewrite app_nil_r. Qed.

Lemma ledger_grows_run_command (cmd : Cmd) (description : string)
      (check shell : bool) (timeout : nat) :
  keeps ledger_grows (run_command cmd description check shell timeout).
Proof.
  intros st. unfold run_command, bind, get_config.
  destruct (dry_run (config st)); [apply ledger_grows_refl|].
  unfold subprocess_run.
  destruct (result_of check _) as [rc out err| |rc out err|msg]; cbn.
  - destruct (rc =? 0)%Z; cbn; repeat split;
      try (exists []; now rewrite app_nil_r); eexists; reflexivity.
  - repeat split; eexists; reflexivity.
  - repeat split; eexists; reflexivity.
  - repeat split; eexists; reflexivity.
Qed.

Lemma ledger_grows_confirm (question : string) : keeps ledger_grows (confirm question).
Proof.
  intros st. unfold confirm, bind, get_config.
  destruct (auto_yes (config st)); [apply ledger_grows_refl|].
  destruct (dry_run (config st)); [apply ledger_grows_refl|].
  destruct (confirm_loop _ _) as [[answer rest] n]. cbn.
  repeat split; exists []; now rewrite app_nil_r.
Qed.

(* ------------------------------------------------------------------ *)
(** ** What detection, dry run and the ledger never do *)

(** X1.  Detection and the package queries reach the outside world by
    five-second probes only: whatever the host answers, they leave the
    configuration, the failure ledger and the terminal as they found
    them. *)
Theorem detection_only_probes (st : State) (name : string) :
  only_probed st (snd (detect_virtualization st))
  /\ only_probed st (snd (detect_gpu st))
  /\ only_probed st (snd (is_package_installed name st))
  /\ only_probed st (snd (get_package_version name st))
  /\ only_probed st (snd (get_available_version name st))
  /\ only_probed st (snd (check_updates_available name st))
  /\ only_probed st (snd (is_flatpak_installed name st))
  /\ only_probed st (snd (get_flatpak_version name st)).
Proof.
  pose proof only_probed_refl as Rf. pose proof only_probed_trans as Tr.
  pose proof only_probed_probe as Pr. pose proof only_probed_hardware as Hw.
  pose proof (keeps_detect_virtualization only_probed Rf Tr Pr st) as H1.
  pose proof (keeps_detect_gpu only_probed Rf Tr Pr Hw st) as H2.
  pose proof (keeps_is_package_installed only_probed Rf Tr Pr name st) as H3.
  pose proof (keeps_get_package_version only_probed Rf Tr Pr name st) as H4.
  pose proof (keeps_get_available_version only_probed Rf Tr Pr name st) as H5.
  pose proof (keeps_check_updates_available only_probed Rf Tr Pr name st) as H6.
  pose proof (keeps_is_flatpak_installed only_probed Rf Tr Pr name st) as H7.
  pose proof (keeps_get_flatpak_version only_probed Rf Tr Pr name st) as H8.
  exact (conj H1 (conj H2 (conj H3 (conj H4 (conj H5 (conj H6 (conj H7 H8))))))).
Qed.

(** X2.  In dry run the steps that only run commands leave the state
    untouched, and the steps that also detect or ask make probes and
    nothing else: no command is run, nothing is read from the terminal,
    the ledger stays as it was.  The smart prompt answers yes. *)
Theorem dry_run_only_probes (st : State) (sel : Selection) (vm_type name : string)
        (package_name flatpak_id : option string) :
  dry_run (config st) = true ->
  (update_system sel st = (tt, st)
   /\ enable_32bit_support st = (tt, st)
   /\ install_vm_tools vm_type st = (tt, st)
   /\ install_heroic st = (tt, st))
  /\ (only_probed st (snd (install_nvidia_drivers st))
      /\ only_probed st (snd (detect_and_install_drivers sel st))
      /\ only_probed st (snd (install_gaming_platforms sel st))
      /\ only_probed st (snd (prompt_install_or_update name package_name flatpak_id st)))
  /\ fst (prompt_install_or_update name package_name flatpak_id st) = true.
Proof.
  intros D.
  assert (RC : forall argv d c, run_command (Argv argv) d c false 300 st = ((true, "", ""), st)).
  { intros. unfold run_command, bind, get_config. now rewrite D. }
  split; [|split].
  - split; [|split; [|split]].
    + unfold update_system. destruct (sel_skip_update sel); [reflexivity|].
      unfold update_commands, run_each, run_checked, bind. now rewrite !RC.
    + unfold enable_32bit_support, run_checked, bind. now rewrite !RC.
    + unfold install_vm_tools, install_vmware_tools, install_virtualbox_tools,
        install_kvm_tools, install_hyperv_tools, install_xen_tools,
        install_generic_vm_graphics, run_checked, run_unchecked, bind.
      cbv zeta.
      repeat match goal with
             | |- context [if ?b then _ else _] => destruct b
             end; now rewrite RC.
    + unfold install_heroic, run_checked, bind. now rewrite !RC.
  - pose proof if_dry_refl as Rf. pose proof if_dry_trans as Tr.
    pose proof if_dry_probe as Pr. pose proof if_dry_hardware as Hw.
    pose proof if_dry_run_command as Rc. pose proof if_dry_confirm as Cf.
    split; [|split; [|split]].
    + now apply (keeps_install_nvidia_drivers only_probed_if_dry).
    + now apply (keeps_detect_and_install_drivers only_probed_if_dry).
    + now apply (keeps_install_gaming_platforms only_probed_if_dry).
    + now apply (keeps_prompt_install_or_update only_probed_if_dry).
  - assert (CF : forall q st', config st' = config st -> fst (confirm q st') = true).
    { intros q st' E. unfold confirm, bind, get_config. rewrite E, D.
      destruct (auto_yes (config st)); reflexivity. }
    unfold prompt_install_or_update, bind, get_config.
    destruct (auto_yes (config st)); [reflexivity|].
    match goal with
    | |- context [let (a, st') := ?m st in _] =>
        assert (K1 : only_probed st (snd (m st)));
        [|destruct (m st) as [[[[i c] a] u] st1]]
    end.
    { destruct (nonempty package_name); [|apply only_probed_refl].
      apply (keeps_bind only_probed only_probed_trans);
        [apply (keeps_is_package_installed only_probed only_probed_refl
                  only_probed_trans only_probed_probe)|].
      intros []; [|intros ?; apply only_probed_refl].
      apply (keeps_bind only_probed only_probed_trans);
        [apply (keeps_get_package_version only_probed only_probed_refl
                  only_probed_trans only_probed_probe)|intros].
      apply (keeps_bind only_probed only_probed_trans);
        [apply (keeps_get_available_version only_probed only_probed_refl
                  only_probed_trans only_probed_probe)|intros].
      intros ?; apply only_probed_refl. }
    cbn [snd] in K1.
    match goal with
    | |- context [let (a, st') := ?m st1 in _] =>
        assert (K2 : only_probed st1 (snd (m st1)));
        [|destruct (m st1) as [[[[i' c'] a'] u'] st2]]
    end.
    { destruct (nonempty flatpak_id); [|apply only_probed_refl].
      destruct i; cbn [negb]; [apply only_probed_refl|].
      apply (keeps_bind only_probed only_probed_trans);
        [apply (keeps_is_flatpak_installed only_probed only_probed_refl
                  only_probed_trans only_probed_probe)|].
      intros []; [|intros ?; apply only_probed_refl].
      apply (keeps_bind only_probed only_probed_trans);
        [apply (keeps_get_flatpak_version only_probed only_probed_refl
                  only_probed_trans only_probed_probe)|intros].
      intros ?; apply only_probed_refl. }
    cbn [snd] in K2.
    assert (E : config st2 = config st).
    { destruct K1 as (E1 & _). destruct K2 as (E2 & _). congruence. }
    destruct i'; [destruct (u' && truthy a')|]; now apply CF.
Qed.

Lemma dry_run_only_probes_witness :
  (update_system Selection_default st_dry_nvidia = (tt, st_dry_nvidia)
   /\ enable_32bit_support st_dry_nvidia = (tt, st_dry_nvidia)
   /\ install_vm_tools "kvm" st_dry_nvidia = (tt, st_dry_nvidia)
   /\ install_heroic st_dry_nvidia = (tt, st_dry_nvidia))
  /\ (only_probed st_dry_nvidia (snd (install_nvidia_drivers st_dry_nvidia))
      /\ only_probed st_dry_nvidia
           (snd (detect_and_install_drivers Selection_default st_dry_nvidia))
      /\ only_probed st_dry_nvidia
           (snd (install_gaming_platforms Selection_default st_dry_nvidia))
      /\ only_probed st_dry_nvidia
           (snd (prompt_install_or_update "Steam" (Some "steam-installer") None
                                          st_dry_nvidia)))
  /\ fst (prompt_install_or_update "Steam" (Some "steam-installer") None
                                   st_dry_nvidia) = true.
Proof.
  apply (dry_run_only_probes st_dry_nvidia Selection_default "kvm" "Steam"
                             (Some "steam-installer") None).
  reflexivity.
Defined.

(** What the dry run of the driver stage leaves on that host: the
    probes of detection and of the driver check, the answer on the
    terminal unread. *)
Example dry_run_driver_stage_trace :
  spawned (snd (detect_and_install_drivers Selection_default st_dry_nvidia))
  = [sp_virt; sp_dmesg; sp_lspci; sp_lspci; sp_glxinfo;
     probe_spawn ["dpkg"; "-l"; "nvidia-driver-550"];
     probe_spawn ["nvidia-smi"]]
  /\ stdin (snd (detect_and_install_drivers Selection_default st_dry_nvidia))
     = [Answer "n"].
Proof. split; reflexivity. Qed.

(** X3.  The failure ledger is append-only: every step keeps the
    entries it found, in their order, and adds its own after them; the
    same holds for the record of spawns. *)
Theorem ledger_append_only (st : State) (sel : Selection) (vm_type name : string)
        (package_name flatpak_id os_info : option string) :
  ledger_grows st (snd (update_system sel st))
  /\ ledger_grows st (snd (enable_32bit_support st))
  /\ ledger_grows st (snd (install_vm_tools vm_type st))
  /\ ledger_grows st (snd (install_nvidia_drivers st))
  /\ ledger_grows st (snd (detect_and_install_drivers sel st))
  /\ ledger_grows st (snd (prompt_install_or_update name package_name flatpak_id st))
  /\ ledger_grows st (snd (install_gaming_platforms sel st))
  /\ ledger_grows st (snd (check_ubuntu_version os_info st)).
Proof.
  pose proof ledger_grows_refl as Rf. pose proof ledger_grows_trans as Tr.
  pose proof ledger_grows_probe as Pr. pose proof ledger_grows_hardware as Hw.
  pose proof ledger_grows_run_command as Rc. pose proof ledger_grows_confirm as Cf.
  assert (H1 : ledger_grows st (snd (update_system sel st)))
    by now apply (keeps_update_system ledger_grows).
  assert (H2 : ledger_grows st (snd (enable_32bit_support st)))
    by now apply (keeps_enable_32bit_support ledger_grows).
  assert (H3 : ledger_grows st (snd (install_vm_tools vm_type st)))
    by now apply (keeps_install_vm_tools ledger_grows).
  assert (H4 : ledger_grows st (snd (install_nvidia_drivers st)))
    by now apply (keeps_install_nvidia_drivers ledger_grows).
  assert (H5 : ledger_grows st (snd (detect_and_install_drivers sel st)))
    by now apply (keeps_detect_and_install_drivers ledger_grows).
  assert (H6 : ledger_grows st
                 (snd (prompt_install_or_update name package_name flatpak_id st)))
    by now apply (keeps_prompt_install_or_update ledger_grows).
  assert (H7 : ledger_grows st (snd (install_gaming_platforms sel st)))
    by now apply (keeps_install_gaming_platforms ledger_grows).
  assert (H8 : ledger_grows st (snd (check_ubuntu_version os_info st)))
    by now apply (keeps_check_ubuntu_version ledger_grows).
  exact (conj H1 (conj H2 (conj H3 (conj H4 (conj H5 (conj H6 (conj H7 H8))))))).
Qed.

(* ------------------------------------------------------------------ *)
(** ** Confirmation *)

Lemma says_no_not_yes (line : string) : says_no line = true -> says_yes line = false.
Proof.
  unfold says_no, says_yes, in_list. cbn [existsb].
  rewrite !orb_false_r. intros H. apply orb_true_iff in H.
  destruct H as [H|H]; apply String.eqb_eq in H; rewrite H; reflexivity.
Qed.

Lemma confirm_loop_junk (junk : list string) (tail : list InputEvent) (n : nat) :
  forallb unrecognised junk = true ->
  confirm_loop (map Answer junk ++ tail) n = confirm_loop tail (n + List.length junk).
Proof.
  revert n; induction junk as [|a junk IH]; intros n H; cbn [map List.length app].
  - now rewrite Nat.add_0_r.
  - cbn [forallb] in H. apply andb_true_iff in H. destruct H as [Ha Hj].
    unfold unrecognised in Ha. apply andb_true_iff in Ha. destruct Ha as [Y N].
    apply negb_true_iff in Y, N. unfold says_yes in Y. unfold says_no in N.
    cbn [confirm_loop]. rewrite Y, N, (IH (S n) Hj). f_equal. lia.
Qed.

Lemma confirm_interactive (st : State) (question : string) :
  interactive_mode st ->
  confirm question st =
  (fst (fst (confirm_loop (stdin st) (reads st))),
   set_terminal (snd (fst (confirm_loop (stdin st) (reads st))))
                (snd (confirm_loop (stdin st) (reads st))) st).
Proof.
  intros [A D]. unfold confirm, bind, get_config. rewrite A, D.
  destruct (confirm_loop _ _) as [[answer rest] n]. reflexivity.
Qed.

(** X4.  Interactively, [confirm] asks again after every answer it does
    not recognise, takes [y]/[yes] and [n]/[no] in any letter case, and
    takes an interrupt or the end of input for a no.  It consumes the
    answers up to the deciding one, counts one read for each and one
    for the deciding event, and changes nothing else. *)
Theorem confirm_asks_again (st : State) (question : string)
        (junk : list string) (rest : list InputEvent) :
  interactive_mode st ->
  forallb unrecognised junk = true ->
  let n := reads st + List.length junk + 1 in
  (forall a, stdin st = (map Answer junk ++ Answer a :: rest)%list ->
             says_yes a = true ->
             confirm question st = (true, set_terminal rest n st))
  /\ (forall a, stdin st = (map Answer junk ++ Answer a :: rest)%list ->
                says_no a = true ->
                confirm question st = (false, set_terminal rest n st))
  /\ (stdin st = (map Answer junk ++ KeyboardInterrupt :: rest)%list ->
      confirm question st = (false, set_terminal rest n st))
  /\ (stdin st = map Answer junk ->
      confirm question st = (false, set_terminal [] n st)).
Proof.
  intros I J. cbv zeta.
  assert (E : S (reads st + List.length junk) = reads st + List.length junk + 1) by lia.
  split; [|split; [|split]].
  - intros a S Y. rewrite (confirm_interactive st question I), S,
      (confirm_loop_junk junk _ _ J).
    cbn [confirm_loop]. unfold says_yes in Y. rewrite Y. cbn. now rewrite E.
  - intros a S N. rewrite (confirm_interactive st question I), S,
      (confirm_loop_junk junk _ _ J).
    cbn [confirm_loop]. pose proof (says_no_not_yes a N) as Y.
    unfold says_yes in Y. unfold says_no in N. rewrite Y, N. cbn. now rewrite E.
  - intros S. rewrite (confirm_interactive st question I), S,
      (confirm_loop_junk junk _ _ J).
    cbn. now rewrite E.
  - intros S. rewrite (confirm_interactive st question I), S.
    rewrite <- (app_nil_r (map Answer junk)), (confirm_loop_junk junk _ _ J).
    cbn. now rewrite E.
Qed.

Lemma confirm_asks_again_witness :
  confirm "Install Steam?" st_typing
  = (false, set_terminal [Answer "y"] 3 st_typing).
Proof.
  apply (proj1 (proj2 (confirm_asks_again st_typing "Install Steam?"
                                          ["maybe"; ""] [Answer "y"]
                                          (conj eq_refl eq_refl) eq_refl)) "No");
    reflexivity.
Defined.

(* ------------------------------------------------------------------ *)
(** ** The smart prompt *)

Lemma bind_ext (A B : Type) (m : M A) (k k' : A -> M B) (st : State) :
  (forall a st', k a st' = k' a st') -> bind m k st = bind m k' st.
Proof. intros H. unfold bind. destruct (m st). apply H. Qed.

Lemma prompt_install_or_update_blocks (software_name : string)
      (package_name flatpak_id : option string) (st : State) :
  auto_yes (config st) = false ->
  prompt_install_or_update software_name package_name flatpak_id st
  = (s1 <- package_status package_name ;;
     s2 <- flatpak_status flatpak_id s1 ;;
     confirm (prompt_question software_name s2)) st.
Proof.
  intros A. unfold prompt_install_or_update. unfold bind at 1. unfold get_config.
  rewrite A. unfold package_status.
  apply bind_ext. intros [[[i c] a] u] st1.
  unfold flatpak_status. cbv beta iota.
  apply bind_ext. intros [[[i' c'] a'] u'] st2.
  unfold prompt_question. destruct i'; [destruct (u' && truthy a')|]; reflexivity.
Qed.

Section QueryFrames.

Variable R : State -> State -> Prop.
Hypothesis R_refl : forall st, R st st.
Hypothesis R_trans : forall a b c, R a b -> R b c -> R a c.
Hypothesis R_probe : forall argv, keeps R (probe argv).

Lemma keeps_package_status (p : option string) : keeps R (package_status p).
Proof.
  unfold package_status. destruct (nonempty p); [|now apply keeps_ret].
  apply keeps_bind; [exact R_trans | now apply keeps_is_package_installed |].
  intros []; [|now apply keeps_ret].
  apply keeps_bind; [exact R_trans | now apply keeps_get_package_version | intros].
  apply keeps_bind; [exact R_trans | now apply keeps_get_available_version | intros].
  now apply keeps_ret.
Qed.

Lemma keeps_flatpak_status (f : option string) (s1 : PackageStatus) :
  keeps R (flatpak_status f s1).
Proof.
  unfold flatpak_status. destruct s1 as [[[i c] a] u].
  destruct (nonempty f); [|now apply keeps_ret].
  destruct i; cbn [negb]; [now apply keeps_ret|].
  apply keeps_bind; [exact R_trans | now apply keeps_is_flatpak_installed |].
  intros []; [|now apply keeps_ret].
  apply keeps_bind; [exact R_trans | now apply keeps_get_flatpak_version | intros].
  now apply keeps_ret.
Qed.

End QueryFrames.

(** Outside [--yes] the smart prompt is its queries followed by one
    [confirm]. *)
Lemma prompt_is_one_confirm (software_name : string)
      (package_name flatpak_id : option string) (st : State) :
  auto_yes (config st) = false ->
  exists st2 question,
    only_probed st st2
    /\ prompt_install_or_update software_name package_name flatpak_id st
       = confirm question st2.
Proof.
  intros A. rewrite (prompt_install_or_update_blocks _ _ _ _ A). unfold bind.
  pose proof (keeps_package_status only_probed only_probed_refl only_probed_trans
                only_probed_probe package_name st) as K1.
  destruct (package_status package_name st) as [s1 st1]. cbn [snd] in K1.
  pose proof (keeps_flatpak_status only_probed only_probed_refl only_probed_trans
                only_probed_probe flatpak_id s1 st1) as K2.
  destruct (flatpak_status flatpak_id s1 st1) as [s2 st2]. cbn [snd] in K2.
  exists st2, (prompt_question software_name s2).
  split; [exact (only_probed_trans _ _ _ K1 K2) | reflexivity].
Qed.

(** X5.  Asked interactively, the smart prompt gives the answer of one
    run of the confirmation loop on what is pending on the terminal,
    and consumes exactly what that run consumes, whatever the package
    database reports: the package status only words the question. *)
Theorem prompt_answer_is_the_users (st : State) (software_name : string)
        (package_name flatpak_id : option string) :
  interactive_mode st ->
  let asked := confirm_loop (stdin st) (reads st) in
  let call := prompt_install_or_update software_name package_name flatpak_id st in
  fst call = fst (fst asked)
  /\ stdin (snd call) = snd (fst asked)
  /\ reads (snd call) = snd asked
  /\ failed_operations (snd call) = failed_operations st
  /\ config (snd call) = config st.
Proof.
  intros [A D]. cbv zeta.
  destruct (prompt_is_one_confirm software_name package_name flatpak_id st A)
    as (st2 & q & (C & H & F & I & N & _) & E).
  rewrite E.
  assert (I2 : interactive_mode st2) by (split; congruence).
  rewrite (confirm_interactive st2 q I2), I, N. cbn.
  repeat split; assumption.
Qed.

Lemma prompt_answer_is_the_users_witness :
  let call := prompt_install_or_update "Steam" (Some "steam") None st_typing in
  fst call = false
  /\ stdin (snd call) = [Answer "y"]
  /\ reads (snd call) = 3
  /\ failed_operations (snd call) = []
  /\ config (snd call) = interactive.
Proof.
  apply (prompt_answer_is_the_users st_typing "Steam" (Some "steam") None).
  split; reflexivity.
Defined.

Lemma nonempty_some (s : string) : s <> "" -> nonempty (Some s) = Some s.
Proof.
  intros H. unfold nonempty, truthy. apply String.eqb_neq in H. now rewrite H.
Qed.

Ltac query_step :=
  intros; unfold is_package_installed, get_package_version, get_available_version,
    is_flatpak_installed, get_flatpak_version, bind, probe, subprocess_run;
  match goal with
  | |- context [result_of false ?o] => destruct (result_of false o)
  end;
  repeat match goal with
         | |- context [if ?b then _ else _] => destruct b
         end; reflexivity.

Lemma is_package_installed_step (p : string) (st : State) :
  snd (is_package_installed p st)
  = set_spawned (spawned st ++ [probe_spawn ["dpkg"; "-l"; p]]) st.
Proof. query_step. Qed.

Lemma get_package_version_step (p : string) (st : State) :
  snd (get_package_version p st)
  = set_spawned (spawned st ++ [probe_spawn ["dpkg-query"; "-W"; "-f=${Version}"; p]]) st.
Proof. query_step. Qed.

Lemma get_available_version_step (p : string) (st : State) :
  snd (get_available_version p st)
  = set_spawned (spawned st ++ [probe_spawn ["apt-cache"; "policy"; p]]) st.
Proof. query_step. Qed.

Lemma is_flatpak_installed_step (a : string) (st : State) :
  snd (is_flatpak_installed a st)
  = set_spawned (spawned st ++ [probe_spawn ["flatpak"; "list"; "--app"]]) st.
Proof. query_step. Qed.

Lemma get_flatpak_version_step (a : string) (st : State) :
  snd (get_flatpak_version a st)
  = set_spawned (spawned st ++ [probe_spawn ["flatpak"; "info"; a]]) st.
Proof. query_step. Qed.

Lemma confirm_spawned (question : string) (st : State) :
  spawned (snd (confirm question st)) = spawned st.
Proof.
  unfold confirm, bind, get_config.
  destruct (auto_yes (config st)); [reflexivity|].
  destruct (dry_run (config st)); [reflexivity|].
  destruct (confirm_loop _ _) as [[answer rest] n]. reflexivity.
Qed.

(** X6.  The native backend comes first.  When [dpkg -l] reports the
    package installed, the prompt asks [dpkg-query] and [apt-cache
    policy] for its versions and never runs [flatpak], whatever Flatpak
    id was given.  When it reports the package missing, the versions
    are not asked for and [flatpak list] is consulted, followed by
    [flatpak info] only if the list names the application.  With
    neither name given nothing is queried. *)
Theorem native_backend_first (st : State) (software_name pkg app : string)
        (flatpak_id : option string) :
  auto_yes (config st) = false ->
  pkg <> "" -> app <> "" ->
  let dpkg_l := probe_spawn ["dpkg"; "-l"; pkg] in
  let listed := fst (is_flatpak_installed app (snd (is_package_installed pkg st))) in
  (fst (is_package_installed pkg st) = true ->
   spawned (snd (prompt_install_or_update software_name (Some pkg) flatpak_id st))
   = (spawned st ++
      [dpkg_l;
       probe_spawn ["dpkg-query"; "-W"; "-f=${Version}"; pkg];
       probe_spawn ["apt-cache"; "policy"; pkg]])%list)
  /\ (fst (is_package_installed pkg st) = false ->
      spawned (snd (prompt_install_or_update software_name (Some pkg) (Some app) st))
      = (spawned st ++
         [dpkg_l; probe_spawn ["flatpak"; "list"; "--app"]] ++
         (if listed then [probe_spawn ["flatpak"; "info"; app]] else []))%list)
  /\ spawned (snd (prompt_install_or_update software_name None None st)) = spawned st.
Proof.
  intros A Hp Ha. cbv zeta. split; [|split].
  - intros I. rewrite (prompt_install_or_update_blocks _ _ _ _ A).
    unfold bind, package_status. rewrite (nonempty_some pkg Hp). unfold bind.
    pose proof (is_package_installed_step pkg st) as S1.
    destruct (is_package_installed pkg st) as [b st1]. cbn [fst snd] in I, S1. subst b.
    pose proof (get_package_version_step pkg st1) as S2.
    destruct (get_package_version pkg st1) as [c st2]. cbn [snd] in S2.
    pose proof (get_available_version_step pkg st2) as S3.
    destruct (get_available_version pkg st2) as [a st3]. cbn [snd] in S3.
    unfold ret. unfold flatpak_status.
    assert (E : forall k, (match nonempty flatpak_id with
                           | Some app0 =>
                               if negb true then k app0
                               else ret (true, c, a, opt_neq c a)
                           | None => ret (true, c, a, opt_neq c a)
                           end) st3 = ((true, c, a, opt_neq c a), st3)).
    { intros k. destruct (nonempty flatpak_id); reflexivity. }
    rewrite E, confirm_spawned. subst st3 st2 st1. cbn.
    rewrite <- !app_assoc. reflexivity.
  - intros I. rewrite (prompt_install_or_update_blocks _ _ _ _ A).
    unfold bind, package_status. rewrite (nonempty_some pkg Hp). unfold bind.
    pose proof (is_package_installed_step pkg st) as S1.
    destruct (is_package_installed pkg st) as [b st1]. cbn [fst snd] in I, S1 |- *. subst b.
    unfold ret, status_unknown, flatpak_status. rewrite (nonempty_some app Ha).
    cbn [negb]. unfold bind.
    pose proof (is_flatpak_installed_step app st1) as S2.
    destruct (is_flatpak_installed app st1) as [l st2]. cbn [fst snd] in S2 |- *.
    destruct l.
    + pose proof (get_flatpak_version_step app st2) as S3.
      destruct (get_flatpak_version app st2) as [v st3]. cbn [snd] in S3.
      unfold ret. rewrite confirm_spawned. subst st3 st2 st1. cbn.
      rewrite <- !app_assoc. reflexivity.
    + unfold ret. rewrite confirm_spawned. subst st2 st1. cbn.
      rewrite <- !app_assoc. reflexivity.
  - rewrite (prompt_install_or_update_blocks _ _ _ _ A).
    unfold bind, package_status, flatpak_status, nonempty, truthy, ret, status_unknown.
    apply confirm_spawned.
Qed.

Lemma native_backend_first_witness :
  spawned (snd (prompt_install_or_update "Steam" (Some "steam")
                                         (Some "com.valvesoftware.Steam") st_typing))
  = [probe_spawn ["dpkg"; "-l"; "steam"];
     probe_spawn ["dpkg-query"; "-W"; "-f=${Version}"; "steam"];
     probe_spawn ["apt-cache"; "policy"; "steam"]].
Proof.
  apply (proj1 (native_backend_first st_typing "Steam" "steam" "com.valvesoftware.Steam"
                                     (Some "com.valvesoftware.Steam")
                                     eq_refl ltac:(discriminate) ltac:(discriminate))).
  reflexivity.
Defined.

(* ------------------------------------------------------------------ *)
(** ** More facts about the string operations *)

Lemma split_nonempty (sep : ascii) (s : string) : split sep s <> [].
Proof.
  induction s as [|c s IH]; cbn [split]; [discriminate|].
  destruct (Ascii.eqb c sep); [discriminate|].
  destruct (split sep s); [contradiction | discriminate].
Qed.

Lemma split_no_sep (sep : ascii) (s : string) :
  has_char sep s = false -> split sep s = [s].
Proof.
  induction s as [|c s IH]; intros H; [reflexivity|].
  cbn [has_char] in H. apply orb_false_iff in H. destruct H as [Hc Hs].
  cbn [split]. rewrite Hc, (IH Hs). reflexivity.
Qed.

Lemma split_app (sep : ascii) (a b : string) :
  split sep (a ++ String sep b) = (split sep a ++ split sep b)%list.
Proof.
  induction a as [|c a IH].
  - cbn. now rewrite Ascii.eqb_refl.
  - change (String c a ++ String sep b) with (String c (a ++ String sep b)).
    cbn [split]. rewrite IH.
    destruct (Ascii.eqb c sep); [reflexivity|].
    pose proof (split_nonempty sep a) as N.
    destruct (split sep a) as [|w ws]; [contradiction | reflexivity].
Qed.

Lemma concat_cons2 (sep x y : string) (l : list string) :
  String.concat sep (x :: y :: l) = x ++ sep ++ String.concat sep (y :: l).
Proof. reflexivity. Qed.

(** Joining what was split gives the text back. *)
Lemma join_split (sep : ascii) (s : string) :
  join (String sep "") (split sep s) = s.
Proof.
  unfold join. induction s as [|c s IH]; [reflexivity|].
  cbn [split]. pose proof (split_nonempty sep s) as N.
  destruct (split sep s) as [|w ws]; [contradiction|].
  destruct (Ascii.eqb_spec c sep) as [->|Hc].
  - rewrite concat_cons2, IH. reflexivity.
  - destruct ws as [|y l].
    + cbn in IH |- *. now rewrite IH.
    + rewrite concat_cons2 in IH |- *.
      change (String c w ++ String sep "" ++ String.concat (String sep "") (y :: l))
        with (String c (w ++ String sep "" ++ String.concat (String sep "") (y :: l))).
      now rewrite IH.
Qed.

Lemma str_in_prefix_false (old s : string) :
  str_in old s = false -> prefix old s = false.
Proof.
  destruct s; cbn [str_in]; intros H; apply orb_false_iff in H; tauto.
Qed.

(** Replacing a text that does not occur changes nothing. *)
Lemma replace_absent (old new s : string) :
  str_in old s = false -> replace old new s = s.
Proof.
  unfold replace. induction s as [|c s IH]; intros H; [reflexivity|].
  pose proof (str_in_prefix_false _ _ H) as P.
  cbn [str_in] in H. apply orb_false_iff in H. destruct H as [_ H].
  cbn [replace_from]. rewrite P, (IH H). reflexivity.
Qed.

Lemma lstrip_is (s : string) : lstrip s = lstrip_chars isspace s.
Proof. induction s as [|c s IH]; cbn; [reflexivity | now rewrite IH]. Qed.

Lemma rstrip_is (s : string) : rstrip s = rstrip_chars isspace s.
Proof. induction s as [|c s IH]; cbn; [reflexivity | now rewrite IH]. Qed.

Lemma strip_is (s : string) : strip s = strip_chars isspace s.
Proof. unfold strip, strip_chars. now rewrite lstrip_is, rstrip_is. Qed.

Section StripChars.

Variable p : ascii -> bool.

Lemma rstrip_chars_idem (s : string) :
  rstrip_chars p (rstrip_chars p s) = rstrip_chars p s.
Proof.
  induction s as [|c s IH]; [reflexivity|]. cbn [rstrip_chars].
  destruct (rstrip_chars p s) as [|d r] eqn:E.
  - destruct (p c) eqn:Pc; [reflexivity|]. cbn. now rewrite Pc.
  - change (rstrip_chars p (String c (String d r)))
      with (match rstrip_chars p (String d r) with
            | EmptyString => if p c then EmptyString else String c EmptyString
            | String x y => String c (String x y)
            end).
    now rewrite IH.
Qed.

Lemma lstrip_chars_head (s : string) :
  lstrip_chars p s = ""
  \/ exists c r, lstrip_chars p s = String c r /\ p c = false.
Proof.
  induction s as [|c s IH]; [now left|]. cbn [lstrip_chars].
  destruct (p c) eqn:Pc; [exact IH | right; now exists c, s].
Qed.

Lemma rstrip_chars_head (c : ascii) (r : string) :
  p c = false -> exists r', rstrip_chars p (String c r) = String c r'.
Proof.
  intros Pc. cbn [rstrip_chars].
  destruct (rstrip_chars p r); [rewrite Pc|]; eexists; reflexivity.
Qed.

Lemma strip_chars_idem (s : string) :
  strip_chars p (strip_chars p s) = strip_chars p s.
Proof.
  unfold strip_chars.
  destruct (lstrip_chars_head s) as [E | (c & r & E & Pc)]; rewrite E.
  - reflexivity.
  - destruct (rstrip_chars_head c r Pc) as [r' E'].
    assert (L : lstrip_chars p (rstrip_chars p (String c r)) = rstrip_chars p (String c r)).
    { rewrite E'. cbn [lstrip_chars]. now rewrite Pc. }
    rewrite L. apply rstrip_chars_idem.
Qed.

(** What follows the last kept character is all that is stripped. *)
Lemma rstrip_chars_app (x y : string) :
  rstrip_chars p y <> "" -> rstrip_chars p (x ++ y) = x ++ rstrip_chars p y.
Proof.
  intros N. induction x as [|c x IH]; [reflexivity|].
  change (String c x ++ y) with (String c (x ++ y)).
  cbn [rstrip_chars]. rewrite IH.
  destruct (x ++ rstrip_chars p y) eqn:E.
  - destruct x; [cbn in E; contradiction | discriminate].
  - cbn. now rewrite E.
Qed.

End StripChars.

Lemma strip_idem (s : string) : strip (strip s) = strip s.
Proof. rewrite !strip_is. apply strip_chars_idem. Qed.

Lemma length_take (n : nat) (s : string) : String.length (take n s) <= n.
Proof.
  unfold take. revert s; induction n as [|n IH]; intros s.
  - destruct s; cbn; lia.
  - destruct s as [|c s]; cbn; [lia|]. specialize (IH s). lia.
Qed.

Lemma lower_char_newline (c : ascii) :
  Ascii.eqb (lower_char c) "010" = Ascii.eqb c "010".
Proof. destruct c as [[] [] [] [] [] [] [] []]; reflexivity. Qed.

Lemma has_newline_lower (s : string) : has_char "010" (lower s) = has_char "010" s.
Proof.
  induction s as [|c s IH]; [reflexivity|].
  cbn [lower has_char]. now rewrite lower_char_newline, IH.
Qed.

(* ------------------------------------------------------------------ *)
(** ** Versions without an epoch *)

Lemma field_after_colon_plain (indent v : string) :
  str_in ":" indent = false -> str_in ":" v = false ->
  field_after_colon (indent ++ "Candidate: " ++ v) = Some (strip v).
Proof.
  intros Hi Hv. rewrite str_in_char in Hi, Hv.
  unfold field_after_colon.
  change (indent ++ "Candidate: " ++ v)
    with (indent ++ "Candidate" ++ String ":" (String " " v)).
  rewrite <- app_assoc_str.
  rewrite split_at_sep by (rewrite has_char_app, Hi; reflexivity).
  rewrite split_no_sep by (cbn; exact Hv).
  reflexivity.
Qed.

(** X7.  A candidate version without a colon is read back whole from
    the [Candidate:] line of [apt-cache policy], less surrounding blanks;
    so a package whose installed version is that candidate is reported
    as up to date. *)
Theorem plain_version_read_back
        (st : State) (package_name v out1 err1 out2 err2 indent : string)
        (before after : list string) :
  let q1 := probe_spawn ["dpkg-query"; "-W"; "-f=${Version}"; package_name] in
  let q2 := probe_spawn ["apt-cache"; "policy"; package_name] in
  str_in ":" v = false -> str_in ":" indent = false ->
  host st (spawned st) q1 = Exited 0 out1 err1 ->
  strip out1 = strip v ->
  host st (spawned st ++ [q1])%list q2 = Exited 0 out2 err2 ->
  split "010" out2
  = (before ++ (indent ++ "Candidate: " ++ v)%string :: after)%list ->
  Forall (fun l => str_in "Candidate:" l = false) before ->
  fst (get_available_version package_name
         (snd (get_package_version package_name st))) = Some (strip v)
  /\ fst (check_updates_available package_name st)
     = (false, Some (strip v), Some (strip v)).
Proof.
  cbv zeta. intros Hv Hindent H1 Hs H2 Hlines Hbefore.
  assert (Q1 : get_package_version package_name st
               = (Some (strip v),
                  set_spawned
                    (spawned st ++ [probe_spawn ["dpkg-query"; "-W"; "-f=${Version}";
                                                 package_name]]) st)).
  { unfold get_package_version, bind, probe, subprocess_run.
    change (mkSpawn (Argv ?a) false 5) with (probe_spawn a).
    rewrite H1. cbn. now rewrite Hs. }
  assert (Q2 : fst (get_available_version package_name
                      (snd (get_package_version package_name st))) = Some (strip v)).
  { rewrite Q1. cbn [snd].
    unfold get_available_version, bind, probe, subprocess_run.
    change (mkSpawn (Argv ?a) false 5) with (probe_spawn a).
    cbn [set_spawned host spawned]. rewrite H2. cbn.
    unfold version_line. rewrite Hlines.
    rewrite (first_where_app _ before _ after Hbefore).
    - now apply field_after_colon_plain.
    - change (indent ++ "Candidate: " ++ v)
        with (indent ++ "Candidate:" ++ String " " v).
      apply str_in_here. }
  split; [exact Q2|].
  unfold check_updates_available, bind.
  rewrite Q1 in Q2 |- *. cbn [snd] in Q2.
  destruct (get_available_version _ _) as [avail st2]. cbn [fst] in Q2. subst avail.
  cbn [truthy opt_neq]. rewrite String.eqb_refl. cbn.
  now rewrite andb_false_r.
Qed.

Lemma plain_version_read_back_witness :
  fst (get_available_version "steam"
         (snd (get_package_version "steam" (st_versions "1.0.0.74-1" "1.0.0.74-1"))))
  = Some "1.0.0.74-1"
  /\ fst (check_updates_available "steam" (st_versions "1.0.0.74-1" "1.0.0.74-1"))
     = (false, Some "1.0.0.74-1", Some "1.0.0.74-1").
Proof.
  apply (plain_version_read_back
           (st_versions "1.0.0.74-1" "1.0.0.74-1") "steam" "1.0.0.74-1"
           "1.0.0.74-1" ""
           ("steam:" ++ nl ++ "  Installed: 1.0.0.74-1" ++ nl
            ++ "  Candidate: 1.0.0.74-1" ++ nl ++ "  Version table:" ++ nl) ""
           "  "
           ["steam:"; "  Installed: 1.0.0.74-1"]
           ["  Version table:"; ""]);
    try reflexivity.
  repeat constructor.
Defined.

(* ------------------------------------------------------------------ *)
(** ** The GPU model text *)

(** X8.  The model text never exceeds 80 characters. *)
Theorem gpu_model_bounded (lspci_line : string) :
  String.length (_extract_gpu_model lspci_line) <= 80.
Proof.
  unfold _extract_gpu_model.
  destruct (3 <=? List.length (split ":" lspci_line))%nat.
  - apply length_take.
  - cbn. lia.
Qed.

(** X9.  A line with fewer than two colons has no model: the answer is
    "Unknown Model".  On a line [<bus>:<slot and class>:<text>] the
    model is the text after the second colon, colons of its own
    included, without surrounding blanks and cut at 80 characters,
    provided that text names none of the three controller classes. *)
Theorem gpu_model_of_line (a b m : string) :
  str_in ":" a = false -> str_in ":" b = false ->
  _extract_gpu_model a = "Unknown Model"
  /\ _extract_gpu_model (a ++ ":" ++ b) = "Unknown Model"
  /\ (any_in ["vga compatible controller:"; "3d controller:"; "display controller:"]
             (strip m) = false ->
      _extract_gpu_model (a ++ ":" ++ b ++ ":" ++ m) = take 80 (strip m)).
Proof.
  intros Ha Hb. rewrite str_in_char in Ha, Hb.
  unfold _extract_gpu_model. split; [|split].
  - now rewrite (split_no_sep _ _ Ha).
  - change (a ++ ":" ++ b) with (a ++ String ":" b).
    now rewrite (split_at_sep _ _ _ Ha), (split_no_sep _ _ Hb).
  - intros H. unfold any_in in H. cbn [existsb] in H.
    rewrite orb_false_r in H.
    apply orb_false_iff in H. destruct H as [H1 H].
    apply orb_false_iff in H. destruct H as [H2 H3].
    change (a ++ ":" ++ b ++ ":" ++ m) with (a ++ String ":" (b ++ String ":" m)).
    rewrite (split_at_sep _ _ _ Ha), (split_at_sep _ _ _ Hb).
    pose proof (split_nonempty ":" m) as N.
    destruct (split ":" m) as [|w ws] eqn:E; [contradiction|].
    cbn [List.length Nat.leb skipn]. rewrite <- E, join_split.
    rewrite (replace_absent _ _ _ H1), strip_idem.
    rewrite (replace_absent _ _ _ H2), strip_idem.
    rewrite (replace_absent _ _ _ H3), strip_idem.
    reflexivity.
Qed.

Lemma gpu_model_of_line_witness :
  _extract_gpu_model "no colon here" = "Unknown Model"
  /\ _extract_gpu_model "01:00.0 vga" = "Unknown Model"
  /\ _extract_gpu_model
       "01:00.0 3d controller: nvidia corporation device 1f9d (rev a1): extra"
     = "nvidia corporation device 1f9d (rev a1): extra".
Proof.
  destruct (gpu_model_of_line "no colon here" "" "" eq_refl eq_refl) as (W1 & _ & _).
  destruct (gpu_model_of_line "01" "00.0 vga" "" eq_refl eq_refl) as (_ & W2 & _).
  destruct (gpu_model_of_line "01" "00.0 3d controller"
              " nvidia corporation device 1f9d (rev a1): extra" eq_refl eq_refl)
    as (_ & _ & W3).
  split; [exact W1|]. split; [exact W2|].
  exact (W3 eq_refl).
Defined.

(* ------------------------------------------------------------------ *)
(** ** The filter of device lines *)

Lemma gpu_lines_of_app (a b : string) :
  gpu_lines_of (a ++ String "010" b) = (gpu_lines_of a ++ gpu_lines_of b)%list.
Proof. unfold gpu_lines_of. now rewrite split_app, filter_app. Qed.

Lemma gpu_lines_of_other (l : string) :
  has_char "010" l = false -> any_in ["vga"; "3d"; "display"] l = false ->
  gpu_lines_of l = [].
Proof.
  intros Hn Hm. unfold gpu_lines_of. rewrite (split_no_sep _ _ Hn).
  cbn [filter]. now rewrite Hm.
Qed.

Lemma prefix_before_newline (k x y : string) :
  has_char "010" k = false ->
  prefix k (x ++ String "010" y) = prefix k x.
Proof.
  revert x; induction k as [|d k IH]; intros x H.
  - now rewrite !prefix_empty.
  - cbn [has_char] in H. apply orb_false_iff in H. destruct H as [Hd Hk].
    destruct x as [|c x].
    + cbn. destruct (ascii_dec d "010") as [->|]; [discriminate Hd | reflexivity].
    + change (String c x ++ String "010" y) with (String c (x ++ String "010" y)).
      cbn [prefix]. destruct (ascii_dec d c); [now apply IH | reflexivity].
Qed.

(** A name without line feed occurs in a text when it occurs in one of
    the two parts a line feed cuts it in. *)
Lemma str_in_across_newline (k x y : string) :
  has_char "010" k = false ->
  str_in k (x ++ String "010" y) = str_in k x || str_in k y.
Proof.
  intros H. induction x as [|c x IH].
  - change ("" ++ String "010" y) with (String "010" y).
    cbn [str_in]. rewrite orb_false_r.
    destruct k as [|d k]; [reflexivity|].
    cbn [has_char] in H. apply orb_false_iff in H. destruct H as [Hd _].
    cbn [prefix]. destruct (ascii_dec d "010") as [->|]; [discriminate Hd | reflexivity].
  - change (String c x ++ String "010" y) with (String c (x ++ String "010" y)).
    cbn [str_in]. rewrite IH.
    change (String c (x ++ String "010" y)) with (String c x ++ String "010" y).
    rewrite (prefix_before_newline k (String c x) y H). now rewrite orb_assoc.
Qed.

Lemma lower_newline (x y : string) :
  lower (x ++ nl ++ y) = lower x ++ String "010" (lower y).
Proof. now rewrite lower_app. Qed.

(** A line that holds no name of [keys] does not change whether the
    listing holds one. *)
Lemma any_in_line_removed (keys : list string) (p l b : string) :
  Forall (fun k => has_char "010" k = false) keys ->
  any_in keys (lower l) = false ->
  p = "" \/ (exists a, p = a ++ nl) ->
  forall k, In k keys ->
            str_in k (lower (p ++ l ++ nl ++ b)) = str_in k (lower (p ++ b)).
Proof.
  intros Hk Hl Hp k Hin.
  assert (N : has_char "010" k = false)
    by exact (proj1 (Forall_forall _ _) Hk k Hin).
  assert (A : str_in k (lower l) = false).
  { destruct (str_in k (lower l)) eqn:E; [|reflexivity].
    assert (T : any_in keys (lower l) = true)
      by (apply existsb_exists; now exists k).
    congruence. }
  assert (E2 : str_in k (lower (l ++ nl ++ b)) = str_in k (lower b)).
  { now rewrite lower_newline, (str_in_across_newline k _ _ N), A. }
  destruct Hp as [-> | [a ->]]; [exact E2|].
  rewrite !app_assoc_str, (lower_newline a (l ++ nl ++ b)), (lower_newline a b).
  now rewrite !(str_in_across_newline k _ _ N), E2.
Qed.

Lemma gpu_lines_line_removed (p l b : string) :
  has_char "010" l = false ->
  any_in ["vga"; "3d"; "display"] (lower l) = false ->
  p = "" \/ (exists a, p = a ++ nl) ->
  gpu_lines_of (lower (p ++ l ++ nl ++ b)) = gpu_lines_of (lower (p ++ b)).
Proof.
  intros Hn Hm Hp. rewrite <- has_newline_lower in Hn.
  assert (E2 : gpu_lines_of (lower (l ++ nl ++ b)) = gpu_lines_of (lower b)).
  { rewrite lower_newline, gpu_lines_of_app, (gpu_lines_of_other _ Hn Hm). reflexivity. }
  destruct Hp as [-> | [a ->]]; [exact E2|].
  rewrite !app_assoc_str, (lower_newline a (l ++ nl ++ b)), (lower_newline a b).
  now rewrite !gpu_lines_of_app, E2.
Qed.

Lemma method3_line_removed (rc rc' : Z) (p l b err err' : string) :
  any_in lspci_markers (lower l) = false ->
  p = "" \/ (exists a, p = a ++ nl) ->
  method3 (CompletedProcess rc' (p ++ l ++ nl ++ b) err')
  = method3 (CompletedProcess rc (p ++ b) err).
Proof.
  intros Hl Hp. cbn [method3]. cbv zeta.
  assert (K : Forall (fun k => has_char "010" k = false) lspci_markers)
    by (repeat constructor).
  pose proof (any_in_line_removed lspci_markers p l b K Hl Hp) as E.
  rewrite (E "vmware"), (E "virtualbox"), (E "qxl"), (E "virtio");
    cbn; auto 10.
Qed.

Lemma with_lspci_differ (o o' : HostOutcome) (st : State) :
  differ_in_lspci o o' (with_lspci o st) (with_lspci o' st).
Proof.
  unfold differ_in_lspci, with_lspci. cbn.
  repeat split; intros; now rewrite ?H.
Qed.

Lemma differ_set_spawned (o o' : HostOutcome) (s s' : State) (h : list Spawn) :
  differ_in_lspci o o' s s' ->
  differ_in_lspci o o' (set_spawned (spawned s ++ h) s) (set_spawned (spawned s' ++ h) s').
Proof.
  intros (S & W & H1 & H2 & H3). unfold differ_in_lspci. cbn.
  rewrite S. auto.
Qed.

(** The scan after the chain gives the same result on two machines
    whose listings have the same graphics lines. *)
Lemma hardware_scan_same (rc rc' : Z) (out out' err err' : string) (s s' : State) :
  differ_in_lspci (Exited rc out err) (Exited rc' out' err') s s' ->
  gpu_lines_of (lower out') = gpu_lines_of (lower out) ->
  fst (hardware_scan s') = fst (hardware_scan s)
  /\ hardware_info (snd (hardware_scan s')) = hardware_info (snd (hardware_scan s))
  /\ spawned (snd (hardware_scan s')) = spawned (snd (hardware_scan s)).
Proof.
  intros (S & W & H1 & H2 & H3) G.
  unfold hardware_scan, bind, probe, subprocess_run.
  change (mkSpawn (Argv ["lspci"]) false 5) with sp_lspci.
  rewrite H2, H3. cbn [result_of andb set_spawned spawned host].
  rewrite (H1 _ (mkSpawn (Argv ["glxinfo"]) false 5) eq_refl), S, G.
  destruct (classify_gpu _ _) as [[v m] a].
  unfold assign_gpu_vendor, assign_gpu_model, ret.
  destruct m; cbn; rewrite W; repeat split.
Qed.

(** X10.  A line of the [lspci] listing that holds none of [vga], [3d],
    [display] and none of the names the probe chain looks for in the
    listing ([vmware], [virtualbox], [qxl], [virtio]), in any letter
    case, has no part in GPU detection.  On two machines that differ
    only in that line, at the head of the listing or inside it,
    [detect_gpu] returns the same string, leaves the same
    [hardware_info] and spawns the same processes. *)
Theorem other_devices_are_ignored (st : State) (rc : Z) (p l b err : string) :
  has_char "010" l = false ->
  any_in ["vga"; "3d"; "display"] (lower l) = false ->
  any_in lspci_markers (lower l) = false ->
  p = "" \/ (exists a, p = a ++ nl) ->
  let without := with_lspci (Exited rc (p ++ b) err) st in
  let with_line := with_lspci (Exited rc (p ++ l ++ nl ++ b) err) st in
  fst (detect_gpu with_line) = fst (detect_gpu without)
  /\ hardware_info (snd (detect_gpu with_line)) = hardware_info (snd (detect_gpu without))
  /\ spawned (snd (detect_gpu with_line)) = spawned (snd (detect_gpu without)).
Proof.
  intros Hn Hg Hm Hp. cbv zeta.
  pose proof (with_lspci_differ (Exited rc (p ++ b) err)
                                (Exited rc (p ++ l ++ nl ++ b) err) st) as D.
  set (s := with_lspci (Exited rc (p ++ b) err) st) in *.
  set (s' := with_lspci (Exited rc (p ++ l ++ nl ++ b) err) st) in *.
  clearbody s s'.
  pose proof (gpu_lines_line_removed p l b Hn Hg Hp) as G.
  pose proof (method3_line_removed rc rc p l b err err Hm Hp) as M3.
  pose proof D as (S & W & H1 & H2 & H3).
  assert (Scan : forall h,
             fst (hardware_scan (set_spawned (spawned s' ++ h) s'))
             = fst (hardware_scan (set_spawned (spawned s ++ h) s))
             /\ hardware_info (snd (hardware_scan (set_spawned (spawned s' ++ h) s')))
                = hardware_info (snd (hardware_scan (set_spawned (spawned s ++ h) s)))
             /\ spawned (snd (hardware_scan (set_spawned (spawned s' ++ h) s')))
                = spawned (snd (hardware_scan (set_spawned (spawned s ++ h) s)))).
  { intros h. exact (hardware_scan_same _ _ _ _ _ _ _ _ (differ_set_spawned _ _ _ _ h D) G). }
  assert (Vm : forall v h,
             let k := fun x : State =>
                        (assign_vm_type (_vm_type_str_to_enum v) ;;;
                         assign_gpu_vendor GPUVendor.VIRTUAL ;;;
                         ret (lower v))%method
                          (set_spawned (spawned x ++ h) x) in
             fst (k s') = fst (k s)
             /\ hardware_info (snd (k s')) = hardware_info (snd (k s))
             /\ spawned (snd (k s')) = spawned (snd (k s))).
  { intros v h. cbv zeta. unfold bind, assign_vm_type, assign_gpu_vendor, ret. cbn.
    rewrite W, S. repeat split. }
  assert (Branch : forall vm h,
             let k := fun x : State =>
                        (match nonempty vm with
                         | Some vm_type =>
                             (assign_vm_type (_vm_type_str_to_enum vm_type) ;;;
                              assign_gpu_vendor GPUVendor.VIRTUAL ;;;
                              ret (lower vm_type))%method
                         | None => hardware_scan
                         end) (set_spawned (spawned x ++ h) x) in
             fst (k s') = fst (k s)
             /\ hardware_info (snd (k s')) = hardware_info (snd (k s))
             /\ spawned (snd (k s')) = spawned (snd (k s))).
  { intros vm h. cbv zeta. destruct (nonempty vm) as [v|]; [apply Vm | apply Scan]. }
  unfold detect_gpu, bind. rewrite !detect_virtualization_unfold.
  assert (A1 : answer1 s' = answer1 s).
  { unfold answer1. rewrite S. now apply H1. }
  assert (A2 : answer2 s' = answer2 s).
  { unfold answer2. rewrite S. now apply H1. }
  assert (A3 : method3 (result_of false (answer3 s'))
               = method3 (result_of false (answer3 s))).
  { unfold answer3. rewrite H2, H3. exact M3. }
  rewrite A1, A2, A3.
  destruct (method1 _) as [v1|]; [exact (Branch (Some v1) [sp_virt])|].
  destruct (method2 _) as [v2|]; [exact (Branch (Some v2) [sp_virt; sp_dmesg])|].
  exact (Branch (method3 (result_of false (answer3 s))) [sp_virt; sp_dmesg; sp_lspci]).
Qed.

Lemma other_devices_are_ignored_witness :
  let without := with_lspci (Exited 0 lspci_nvidia "") (st_physical "" "") in
  let with_line :=
    with_lspci (Exited 0 (audio_line ++ nl ++ lspci_nvidia) "") (st_physical "" "") in
  fst (detect_gpu with_line) = fst (detect_gpu without)
  /\ hardware_info (snd (detect_gpu with_line)) = hardware_info (snd (detect_gpu without))
  /\ spawned (snd (detect_gpu with_line)) = spawned (snd (detect_gpu without)).
Proof.
  apply (other_devices_are_ignored (st_physical "" "") 0 "" audio_line lspci_nvidia "");
    first [ reflexivity | now left ].
Defined.

(** The names of the chain count: the network card of a KVM guest is no
    graphics line, and the classification of the graphics lines is the
    same with it, but the chain reads the whole listing and answers
    [KVM/QEMU] on its [virtio]. *)
Example virtio_line_is_not_ignored :
  any_in ["vga"; "3d"; "display"] (lower virtio_line) = false
  /\ any_in lspci_markers (lower virtio_line) = true
  /\ gpu_lines_of (lower (virtio_line ++ nl ++ lspci_nvidia))
     = gpu_lines_of (lower lspci_nvidia)
  /\ fst (detect_gpu (with_lspci (Exited 0 lspci_nvidia "") (st_physical "" "")))
     = "nvidia"
  /\ fst (detect_gpu (with_lspci (Exited 0 (virtio_line ++ nl ++ lspci_nvidia) "")
                                 (st_physical "" "")))
     = "kvm/qemu".
Proof. repeat split. Qed.

(* ------------------------------------------------------------------ *)
(** ** Failing probes in the hardware scan *)

Lemma gl_info_of_failed (o : HostOutcome) :
  o = TimedOut \/ (exists msg, o = CannotStart msg)
  \/ (exists rc out err, o = Exited rc out err /\ rc <> 0%Z) ->
  gl_info_of (result_of false o) = "".
Proof.
  intros [-> | [[msg ->] | (rc & out & err & -> & N)]]; try reflexivity.
  cbn. apply Z.eqb_neq in N. now rewrite N.
Qed.

(** X11.  After a chain without answer, a scan whose [lspci] times out
    or cannot start ends with vendor unknown and never tries [glxinfo];
    a scan whose [glxinfo] times out, cannot start or exits with a
    non-zero status classifies from the device lines alone.  The exit
    status of [lspci] itself is not looked at. *)
Theorem hardware_scan_survives_failures (st st1 : State) :
  detect_virtualization st = (None, st1) ->
  let o_lspci := host st1 (spawned st1) sp_lspci in
  let o_glx := host st1 (spawned st1 ++ [sp_lspci])%list sp_glxinfo in
  (o_lspci = TimedOut \/ (exists msg, o_lspci = CannotStart msg) ->
   fst (detect_gpu st) = "unknown"
   /\ gpu_vendor (hardware_info (snd (detect_gpu st))) = GPUVendor.UNKNOWN
   /\ spawned (snd (detect_gpu st)) = (spawned st1 ++ [sp_lspci])%list)
  /\ (forall rc out err,
         o_lspci = Exited rc out err ->
         o_glx = TimedOut \/ (exists msg, o_glx = CannotStart msg)
         \/ (exists rc' out' err', o_glx = Exited rc' out' err' /\ rc' <> 0%Z) ->
         fst (detect_gpu st) = snd (classify_gpu (gpu_lines_of (lower out)) "")
         /\ gpu_vendor (hardware_info (snd (detect_gpu st)))
            = fst (fst (classify_gpu (gpu_lines_of (lower out)) ""))
         /\ spawned (snd (detect_gpu st)) = (spawned st1 ++ [sp_lspci; sp_glxinfo])%list).
Proof.
  intros Hvm. cbv zeta. split.
  - intros Hl. unfold detect_gpu, bind. rewrite Hvm. cbn [nonempty truthy].
    unfold hardware_scan, bind, probe, subprocess_run.
    change (mkSpawn (Argv ["lspci"]) false 5) with sp_lspci.
    destruct Hl as [-> | [msg ->]]; cbn; repeat split.
  - intros rc out err Hl Hg.
    pose proof (detect_gpu_is_classify_gpu st st1 rc out err Hvm Hl) as P.
    cbv zeta in P. rewrite (gl_info_of_failed _ Hg) in P.
    destruct P as [P1 P2]. split; [exact P1|]. split; [exact P2|].
    unfold detect_gpu, bind. rewrite Hvm. cbn [nonempty truthy].
    unfold hardware_scan, bind, probe, subprocess_run.
    change (mkSpawn (Argv ["lspci"]) false 5) with sp_lspci.
    change (mkSpawn (Argv ["glxinfo"]) false 5) with sp_glxinfo.
    rewrite Hl. cbn [result_of andb set_spawned spawned host].
    rewrite (gl_info_of_failed _ Hg).
    destruct (classify_gpu _ _) as [[v mo] an].
    destruct mo; cbn; now rewrite <- app_assoc.
Qed.

Lemma hardware_scan_survives_failures_witness :
  (fst (detect_gpu st_physical_quiet) = "unknown"
   /\ gpu_vendor (hardware_info (snd (detect_gpu st_physical_quiet))) = GPUVendor.UNKNOWN
   /\ spawned (snd (detect_gpu st_physical_quiet))
      = [sp_virt; sp_dmesg; sp_lspci; sp_lspci])
  /\ (fst (detect_gpu st_no_glxinfo) = "amd"
      /\ gpu_vendor (hardware_info (snd (detect_gpu st_no_glxinfo))) = GPUVendor.AMD
      /\ spawned (snd (detect_gpu st_no_glxinfo))
         = [sp_virt; sp_dmesg; sp_lspci; sp_lspci; sp_glxinfo]).
Proof.
  split.
  - apply (proj1 (hardware_scan_survives_failures
                    st_physical_quiet (snd (detect_virtualization st_physical_quiet))
                    eq_refl)).
    left. reflexivity.
  - apply (proj2 (hardware_scan_survives_failures
                    st_no_glxinfo (snd (detect_virtualization st_no_glxinfo)) eq_refl)
                 0%Z lspci_amd_intel "").
    + reflexivity.
    + right; left. eexists. reflexivity.
Defined.

(* ------------------------------------------------------------------ *)
(** ** Reading /etc/os-release *)

Lemma split1_found (sep : ascii) (s : string) :
  has_char sep s = true -> exists a b, split1 sep s = (a, Some b).
Proof.
  induction s as [|c s IH]; intros H; [discriminate|].
  cbn [split1]. cbn [has_char] in H.
  destruct (Ascii.eqb c sep); [now eexists; eexists|].
  destruct (IH H) as (a & b & E). rewrite E. now eexists; eexists.
Qed.

Lemma split1_at (sep : ascii) (a b : string) :
  has_char sep a = false -> split1 sep (a ++ String sep b) = (a, Some b).
Proof.
  induction a as [|c a IH]; intros H.
  - cbn. now rewrite Ascii.eqb_refl.
  - cbn [has_char] in H. apply orb_false_iff in H. destruct H as [Hc Ha].
    change (String c a ++ String sep b) with (String c (a ++ String sep b)).
    cbn [split1]. now rewrite Hc, (IH Ha).
Qed.

Lemma os_release_line_total (d : list (string * string)) (line : string) :
  os_release_line d line <> None.
Proof.
  unfold os_release_line. destruct (str_in "=" line) eqn:E; [|discriminate].
  rewrite str_in_char in E.
  destruct (has_char_strip "=" line E) as [F|S]; [discriminate F|].
  destruct (split1_found "=" _ S) as (a & b & ->). discriminate.
Qed.

Lemma os_release_lines_total (lines : list string) (d : list (string * string)) :
  os_release_lines d lines <> None.
Proof.
  revert d; induction lines as [|l lines IH]; intros d; cbn [os_release_lines];
    [discriminate|].
  pose proof (os_release_line_total d l) as T.
  destruct (os_release_line d l); [apply IH | contradiction].
Qed.

(** X12.  Reading [/etc/os-release] cannot fail on its content: every
    line that holds a [=] still holds it after [strip], so the unpacking
    of [split('=', 1)] always finds its two values.  [detect_system]
    therefore raises exactly when the file cannot be read. *)
Theorem os_release_content_never_raises (content : string) (env : Environment) :
  (exists os_release, read_os_release content = Some os_release)
  /\ (detect_system env = None <-> os_release_file env = None).
Proof.
  split.
  - unfold read_os_release.
    pose proof (os_release_lines_total (readlines content) []) as T.
    destruct (os_release_lines [] (readlines content)) as [d|];
      [now exists d | contradiction].
  - unfold detect_system. destruct (os_release_file env) as [c|]; [|tauto].
    unfold read_os_release.
    pose proof (os_release_lines_total (readlines c) []) as T.
    destruct (os_release_lines [] (readlines c)); [|contradiction].
    split; discriminate.
Qed.

Lemma lines_of_nonempty (s : string) : s <> "" -> lines_of s <> [].
Proof.
  destruct s as [|c s]; [congruence|]. intros _. cbn [lines_of].
  destruct (Ascii.eqb c "010"); [discriminate|].
  destruct (lines_of s); discriminate.
Qed.

Lemma lines_of_app (c t : string) :
  lines_of ((c ++ nl) ++ t) = (lines_of (c ++ nl) ++ lines_of t)%list.
Proof.
  induction c as [|x c IH]; [reflexivity|].
  change ((String x c ++ nl) ++ t) with (String x ((c ++ nl) ++ t)).
  change (String x c ++ nl) with (String x (c ++ nl)).
  cbn [lines_of]. rewrite IH.
  destruct (Ascii.eqb x "010"); [reflexivity|].
  assert (N : lines_of (c ++ nl) <> []).
  { apply lines_of_nonempty. destruct c; discriminate. }
  destruct (lines_of (c ++ nl)); [contradiction | reflexivity].
Qed.

Lemma lines_of_one (body : string) :
  has_char "010" body = false -> lines_of (body ++ nl) = [body ++ nl].
Proof.
  induction body as [|c body IH]; intros H; [reflexivity|].
  cbn [has_char] in H. apply orb_false_iff in H. destruct H as [Hc Hb].
  change (String c body ++ nl) with (String c (body ++ nl)).
  cbn [lines_of]. now rewrite Hc, (IH Hb).
Qed.

(** A text without carriage return is read as it is. *)
Lemma universal_newlines_plain (s : string) :
  has_char "013" s = false -> universal_newlines s = s.
Proof.
  induction s as [|c s IH]; intros H; [reflexivity|].
  cbn [has_char] in H. apply orb_false_iff in H. destruct H as [Hc Hs].
  cbn [universal_newlines]. now rewrite Hc, (IH Hs).
Qed.

Lemma universal_newlines_cons (y : ascii) (r : string) :
  universal_newlines (String y r)
  = if Ascii.eqb y "013" then
      match r with
      | EmptyString => String "010" EmptyString
      | String c' r' =>
          if Ascii.eqb c' "010" then String "010" (universal_newlines r')
          else String "010" (universal_newlines r)
      end
    else String y (universal_newlines r).
Proof. reflexivity. Qed.

(** A line feed is a line end of its own: what follows it is read
    apart from what precedes it. *)
Lemma universal_newlines_at_nl (c : string) :
  (exists c', forall t,
      universal_newlines (c ++ String "010" t)
      = c' ++ String "010" (universal_newlines t))
  /\ (forall y, exists c', forall t,
        universal_newlines (String y c ++ String "010" t)
        = c' ++ String "010" (universal_newlines t)).
Proof.
  induction c as [|x c [IH1 IH2]].
  - split; [exists ""; reflexivity|]. intros y.
    destruct (Ascii.eqb y "013") eqn:Ey.
    + exists "". intros t.
      change (String y "" ++ String "010" t) with (String y (String "010" t)).
      rewrite universal_newlines_cons, Ey. reflexivity.
    + exists (String y ""). intros t.
      change (String y "" ++ String "010" t) with (String y (String "010" t)).
      rewrite universal_newlines_cons, Ey. reflexivity.
  - split; [exact (IH2 x)|]. intros y.
    destruct (Ascii.eqb y "013") eqn:Ey.
    + destruct (Ascii.eqb x "010") eqn:Ex.
      * destruct IH1 as [c' H]. exists (String "010" c'). intros t.
        change (String y (String x c) ++ String "010" t)
          with (String y (String x (c ++ String "010" t))).
        rewrite universal_newlines_cons, Ey. cbv beta iota. rewrite Ex, H.
        reflexivity.
      * destruct (IH2 x) as [c' H]. exists (String "010" c'). intros t.
        change (String y (String x c) ++ String "010" t)
          with (String y (String x (c ++ String "010" t))).
        rewrite universal_newlines_cons, Ey. cbv beta iota. rewrite Ex.
        change (String x (c ++ String "010" t)) with (String x c ++ String "010" t).
        rewrite H. reflexivity.
    + destruct (IH2 x) as [c' H]. exists (String y c'). intros t.
      change (String y (String x c) ++ String "010" t)
        with (String y (String x c ++ String "010" t)).
      rewrite universal_newlines_cons, Ey, H. reflexivity.
Qed.

(** A line without carriage return appended to a text of complete
    lines is read as one more line. *)
Lemma readlines_app_line (content body : string) :
  content = "" \/ (exists c, content = c ++ nl) ->
  has_char "013" body = false -> has_char "010" body = false ->
  readlines (content ++ body ++ nl)
  = (readlines content ++ [(body ++ nl)%string])%list.
Proof.
  intros Hc Hr Hn. unfold readlines.
  assert (B : universal_newlines (body ++ nl) = body ++ nl).
  { apply universal_newlines_plain. now rewrite has_char_app, Hr. }
  destruct Hc as [-> | [c ->]].
  - change ("" ++ body ++ nl) with (body ++ nl).
    rewrite B. now rewrite (lines_of_one body Hn).
  - destruct (proj1 (universal_newlines_at_nl c)) as [c' H].
    assert (E1 : (c ++ nl) ++ body ++ nl = c ++ String "010" (body ++ nl))
      by now rewrite app_assoc_str.
    assert (E2 : universal_newlines (c ++ nl) = c' ++ nl) by exact (H "").
    rewrite E1, H, B, E2.
    change (c' ++ String "010" (body ++ nl)) with (c' ++ nl ++ body ++ nl).
    rewrite <- app_assoc_str, lines_of_app, (lines_of_one body Hn). reflexivity.
Qed.

Lemma no_blank_no_return (s : string) : no_blank s = true -> has_char "013" s = false.
Proof.
  induction s as [|c s IH]; intros H; [reflexivity|].
  cbn [no_blank] in H. apply andb_true_iff in H. destruct H as [Hc Hs].
  cbn [has_char]. rewrite (IH Hs), orb_false_r.
  destruct (Ascii.eqb_spec c "013") as [->|]; [discriminate Hc | reflexivity].
Qed.

Lemma os_release_lines_app (l1 l2 : list string) (d : list (string * string)) :
  os_release_lines d (l1 ++ l2)
  = match os_release_lines d l1 with
    | Some d' => os_release_lines d' l2
    | None => None
    end.
Proof.
  revert d; induction l1 as [|l l1 IH]; intros d; [reflexivity|].
  cbn [app os_release_lines]. destruct (os_release_line d l); [apply IH | reflexivity].
Qed.

Lemma lstrip_no_blank (s : string) (c : ascii) (r : string) :
  no_blank s = true -> isspace c = false ->
  lstrip (s ++ String c r) = s ++ String c r.
Proof.
  intros Hs Hc. destruct s as [|x s].
  - cbn. now rewrite Hc.
  - cbn [no_blank] in Hs. apply andb_true_iff in Hs. destruct Hs as [Hx _].
    apply negb_true_iff in Hx. cbn. now rewrite Hx.
Qed.

Lemma no_blank_no_newline (s : string) : no_blank s = true -> has_char "010" s = false.
Proof.
  induction s as [|c s IH]; intros H; [reflexivity|].
  cbn [no_blank] in H. apply andb_true_iff in H. destruct H as [Hc Hs].
  cbn [has_char]. rewrite (IH Hs), orb_false_r.
  destruct (Ascii.eqb_spec c "010") as [->|]; [discriminate Hc | reflexivity].
Qed.

Lemma rstrip_chars_app_all (p : ascii -> bool) (x y : string) :
  rstrip_chars p y = "" -> rstrip_chars p (x ++ y) = rstrip_chars p x.
Proof.
  intros H. induction x as [|c x IH]; [exact H|].
  change (String c x ++ y) with (String c (x ++ y)).
  cbn [rstrip_chars]. now rewrite IH.
Qed.

(** What [line.strip()] leaves of a line [key=raw] of the file. *)
Lemma strip_os_release_line (key raw : string) :
  no_blank key = true ->
  strip (key ++ "=" ++ raw ++ nl) = key ++ "=" ++ rstrip raw.
Proof.
  intros Hk. unfold strip.
  change (key ++ "=" ++ raw ++ nl) with (key ++ String "=" (raw ++ nl)).
  rewrite (lstrip_no_blank key "=" _ Hk eq_refl).
  rewrite !rstrip_is.
  assert (E : rstrip_chars isspace (String "=" (raw ++ nl))
              = String "=" (rstrip_chars isspace raw)).
  { cbn [rstrip_chars]. rewrite (rstrip_chars_app_all isspace raw nl eq_refl).
    destruct (rstrip_chars isspace raw); reflexivity. }
  rewrite rstrip_chars_app; rewrite E; [reflexivity | discriminate].
Qed.

Lemma lstrip_chars_length (p : ascii -> bool) (s : string) :
  String.length (lstrip_chars p s) <= String.length s.
Proof.
  induction s as [|x s IH]; cbn; [lia|]. destruct (p x); cbn; lia.
Qed.

Lemma strip_quotes (value : string) :
  lstrip_chars is_quote value = value -> rstrip_chars is_quote value = value ->
  strip_chars is_quote (quote ++ value ++ quote) = value.
Proof.
  intros L R. unfold strip_chars, quote.
  change (String "034" "" ++ value ++ String "034" "")
    with (String "034" (value ++ String "034" "")).
  cbn [lstrip_chars]. change (is_quote "034") with true. cbv iota.
  destruct value as [|c v]; [reflexivity|].
  cbn [lstrip_chars] in L.
  destruct (is_quote c) eqn:Q.
  - exfalso. pose proof (lstrip_chars_length is_quote v) as Len.
    rewrite L in Len. cbn in Len. lia.
  - change (String c v ++ String "034" "") with (String c (v ++ String "034" "")).
    cbn [lstrip_chars]. rewrite Q.
    change (String c (v ++ String "034" "")) with (String c v ++ String "034" "").
    rewrite (rstrip_chars_app_all is_quote (String c v) (String "034" "") eq_refl).
    exact R.
Qed.

(** X13.  A line [key=raw] appended to a file of complete lines is the
    last word on [key]: the value stored is [raw] without trailing
    blanks and without the double quotes around it, lookups of [key]
    find it whatever the file said before, and every other key reads as
    before.  In particular a value written between double quotes is
    read back as written.  The value holds no line end, neither a line
    feed nor a carriage return; the file before it may end its lines
    either way. *)
Theorem os_release_last_line_wins
        (content key raw : string) (os_release : list (string * string)) :
  read_os_release content = Some os_release ->
  content = "" \/ (exists c, content = c ++ nl) ->
  no_blank key = true -> has_char "=" key = false ->
  has_char "010" raw = false -> has_char "013" raw = false ->
  let stored := strip_chars is_quote (rstrip raw) in
  let os_release' := dict_set os_release key stored in
  read_os_release (content ++ key ++ "=" ++ raw ++ nl) = Some os_release'
  /\ (forall default, dict_get os_release' key default = stored)
  /\ (forall k default, k <> key ->
                        dict_get os_release' k default = dict_get os_release k default)
  /\ (forall value,
         raw = quote ++ value ++ quote ->
         lstrip_chars is_quote value = value -> rstrip_chars is_quote value = value ->
         stored = value).
Proof.
  intros Hread Hc Hk He Hr Hcr. cbv zeta.
  assert (Hline : os_release_line os_release (key ++ "=" ++ raw ++ nl)
                  = Some (dict_set os_release key (strip_chars is_quote (rstrip raw)))).
  { unfold os_release_line.
    assert (I : str_in "=" (key ++ "=" ++ raw ++ nl) = true)
      by (apply (str_in_here "=" key (raw ++ nl))).
    rewrite I, (strip_os_release_line key raw Hk).
    change (key ++ "=" ++ rstrip raw) with (key ++ String "=" (rstrip raw)).
    now rewrite (split1_at "=" key _ He). }
  assert (A : key ++ "=" ++ raw ++ nl = (key ++ "=" ++ raw) ++ nl)
    by now rewrite !app_assoc_str.
  assert (Hlines : readlines (content ++ key ++ "=" ++ raw ++ nl)
                   = (readlines content ++ [(key ++ "=" ++ raw ++ nl)%string])%list).
  { rewrite A. apply (readlines_app_line content (key ++ "=" ++ raw) Hc).
    - rewrite !has_char_app, (no_blank_no_return key Hk), Hcr. reflexivity.
    - rewrite !has_char_app, (no_blank_no_newline key Hk), Hr. reflexivity. }
  split; [|split; [|split]].
  - unfold read_os_release in *.
    rewrite Hlines, os_release_lines_app, Hread.
    cbn [os_release_lines]. now rewrite Hline.
  - intros default. unfold dict_set. cbn [dict_get]. now rewrite String.eqb_refl.
  - intros k default N. unfold dict_set. cbn [dict_get].
    apply not_eq_sym in N. apply String.eqb_neq in N. now rewrite N.
  - intros value -> L R.
    assert (Rr : rstrip (quote ++ value ++ quote) = quote ++ value ++ quote).
    { rewrite rstrip_is.
      change (quote ++ value ++ quote) with (String "034" (value ++ quote)).
      change (String "034" (value ++ quote)) with (String "034" value ++ quote).
      now rewrite rstrip_chars_app. }
    rewrite Rr. now apply strip_quotes.
Qed.

Lemma os_release_last_line_wins_witness :
  let before := [ ("ID", "linuxmint"); ("VERSION_ID", "21.3"); ("NAME", "Linux Mint");
                  ("PRETTY_NAME", "Linux Mint 21.3") ] in
  let after := dict_set before "ID_LIKE" "ubuntu debian" in
  read_os_release
    (os_release_head ++ "ID_LIKE" ++ "=" ++ (quote ++ "ubuntu debian" ++ quote) ++ nl)
  = Some after
  /\ (forall default, dict_get after "ID_LIKE" default = "ubuntu debian")
  /\ (forall k default, k <> "ID_LIKE" ->
                        dict_get after k default = dict_get before k default)
  /\ (forall value,
         quote ++ "ubuntu debian" ++ quote = quote ++ value ++ quote ->
         lstrip_chars is_quote value = value -> rstrip_chars is_quote value = value ->
         "ubuntu debian" = value).
Proof.
  exact (os_release_last_line_wins
           os_release_head "ID_LIKE" (quote ++ "ubuntu debian" ++ quote)
           [ ("ID", "linuxmint"); ("VERSION_ID", "21.3"); ("NAME", "Linux Mint");
             ("PRETTY_NAME", "Linux Mint 21.3") ]
           eq_refl
           (or_intror
              (ex_intro _
                 ("PRETTY_NAME=" ++ quote ++ "Linux Mint 21.3" ++ quote ++ nl
                  ++ "NAME=" ++ quote ++ "Linux Mint" ++ quote ++ nl
                  ++ "VERSION_ID=" ++ quote ++ "21.3" ++ quote ++ nl
                  ++ "ID=linuxmint") eq_refl))
           eq_refl eq_refl eq_refl eq_refl).
Defined.

(** Line ends as text mode reads them: a carriage return inside a
    value ends the line, and a file written with carriage return and
    line feed reads like one written with line feeds. *)
Example os_release_line_ends :
  read_os_release ("NAME=a" ++ String "013" ("b" ++ nl)) = Some [("NAME", "a")]
  /\ read_os_release ("ID=linuxmint" ++ String "013" (nl ++ "NAME=Mint" ++ String "013" nl))
     = read_os_release ("ID=linuxmint" ++ nl ++ "NAME=Mint" ++ nl)
  /\ readlines ("a" ++ String "013" ("b" ++ String "013" (nl ++ "c" ++ String "013" "")))
     = ["a" ++ nl; "b" ++ nl; "c" ++ nl].
Proof. repeat split. Qed.

(* ------------------------------------------------------------------ *)
(** ** Distribution family and desktop *)

Ltac break_false H :=
  cbn [any_in existsb] in H;
  repeat match goal with
         | F : _ || _ = false |- _ =>
             apply orb_false_iff in F;
             let F1 := fresh "F" in let F2 := fresh "F" in destruct F as [F1 F2]
         end.

Ltac use_false E :=
  repeat match goal with
         | Hf : str_in _ _ = false |- _ => rewrite Hf in E; clear Hf
         end;
  discriminate E.

(** X14.  The family is [UNKNOWN] exactly when none of the names mint,
    kali, pop, elementary, zorin, ubuntu, debian occurs, in any letter
    case, in [NAME] or in [ID], and neither ubuntu nor debian occurs in
    [ID_LIKE]; a missing key counts as empty. *)
Theorem distro_family_unknown (os_release : list (string * string)) :
  let names := ["mint"; "kali"; "pop"; "elementary"; "zorin"; "ubuntu"; "debian"] in
  _detect_distro_family os_release = DistroFamily.UNKNOWN
  <-> any_in names (lower (dict_get os_release "NAME" "")) = false
      /\ any_in names (lower (dict_get os_release "ID" "")) = false
      /\ any_in ["ubuntu"; "debian"] (lower (dict_get os_release "ID_LIKE" "")) = false.
Proof.
  cbv zeta. unfold _detect_distro_family.
  repeat match goal with
         | |- (if ?c then _ else _) = _ <-> _ =>
             let E := fresh "E" in
             destruct c eqn:E;
             [ split; [discriminate|];
               intros (H1 & H2 & H3); exfalso;
               break_false H1; break_false H2; break_false H3; use_false E
             | ]
         end.
  split; [intros _ | reflexivity].
  break_false E.
  cbn [any_in existsb].
  repeat match goal with
         | Hf : str_in _ _ = false |- _ => rewrite Hf; clear Hf
         end.
  repeat split.
Qed.

Lemma lower_empty (s : string) : lower s = "" -> s = "".
Proof. destruct s; [reflexivity | discriminate]. Qed.

(** X15.  [DESKTOP_SESSION] decides the desktop whenever it is set and
    not empty, and [XDG_CURRENT_DESKTOP] is then not looked at: two
    environments with the same non-empty session name get the same
    answer, and a session name that holds none of the known names gives
    "Unknown" whatever [XDG_CURRENT_DESKTOP] says. *)
Theorem desktop_session_decides (env env' : Environment) :
  let session := dict_get (environ env) "DESKTOP_SESSION" "" in
  session <> "" ->
  (dict_get (environ env') "DESKTOP_SESSION" "" = session ->
   _detect_desktop_environment env' = _detect_desktop_environment env)
  /\ (any_in ["gnome"; "kde"; "plasma"; "xfce"; "cinnamon"; "mate"; "pantheon";
              "lxde"; "lxqt"; "i3"; "sway"] (lower session) = false ->
      _detect_desktop_environment env = "Unknown").
Proof.
  cbv zeta. intros N.
  assert (L : (lower (dict_get (environ env) "DESKTOP_SESSION" "") =? "") = false).
  { apply String.eqb_neq. intros E. apply N. now apply lower_empty. }
  split.
  - intros E. unfold _detect_desktop_environment. now rewrite E, L.
  - intros H. unfold _detect_desktop_environment. rewrite L.
    break_false H. unfold desktop_name.
    repeat match goal with
           | Hf : str_in _ _ = false |- _ => rewrite Hf; clear Hf
           end.
    reflexivity.
Qed.

Lemma desktop_session_decides_witness :
  _detect_desktop_environment env_ubuntu_gnome = "Unknown".
Proof.
  apply (proj2 (desktop_session_decides env_ubuntu_gnome env_ubuntu_gnome
                                        ltac:(discriminate))).
  reflexivity.
Defined.

(** The system that environment describes. *)
Example detect_system_example :
  detect_system env_ubuntu_gnome
  = Some (mkSystemInfo "Linux Mint" "21.3" "linuxmint" DistroFamily.MINT
                       "6.8.0-45-generic" "x86_64" "Unknown" false)
  /\ get_real_user env_ubuntu_gnome = "alice".
Proof. split; reflexivity. Qed.

Lemma distro_family_unknown_witness :
  _detect_distro_family [("NAME", "Fedora Linux"); ("ID", "fedora")]
  = DistroFamily.UNKNOWN.
Proof.
  apply (proj2 (distro_family_unknown [("NAME", "Fedora Linux"); ("ID", "fedora")])).
  repeat split.
Defined.

(* ------------------------------------------------------------------ *)
(** ** Running commands *)

(** Outside dry run a command is spawned once, whatever comes of it. *)
Lemma run_command_spawns (cmd : Cmd) (d : string) (check shell : bool) (t : nat)
      (st : State) :
  dry_run (config st) = false ->
  let st' := snd (run_command cmd d check shell t st) in
  spawned st' = (spawned st ++ [mkSpawn cmd shell t])%list
  /\ config st' = config st /\ host st' = host st
  /\ stdin st' = stdin st /\ reads st' = reads st.
Proof.
  intros D. cbv zeta. unfold run_command, bind, get_config, subprocess_run. rewrite D.
  destruct (result_of check _) as [rc out err| |rc out err|msg]; cbn;
    [destruct (rc =? 0)%Z|..]; cbn; repeat split.
Qed.

Lemma run_command_nonzero (cmd : Cmd) (d : string) (check shell : bool) (t : nat)
      (st : State) (rc : Z) (out err : string) :
  dry_run (config st) = false ->
  host st (spawned st) (mkSpawn cmd shell t) = Exited rc out err -> rc <> 0%Z ->
  failed_operations (snd (run_command cmd d check shell t st))
  = if check then (failed_operations st ++ [("FAILED: " ++ d)%string])%list
    else failed_operations st.
Proof.
  intros D H N. unfold run_command, bind, get_config, subprocess_run. rewrite D, H.
  apply Z.eqb_neq in N. cbn [result_of]. rewrite N.
  destruct check; cbn; [reflexivity|]. now rewrite N.
Qed.

Lemma run_each_spawns (commands : list (list string * string)) (st : State) :
  dry_run (config st) = false ->
  spawned (snd (run_each commands st))
  = (spawned st ++ map (fun c => command_spawn (fst c)) commands)%list
  /\ config (snd (run_each commands st)) = config st
  /\ stdin (snd (run_each commands st)) = stdin st
  /\ reads (snd (run_each commands st)) = reads st.
Proof.
  revert st; induction commands as [|[cmd desc] rest IH]; intros st D.
  - cbn. rewrite app_nil_r. repeat split.
  - cbn [run_each]. unfold bind, run_checked.
    pose proof (run_command_spawns (Argv cmd) desc true false 300 st D) as S.
    cbv zeta in S. destruct (run_command _ _ _ _ _ st) as [r st1]. cbn [snd] in S.
    destruct S as (S1 & C1 & _ & I1 & N1).
    assert (D1 : dry_run (config st1) = false) by now rewrite C1.
    destruct (IH st1 D1) as (S2 & C2 & I2 & N2).
    rewrite S2, S1, C2, I2, N2. cbn [map fst]. unfold command_spawn.
    rewrite <- app_assoc. repeat split; assumption.
Qed.

(** X16.  Outside dry run the system update runs its four commands in
    order, each one whether or not the one before it succeeded, and
    [enable_32bit_support] its two; with [skip_update] set the update
    does nothing at all. *)
Theorem update_runs_every_command (st : State) (sel : Selection) :
  dry_run (config st) = false ->
  (sel_skip_update sel = false ->
   spawned (snd (update_system sel st))
   = (spawned st ++
      [command_spawn ["apt-get"; "update"];
       command_spawn ["apt-get"; "upgrade"; "-y"];
       command_spawn ["apt-get"; "autoremove"; "-y"];
       command_spawn ["apt-get"; "autoclean"]])%list)
  /\ (sel_skip_update sel = true -> update_system sel st = (tt, st))
  /\ spawned (snd (enable_32bit_support st))
     = (spawned st ++
        [command_spawn ["dpkg"; "--add-architecture"; "i386"];
         command_spawn ["apt-get"; "update"]])%list.
Proof.
  intros D. split; [|split].
  - intros S. unfold update_system. rewrite S.
    exact (proj1 (run_each_spawns update_commands st D)).
  - intros S. unfold update_system. now rewrite S.
  - change enable_32bit_support
      with (run_each [ (["dpkg"; "--add-architecture"; "i386"], "Enabling i386 architecture");
                       (["apt-get"; "update"], "Updating package lists") ]).
    exact (proj1 (run_each_spawns _ st D)).
Qed.

Lemma update_runs_every_command_witness :
  spawned (snd (update_system Selection_default (st_exits 100)))
  = [command_spawn ["apt-get"; "update"];
     command_spawn ["apt-get"; "upgrade"; "-y"];
     command_spawn ["apt-get"; "autoremove"; "-y"];
     command_spawn ["apt-get"; "autoclean"]].
Proof.
  apply (proj1 (update_runs_every_command (st_exits 100) Selection_default eq_refl)).
  reflexivity.
Defined.

(** On that host each of the four failures is in the ledger, after the
    entry that was there. *)
Example update_failures_recorded :
  failed_operations (snd (update_system Selection_default (st_exits 100)))
  = ["FAILED: earlier step";
     "FAILED: Updating package lists";
     "FAILED: Upgrading installed packages";
     "FAILED: Removing unnecessary packages";
     "FAILED: Cleaning package cache"].
Proof. reflexivity. Qed.

(* ------------------------------------------------------------------ *)
(** ** Guest tools *)

(** X17.  [install_vm_tools] and [_vm_type_str_to_enum] read the same
    string by two chains of tests.  On every string that does not hold
    [oracle] the two agree: the tools installed are those of the
    hypervisor the enumeration names, KVM and QEMU sharing one set and
    Parallels and unnamed hypervisors getting the generic graphics
    packages. *)
Theorem vm_tools_follow_vm_type (vm_type : string) (st : State) :
  str_in "oracle" (lower vm_type) = false ->
  install_vm_tools vm_type st
  = match _vm_type_str_to_enum vm_type with
    | VMType.VMWARE => install_vmware_tools st
    | VMType.VIRTUALBOX => install_virtualbox_tools st
    | VMType.KVM | VMType.QEMU => install_kvm_tools st
    | VMType.HYPERV => install_hyperv_tools st
    | VMType.XEN => install_xen_tools st
    | VMType.PARALLELS | VMType.NONE => install_generic_vm_graphics st
    end.
Proof.
  intros H. unfold install_vm_tools, _vm_type_str_to_enum. cbv zeta. rewrite H.
  destruct (str_in "vmware" _); [reflexivity|].
  destruct (str_in "virtualbox" _); [reflexivity|]. cbn [orb].
  destruct (str_in "kvm" _); [reflexivity|]. cbn [orb].
  destruct (str_in "qemu" _); [reflexivity|].
  destruct (str_in "hyper-v" _); [reflexivity|]. cbn [orb].
  destruct (str_in "microsoft" _); [reflexivity|].
  destruct (str_in "xen" _); [reflexivity|].
  destruct (str_in "parallels" _); reflexivity.
Qed.

Lemma vm_tools_follow_vm_type_witness :
  install_vm_tools "KVM/QEMU" (st_exits 0)
  = match _vm_type_str_to_enum "KVM/QEMU" with
    | VMType.VMWARE => install_vmware_tools (st_exits 0)
    | VMType.VIRTUALBOX => install_virtualbox_tools (st_exits 0)
    | VMType.KVM | VMType.QEMU => install_kvm_tools (st_exits 0)
    | VMType.HYPERV => install_hyperv_tools (st_exits 0)
    | VMType.XEN => install_xen_tools (st_exits 0)
    | VMType.PARALLELS | VMType.NONE => install_generic_vm_graphics (st_exits 0)
    end.
Proof. apply (vm_tools_follow_vm_type "KVM/QEMU" (st_exits 0)). reflexivity. Defined.

(** With [oracle] the two part ways: the enumeration says VirtualBox,
    the tools are the generic ones. *)
Example vm_tools_oracle :
  _vm_type_str_to_enum "oracle" = VMType.VIRTUALBOX
  /\ install_vm_tools "oracle" (st_exits 0) = install_generic_vm_graphics (st_exits 0).
Proof. split; reflexivity. Qed.

Lemma run_command_exit (cmd : Cmd) (d : string) (check shell : bool) (t : nat)
      (st : State) (rc : Z) (out err : string) :
  dry_run (config st) = false ->
  host st (spawned st) (mkSpawn cmd shell t) = Exited rc out err ->
  failed_operations (snd (run_command cmd d check shell t st))
  = if check && negb (rc =? 0)%Z
    then (failed_operations st ++ [("FAILED: " ++ d)%string])%list
    else failed_operations st.
Proof.
  intros D H. unfold run_command, bind, get_config, subprocess_run. rewrite D, H.
  cbn [result_of]. destruct (check && negb (rc =? 0)%Z) eqn:E; [reflexivity|].
  destruct (rc =? 0)%Z; reflexivity.
Qed.

Ltac one_install D :=
  cbn [orb negb andb];
  unfold run_checked, run_unchecked, bind;
  let S := fresh "S" in
  let F := fresh "F" in
  match goal with
  | |- context [run_command (Argv (apt_install ?p)) ?d ?k false 300 ?st] =>
      pose proof (run_command_spawns (Argv (apt_install p)) d k false 300 st D) as S;
      pose proof (fun rc out err =>
                    run_command_exit (Argv (apt_install p)) d k false 300 st
                                     rc out err D) as F;
      cbv zeta in S;
      destruct (run_command (Argv (apt_install p)) d k false 300 st);
      exists p
  end;
  unfold ret; cbn [snd fst] in *; destruct S as (S & _);
  split; [exact S|];
  split;
  [ intros out err H0; rewrite (F _ _ _ H0); cbn [Z.eqb negb andb];
    now rewrite ?andb_false_r
  | intros rc out err H0 N0; rewrite (F _ _ _ H0);
    apply Z.eqb_neq in N0; rewrite N0; cbn [negb andb];
    split; intros T; try discriminate T; try reflexivity; eexists; reflexivity ].

(** X18.  Outside dry run [install_vm_tools] runs exactly one command
    on every host, an [apt-get install -y] of a package list.  When
    that command exits with status 0 the ledger stays as it was.  When
    it exits with another status one entry is appended to the ledger,
    except for the Hyper-V and Xen tools, which are installed with
    [check=False] and leave no entry. *)
Theorem vm_tools_failure_in_ledger (st : State) (vm_type : string) :
  dry_run (config st) = false ->
  let t := lower vm_type in
  let tolerated :=
    negb (str_in "vmware" t) && negb (str_in "virtualbox" t)
    && negb (str_in "kvm" t || str_in "qemu" t)
    && (str_in "hyper-v" t || str_in "microsoft" t || str_in "xen" t) in
  let st' := snd (install_vm_tools vm_type st) in
  exists packages,
    spawned st' = (spawned st ++ [command_spawn (apt_install packages)])%list
    /\ (forall out err,
           host st (spawned st) (command_spawn (apt_install packages)) = Exited 0 out err ->
           failed_operations st' = failed_operations st)
    /\ (forall rc out err,
           host st (spawned st) (command_spawn (apt_install packages)) = Exited rc out err ->
           rc <> 0%Z ->
           (tolerated = false ->
            exists entry, failed_operations st' = (failed_operations st ++ [entry])%list)
           /\ (tolerated = true -> failed_operations st' = failed_operations st)).
Proof.
  intros D. cbv zeta. unfold install_vm_tools. cbv zeta.
  unfold install_vmware_tools, install_virtualbox_tools, install_kvm_tools,
    install_hyperv_tools, install_xen_tools, install_generic_vm_graphics, command_spawn.
  destruct (str_in "vmware" _); [one_install D|].
  destruct (str_in "virtualbox" _); [one_install D|].
  destruct (str_in "kvm" _ || str_in "qemu" _); [one_install D|].
  destruct (str_in "hyper-v" _); [one_install D|]. cbn [orb].
  destruct (str_in "microsoft" _); [one_install D|]. cbn [orb].
  destruct (str_in "xen" _); one_install D.
Qed.

Lemma vm_tools_failure_in_ledger_witness :
  exists packages,
    spawned (snd (install_vm_tools "Hyper-V" (st_exits 100)))
    = [command_spawn (apt_install packages)]
    /\ (forall out err,
           Exited 100 "" "E: Unable to locate package" = Exited 0 out err ->
           failed_operations (snd (install_vm_tools "Hyper-V" (st_exits 100)))
           = ["FAILED: earlier step"])
    /\ (forall rc out err,
           Exited 100 "" "E: Unable to locate package" = Exited rc out err ->
           rc <> 0%Z ->
           (true = false ->
            exists entry,
              failed_operations (snd (install_vm_tools "Hyper-V" (st_exits 100)))
              = (["FAILED: earlier step"] ++ [entry])%list)
           /\ (true = true ->
               failed_operations (snd (install_vm_tools "Hyper-V" (st_exits 100)))
               = ["FAILED: earlier step"])).
Proof.
  apply (vm_tools_failure_in_ledger (st_exits 100) "Hyper-V").
  reflexivity.
Defined.

Example vm_tools_ledger_examples :
  failed_operations (snd (install_vm_tools "vmware" (st_exits 100)))
  = ["FAILED: earlier step"; "FAILED: Installing VMware guest tools and graphics"]
  /\ failed_operations (snd (install_vm_tools "xen" (st_exits 100)))
     = ["FAILED: earlier step"].
Proof. split; reflexivity. Qed.

(* ------------------------------------------------------------------ *)
(** ** The driver stage of run *)

Lemma method1_listed (rc : Z) (out err key name : string) :
  lower (strip out) = key -> key <> "" -> key <> "none" ->
  dict_get virt_map key (strip out) = name ->
  method1 (CompletedProcess rc out err) = Some name.
Proof.
  intros L N1 N2 G. cbn [method1].
  assert (E1 : (strip out =? "") = false).
  { apply String.eqb_neq. intros E. rewrite E in L. cbn in L. congruence. }
  assert (E2 : (strip out =? "none") = false).
  { apply String.eqb_neq. intros E. rewrite E in L. cbn in L. congruence. }
  rewrite E1, E2. cbn [negb andb]. now rewrite L, G.
Qed.

(** X19.  Guest tools are offered only when [detect_gpu] returns
    [vmware], [virtualbox], [kvm/qemu] or [vm].  For a guest whose
    oracle prints kvm, qemu, microsoft, xen, bochs or parallels (in any
    letter case) [detect_gpu] returns another name, and the driver stage
    then asks nothing and installs nothing, even with
    [install_vm_tools] selected: after the oracle no process is
    spawned. *)
Theorem oracle_guest_gets_no_tools (st : State) (sel : Selection)
        (rc : Z) (out err : string) :
  answer1 st = Exited rc out err ->
  in_list (lower (strip out))
          ["kvm"; "qemu"; "microsoft"; "xen"; "bochs"; "parallels"] = true ->
  detect_and_install_drivers sel st = (tt, snd (detect_gpu st))
  /\ gpu_vendor (hardware_info (snd (detect_gpu st))) = GPUVendor.VIRTUAL
  /\ spawned (snd (detect_and_install_drivers sel st)) = (spawned st ++ [sp_virt])%list
  /\ stdin (snd (detect_and_install_drivers sel st)) = stdin st
  /\ reads (snd (detect_and_install_drivers sel st)) = reads st
  /\ failed_operations (snd (detect_and_install_drivers sel st)) = failed_operations st.
Proof.
  intros Ha Hin.
  assert (V : exists name,
             method1 (result_of false (answer1 st)) = Some name
             /\ forall sel0 st0, run_driver_stage sel0 (lower name) st0 = (tt, st0)).
  { rewrite Ha. cbn [result_of andb].
    unfold in_list in Hin. cbn [existsb] in Hin. rewrite orb_false_r in Hin.
    repeat (apply orb_true_iff in Hin; destruct Hin as [Hin|Hin]);
      apply String.eqb_eq in Hin;
      eexists; (split;
                [ eapply method1_listed;
                  [exact Hin | discriminate | discriminate | reflexivity]
                | intros; reflexivity ]). }
  destruct V as (name & M & Hstage).
  assert (E : detect_virtualization st
              = (Some name, set_spawned (spawned st ++ [sp_virt]) st)).
  { rewrite detect_virtualization_unfold, M. reflexivity. }
  pose proof (detect_gpu_after_answer st _ _ E) as G.
  unfold detect_and_install_drivers, bind. rewrite G, Hstage. cbn.
  repeat split.
Qed.

Lemma oracle_guest_gets_no_tools_witness :
  let sel := mkSelection false false false false true false false false false in
  detect_and_install_drivers sel st_kvm_guest = (tt, snd (detect_gpu st_kvm_guest))
  /\ gpu_vendor (hardware_info (snd (detect_gpu st_kvm_guest))) = GPUVendor.VIRTUAL
  /\ spawned (snd (detect_and_install_drivers sel st_kvm_guest)) = [sp_virt]
  /\ stdin (snd (detect_and_install_drivers sel st_kvm_guest)) = []
  /\ reads (snd (detect_and_install_drivers sel st_kvm_guest)) = 0
  /\ failed_operations (snd (detect_and_install_drivers sel st_kvm_guest)) = [].
Proof.
  apply (oracle_guest_gets_no_tools
           st_kvm_guest (mkSelection false false false false true false false false false)
           0%Z ("kvm" ++ nl) "");
    reflexivity.
Defined.

(** The guests that are offered tools: detected by their kernel log or
    their devices, or a VMware or VirtualBox oracle. *)
Example guests_offered_tools :
  in_list (lower "VMware") ["vmware"; "virtualbox"; "kvm/qemu"; "vm"] = true
  /\ in_list (lower "VirtualBox") ["vmware"; "virtualbox"; "kvm/qemu"; "vm"] = true
  /\ in_list (lower "KVM/QEMU") ["vmware"; "virtualbox"; "kvm/qemu"; "vm"] = true
  /\ in_list (lower "VM") ["vmware"; "virtualbox"; "kvm/qemu"; "vm"] = true
  /\ in_list (lower "KVM") ["vmware"; "virtualbox"; "kvm/qemu"; "vm"] = false
  /\ in_list (lower "Hyper-V") ["vmware"; "virtualbox"; "kvm/qemu"; "vm"] = false.
Proof. repeat split. Qed.

(* ------------------------------------------------------------------ *)
(** ** Declined installations *)

Lemma confirm_loop_declines (pending : list InputEvent) (n : nat) :
  forallb declines pending = true ->
  confirm_loop pending n = (false, skipn 1 pending, S n).
Proof.
  destruct pending as [|[line|] rest];
    cbn [forallb declines skipn confirm_loop]; try reflexivity.
  intros H. apply andb_true_iff in H. destruct H as [N _].
  pose proof (says_no_not_yes line N) as Y.
  unfold says_yes in Y. unfold says_no in N. now rewrite Y, N.
Qed.

Lemma forallb_skipn (A : Type) (p : A -> bool) (k : nat) (l : list A) :
  forallb p l = true -> forallb p (skipn k l) = true.
Proof.
  revert l; induction k as [|k IH]; intros [|x l] H; cbn [skipn]; auto.
  cbn [forallb] in H. apply andb_true_iff in H. apply IH, H.
Qed.

Lemma asked_trans (j k : nat) (a b c : State) :
  asked j a b -> asked k b c -> asked (j + k) a c.
Proof.
  intros (C1 & H1 & F1 & I1 & N1 & s1 & S1 & P1) (C2 & H2 & F2 & I2 & N2 & s2 & S2 & P2).
  unfold asked. rewrite C2, H2, F2, I2, N2, S2, C1, H1, F1, I1, N1, S1.
  rewrite skipn_skipn, (Nat.add_comm k j), <- app_assoc.
  repeat split; try lia.
  exists (s1 ++ s2)%list. split; [reflexivity | now apply Forall_app].
Qed.

Lemma only_probed_asked (a b : State) : only_probed a b -> asked 0 a b.
Proof.
  intros (C & H & F & I & N & P). unfold asked. cbn [skipn].
  rewrite Nat.add_0_r. auto 10.
Qed.

Lemma confirm_declined (st : State) (question : string) :
  interactive_mode st -> forallb declines (stdin st) = true ->
  confirm question st = (false, set_terminal (skipn 1 (stdin st)) (S (reads st)) st).
Proof.
  intros I D. rewrite (confirm_interactive st question I).
  now rewrite (confirm_loop_declines _ _ D).
Qed.

Lemma asked_set_terminal (st : State) :
  asked 1 st (set_terminal (skipn 1 (stdin st)) (S (reads st)) st).
Proof.
  unfold asked. cbn. repeat split; try lia.
  exists []. now rewrite app_nil_r.
Qed.

(** A declined prompt: the answer is no, and the session goes on as it
    was, one read later. *)
Lemma prompt_declined (software_name : string) (package_name flatpak_id : option string)
      (st : State) :
  interactive_mode st -> forallb declines (stdin st) = true ->
  exists st',
    prompt_install_or_update software_name package_name flatpak_id st = (false, st')
    /\ asked 1 st st'
    /\ interactive_mode st' /\ forallb declines (stdin st') = true.
Proof.
  intros [A D] P.
  destruct (prompt_is_one_confirm software_name package_name flatpak_id st A)
    as (st2 & q & K & E).
  pose proof K as (C & H & F & I & N & _).
  assert (I2 : interactive_mode st2) by (split; congruence).
  assert (P2 : forallb declines (stdin st2) = true) by now rewrite I.
  rewrite E, (confirm_declined st2 q I2 P2).
  eexists. split; [reflexivity|]. split; [|split].
  - exact (asked_trans 0 1 _ _ _ (only_probed_asked _ _ K) (asked_set_terminal st2)).
  - split; cbn; congruence.
  - cbn [stdin set_terminal]. now apply forallb_skipn.
Qed.

(** X20.  With no platform selected on the command line and every
    pending answer a no or an interrupt (or the input at its end),
    [install_gaming_platforms] installs nothing: it asks its four
    questions, reads the terminal four times, records no failure, and
    every process it starts is a five-second query. *)
Theorem declined_platforms_install_nothing (st : State) (sel : Selection) :
  interactive_mode st ->
  forallb declines (stdin st) = true ->
  sel_install_steam sel = false -> sel_install_lutris sel = false ->
  sel_install_gamemode sel = false -> sel_install_heroic sel = false ->
  let st' := snd (install_gaming_platforms sel st) in
  failed_operations st' = failed_operations st
  /\ stdin st' = skipn 4 (stdin st) /\ reads st' = reads st + 4
  /\ exists s, spawned st' = (spawned st ++ s)%list /\ Forall is_probe s.
Proof.
  intros I0 P0 F1 F2 F3 F4. cbv zeta.
  unfold install_gaming_platforms. rewrite F1, F2, F3, F4.
  unfold flag_or_prompt, bind.
  destruct (prompt_declined "Steam" (Some "steam-installer") None st I0 P0)
    as (st1 & E1 & A1 & I1 & P1).
  rewrite E1. cbn [when ret].
  destruct (prompt_declined "Lutris" None (Some "net.lutris.Lutris") st1 I1 P1)
    as (st2 & E2 & A2 & I2 & P2).
  rewrite E2. cbn [when ret].
  destruct (prompt_declined "GameMode" (Some "gamemode") None st2 I2 P2)
    as (st3 & E3 & A3 & I3 & P3).
  rewrite E3. cbn [when ret].
  destruct (prompt_declined "Heroic Games Launcher" None
                            (Some "com.heroicgameslauncher.hgl") st3 I3 P3)
    as (st4 & E4 & A4 & I4 & P4).
  rewrite E4. cbn [when ret snd].
  pose proof (asked_trans _ _ _ _ _ (asked_trans _ _ _ _ _
                (asked_trans _ _ _ _ _ A1 A2) A3) A4) as (_ & _ & F & S & N & W).
  exact (conj F (conj S (conj N W))).
Qed.

Lemma declined_platforms_install_nothing_witness :
  let st' := snd (install_gaming_platforms Selection_default st_declining) in
  failed_operations st' = []
  /\ stdin st' = [] /\ reads st' = 4
  /\ exists s, spawned st' = s /\ Forall is_probe s.
Proof.
  apply (declined_platforms_install_nothing st_declining Selection_default);
    first [ split; reflexivity | reflexivity ].
Defined.



Example driver_stage_declined_example :
  let st' := snd (run_driver_stage Selection_default "nvidia" st_declining) in
  spawned st' = [] /\ failed_operations st' = [] /\ reads st' = 1
  /\ stdin st' = [Answer "No"; KeyboardInterrupt].
Proof. repeat split. Qed.

(* ------------------------------------------------------------------ *)
(** ** The NVIDIA driver *)





(** Without [nvidia-smi] on the machine the question is asked, and a no
    is taken. *)
Example nvidia_declined_example :
  let st' := snd (install_nvidia_drivers st_nvidia_no_smi) in
  spawned st' = [probe_spawn ["dpkg"; "-l"; "nvidia-driver-550"];
                 probe_spawn ["nvidia-smi"]]
  /\ stdin st' = [Answer "y"] /\ reads st' = 1.
Proof. repeat split. Qed.

(* ------------------------------------------------------------------ *)
(** ** The distribution check *)

Lemma any_in_here (keys : list string) (a k b : string) :
  In (lower k) keys -> any_in keys (lower (a ++ k ++ b)) = true.
Proof.
  intros H. unfold any_in. apply existsb_exists. exists (lower k).
  split; [exact H|]. rewrite !lower_app. apply str_in_here.
Qed.

(** X23.  [check_ubuntu_version] ends the process only with status 0,
    and exactly when [/etc/os-release] was read, its text holds none of
    the nine family names anywhere, the session is interactive and the
    confirmation loop gives a no.  One family name anywhere in the
    file, in any letter case, makes it return without asking, and so
    does a file that cannot be read. *)
Theorem version_check_exits_only_on_no (st : State) (os_info : option string) :
  let families := ["ubuntu"; "debian"; "mint"; "kali"; "pop"; "elementary";
                   "zorin"; "mx linux"; "deepin"] in
  (forall code, fst (check_ubuntu_version os_info st) = Some code -> code = 0%Z)
  /\ (fst (check_ubuntu_version os_info st) = Some 0%Z <->
      exists text, os_info = Some text
                   /\ any_in families (lower text) = false
                   /\ interactive_mode st
                   /\ fst (fst (confirm_loop (stdin st) (reads st))) = false)
  /\ (forall a k b, In (lower k) families ->
                    check_ubuntu_version (Some (a ++ k ++ b)) st = (None, st))
  /\ check_ubuntu_version None st = (None, st).
Proof.
  cbv zeta. split; [|split; [|split]].
  - intros code. unfold check_ubuntu_version.
    destruct os_info as [text|]; [|discriminate].
    destruct (any_in _ _); [discriminate|]. cbn [negb]. unfold bind.
    destruct (confirm _ st) as [[] st1]; cbn; congruence.
  - unfold check_ubuntu_version, interactive_mode. split.
    + destruct os_info as [text|]; [|discriminate].
      destruct (any_in _ (lower text)) eqn:E; [discriminate|]. cbn [negb].
      unfold confirm, get_config, bind.
      destruct (auto_yes (config st)); [cbn; discriminate|].
      destruct (dry_run (config st)); [cbn; discriminate|].
      destruct (confirm_loop _ _) as [[[] rest] n]; cbn; [discriminate|].
      intros _. exists text. auto.
    + intros (text & -> & E & (A & D) & C). rewrite E. cbn [negb].
      unfold confirm, get_config, bind. rewrite A, D.
      destruct (confirm_loop _ _) as [[ans rest] n]. cbn in C. now subst ans.
  - intros a k b H. unfold check_ubuntu_version.
    now rewrite (any_in_here _ a k b H).
  - reflexivity.
Qed.

(** A Fedora file is asked about; one whose bug-report address holds
    the letters [pop] is not. *)
Example version_check_examples :
  let fedora := "NAME=" ++ quote ++ "Fedora Linux" ++ quote ++ nl ++ "ID=fedora" ++ nl in
  check_ubuntu_version (Some fedora) st_declining
  = (Some 0%Z, set_terminal [Answer "No"; KeyboardInterrupt] 1 st_declining)
  /\ check_ubuntu_version
       (Some (fedora ++ "BUG_REPORT_URL=https://bugs.example.org/popular" ++ nl))
       st_declining
     = (None, st_declining).
Proof. split; reflexivity. Qed.
